(** * edgar-query: the two MCP smoke-test scripts

    A shallow embedding of [simple-mcp-test.py] and [test-mcp.py].

    Both scripts start the SEC-EDGAR MCP container, write three JSON-RPC
    messages to its standard input, and scan its standard output line by
    line for one response.

    Conventions of the embedding
    - a Python [str] is a [string]; each [ascii] stands for the code point
      of the same number, so the model covers the strs whose code points
      are below 256;
    - the decoder of the [json] module is modelled on every such text
      ([Json.decode]); the strs it builds are lists of code points, since
      an escape names any of them, and [Json.loads] hands the scripts the
      values whose strs are within the model;
    - a decoded JSON document is a [json] value: Python [int] is [Z],
      Python [float] is an IEEE binary64 [spec_float], a [dict] is an
      association list in insertion order;
    - effects are threaded through a [world]: the trace of calls that
      leave the interpreter (process control and [print]), the lines handed
      to the JSON decoder, and the file system;
    - what the container answers is not decided by the scripts: it is an
      argument ([child]) of the functions that talk to it. *)

From Stdlib Require Import String Ascii List ZArith Lia Bool DecimalString.
From Stdlib Require Import Floats.SpecFloat.
Import ListNotations.

Local Open Scope list_scope.
Local Open Scope string_scope.

(* ================================================================== *)
(** ** Python [str] methods used by the scripts *)

Module PyStr.

(** The line separator the scripts split on and join with. *)
Definition LF : ascii := "010"%char.

(** The double quote, which a string literal of this file cannot hold. *)
Definition DQ : ascii := "034"%char.

(** [text "{'id': 2}"] is the str [{"id": 2}]: literals of this file are
    written with an apostrophe where the Python source has a double quote. *)
Fixpoint text (s : string) : string :=
  match s with
  | EmptyString => EmptyString
  | String c s' => String (if Ascii.eqb c "'"%char then DQ else c) (text s')
  end.

(** [str.isspace] on one code point below 256: TAB, LF, VT, FF, CR, the
    four separators FS GS RS US, SPACE, NEL and NO-BREAK SPACE. *)
Definition isspace (c : ascii) : bool :=
  let n := nat_of_ascii c in
  (((9 <=? n) && (n <=? 13)) || ((28 <=? n) && (n <=? 32))
   || (n =? 133) || (n =? 160))%nat.

(** [s.lstrip()] *)
Fixpoint lstrip (s : string) : string :=
  match s with
  | EmptyString => EmptyString
  | String c s' => if isspace c then lstrip s' else s
  end.

(** [s.rstrip()] *)
Fixpoint rstrip (s : string) : string :=
  match s with
  | EmptyString => EmptyString
  | String c s' =>
      match rstrip s' with
      | EmptyString => if isspace c then EmptyString else String c EmptyString
      | r => String c r
      end
  end.

(** [s.strip()] *)
Definition strip (s : string) : string := rstrip (lstrip s).

(** [s.split(sep)] for a separator of one character: never the empty
    list, and one more piece than there are separators. *)
Fixpoint split (sep : ascii) (s : string) : list string :=
  match s with
  | EmptyString => [EmptyString]
  | String c s' =>
      if Ascii.eqb c sep then EmptyString :: split sep s'
      else match split sep s' with
           | [] => [String c EmptyString]
           | w :: ws => String c w :: ws
           end
  end.

(** [sep.join(parts)] *)
Fixpoint join (sep : string) (parts : list string) : string :=
  match parts with
  | [] => EmptyString
  | [p] => p
  | p :: ps => p ++ sep ++ join sep ps
  end.

(** [s.startswith(p)] *)
Definition startswith (p s : string) : bool := String.prefix p s.

(** Truth value of a str: the empty str is falsy. *)
Definition truthy (s : string) : bool :=
  match s with EmptyString => false | _ => true end.

(** [s[:n]] for [n >= 0] *)
Fixpoint take (n : nat) (s : string) : string :=
  match n, s with
  | S n', String c s' => String c (take n' s')
  | _, _ => EmptyString
  end.

(** [needle in s]: substring test. *)
Fixpoint contains (needle s : string) : bool :=
  String.prefix needle s
  || match s with
     | EmptyString => false
     | String _ s' => contains needle s'
     end.

(** [c in s] for one character. *)
Fixpoint mem (c : ascii) (s : string) : bool :=
  match s with
  | EmptyString => false
  | String a s' => Ascii.eqb a c || mem c s'
  end.

(** Decimal text of an int, as [str(n)] gives it. *)
Definition of_Z (n : Z) : string := NilZero.string_of_int (Z.to_int n).

(** [c * n]: a run of [n] copies of one character. *)
Fixpoint rep (c : ascii) (n : nat) : string :=
  match n with
  | O => EmptyString
  | S n' => String c (rep c n')
  end.

(** The characters of a str, as iterating over it yields them. *)
Fixpoint chars (s : string) : list ascii :=
  match s with
  | EmptyString => []
  | String c s' => c :: chars s'
  end.

End PyStr.

(* ================================================================== *)
(** ** Python [float]: IEEE binary64 *)

Module PyFloat.

Local Open Scope Z_scope.

Definition prec : Z := 53.
Definition emax : Z := 1024.

(** The same number with the mantissa in canonical position. *)
Definition canon (f : spec_float) : spec_float :=
  match f with
  | S754_finite s m e => binary_round prec emax s m e
  | _ => f
  end.

(** [f == n] for a float and an int: Python compares the exact values. *)
Definition eq_int (f : spec_float) (n : Z) : bool :=
  match f with
  | S754_zero _ => n =? 0
  | S754_finite s m e =>
      let v := if s then Z.neg m else Z.pos m in
      if 0 <=? e then v * 2 ^ e =? n else v =? n * 2 ^ (- e)
  | _ => false
  end.

(** [float] of the decimal literal with sign [neg], digits [m >= 0] and
    exponent [e]: the binary64 nearest to [m * 10^e], ties to even.  For a
    negative exponent the quotient is taken with well over 1000 guard bits
    and a sticky last bit, which leaves the rounding of IEEE exact. *)
Definition of_decimal (neg : bool) (m e : Z) : spec_float :=
  match m with
  | Z.pos p =>
      if 0 <=? e then binary_round prec emax neg (p * Z.to_pos (10 ^ e)) 0
      else
        let d := 10 ^ (- e) in
        let s := Z.log2 d + 1200 in
        let q := (m * 2 ^ s) / d in
        let r := (m * 2 ^ s) mod d in
        let q' := 2 * q + (if r =? 0 then 0 else 1) in
        binary_round prec emax neg (Z.to_pos q') (- (s + 1))
  | _ => S754_zero neg
  end.

(** [10^d <= num / den] for positive [num] and [den]. *)
Definition pow10_le (num den d : Z) : bool :=
  if 0 <=? d then 10 ^ d * den <=? num else den <=? num * 10 ^ (- d).

(** The least [d], from [d0] upwards, with [num / den < 10^d]. *)
Fixpoint decpt_from (fuel : nat) (num den d0 : Z) : Z :=
  match fuel with
  | O => d0
  | S fuel' =>
      if pow10_le num den d0 then decpt_from fuel' num den (d0 + 1) else d0
  end.

(** Position of the decimal point of [num / den]:
    [10^(decpt - 1) <= num / den < 10^decpt]. *)
Definition decpt (num den : Z) : Z :=
  decpt_from 8 num den ((Z.log2 num - Z.log2 den) * 30103 / 100000 - 2).

(** The digits of the shortest decimal that reads back as [f], nearest to
    [f] when several of that length do: tried with 1, 2, ... significant
    digits, on the decimal just below [f] and the one just above.
    Returns the digits as an int and the exponent of its last digit. *)
Fixpoint shortest (fuel : nat) (f : spec_float) (num den dp n : Z)
  : Z * Z :=
  let k := dp - n in
  let top := if 0 <=? k then num else num * 10 ^ (- k) in
  let bot := if 0 <=? k then den * 10 ^ k else den in
  let t := top / bot in
  let r := top mod bot in
  match fuel with
  | O => (t, k)
  | S fuel' =>
      if r =? 0 then (t, k)
      else
        let lo := SFeqb (of_decimal false t k) f in
        let hi := SFeqb (of_decimal false (t + 1) k) f in
        if lo && hi then (if 2 * r <? bot then (t, k) else (t + 1, k))
        else if lo then (t, k)
        else if hi then (t + 1, k)
        else shortest fuel' f num den dp (n + 1)
  end.

(** Drops the zeros an int ends with, counting them. *)
Fixpoint drop_zeros (fuel : nat) (t k : Z) : Z * Z :=
  match fuel with
  | O => (t, k)
  | S fuel' =>
      if (t mod 10 =? 0) && negb (t =? 0) then drop_zeros fuel' (t / 10) (k + 1)
      else (t, k)
  end.

(** [repr] of a positive finite float, from its digits [ds] and the
    position [dp] of the decimal point before them (the value is
    [0.ds * 10^dp]): positional when [-4 < dp <= 16], else scientific
    with a signed exponent of two digits or more. *)
Definition format_short (ds : string) (dp : Z) : string :=
  let n := Z.of_nat (String.length ds) in
  if (-4 <? dp) && (dp <=? 16) then
    if dp <=? 0 then "0." ++ PyStr.rep "0" (Z.to_nat (- dp)) ++ ds
    else if dp <? n then
      PyStr.take (Z.to_nat dp) ds ++ "."
      ++ String.substring (Z.to_nat dp) (Z.to_nat (n - dp)) ds
    else ds ++ PyStr.rep "0" (Z.to_nat (dp - n)) ++ ".0"
  else
    let x := dp - 1 in
    let xs := PyStr.of_Z (Z.abs x) in
    PyStr.take 1 ds
    ++ (if 1 <? n then "." ++ String.substring 1 (Z.to_nat (n - 1)) ds else "")
    ++ "e" ++ (if x <? 0 then "-" else "+")
    ++ (if Z.abs x <? 10 then "0" else "") ++ xs.

(** [repr(f)] *)
Definition repr (f : spec_float) : string :=
  match canon f with
  | S754_zero s => if s then "-0.0" else "0.0"
  | S754_infinity s => if s then "-inf" else "inf"
  | S754_nan => "nan"
  | S754_finite s m e =>
      let num := if 0 <=? e then Z.pos m * 2 ^ e else Z.pos m in
      let den := if 0 <=? e then 1 else 2 ^ (- e) in
      let dp := decpt num den in
      let '(t, k) := shortest 17 (S754_finite false m e) num den dp 1 in
      let '(t', k') := drop_zeros 20 t k in
      let ds := PyStr.of_Z t' in
      (if s then "-" else "")
      ++ format_short ds (k' + Z.of_nat (String.length ds))
  end.

(** The text [json.dumps] writes for a float: [repr], but for the three
    values that are not JSON. *)
Definition json_text (f : spec_float) : string :=
  match canon f with
  | S754_nan => "NaN"
  | S754_infinity s => if s then "-Infinity" else "Infinity"
  | _ => repr f
  end.

End PyFloat.

(* ================================================================== *)
(** ** JSON values and the Python operations the scripts apply to them *)

(** What [json.loads] returns, and what [json.dumps] takes: [None],
    [bool], [int], [float], [str], [list], and [dict] with str keys (the
    members in insertion order, each key once). *)
#[warning="-register-all"]
Inductive json : Type :=
| JNull
| JBool (b : bool)
| JInt (n : Z)
| JFloat (f : spec_float)
| JStr (s : string)
| JArr (items : list json)
| JObj (members : list (string * json)).

(** The exception classes that can reach a handler of the scripts. *)
Inductive exc_type : Type :=
| KeyError
| TypeError
| AttributeError
| TimeoutExpired
| OtherException (name : string)   (* any other subclass of Exception *)
| NotAnException (name : string).  (* KeyboardInterrupt, SystemExit *)

(** A raised exception: its class and [str(e)]. *)
Record py_exn : Type := Exc { exc_class : exc_type; exc_str : string }.

(** [isinstance(e, Exception)]: what [except Exception] catches. *)
Definition is_Exception (e : py_exn) : bool :=
  match exc_class e with NotAnException _ => false | _ => true end.

(** [isinstance(e, subprocess.TimeoutExpired)] *)
Definition is_TimeoutExpired (e : py_exn) : bool :=
  match exc_class e with TimeoutExpired => true | _ => false end.

(** A Python expression either has a value or raises. *)
Inductive res (A : Type) : Type :=
| Val (a : A)
| Err (e : py_exn).
Arguments Val {A} a.
Arguments Err {A} e.

Module Py.

(** [type(v).__name__] *)
Definition type_name (v : json) : string :=
  match v with
  | JNull => "NoneType"
  | JBool _ => "bool"
  | JInt _ => "int"
  | JFloat _ => "float"
  | JStr _ => "str"
  | JArr _ => "list"
  | JObj _ => "dict"
  end.

(** Two lower-case hexadecimal digits. *)
Definition hex_digit (n : nat) : ascii :=
  ascii_of_nat (if Nat.ltb n 10 then 48 + n else 87 + n).

Definition hex2 (c : ascii) : string :=
  let n := nat_of_ascii c in
  String (hex_digit (n / 16)) (String (hex_digit (n mod 16)) EmptyString).

(** [str.isprintable] on one code point below 256. *)
Definition isprintable (c : ascii) : bool :=
  let n := nat_of_ascii c in
  (((32 <=? n) && (n <=? 126)) || ((161 <=? n) && negb (n =? 173)))%nat.

(** One character of [repr(s)], inside the quote [q]. *)
Definition repr_char (q c : ascii) : string :=
  if Ascii.eqb c q || Ascii.eqb c "\"%char then String "\"%char (String c EmptyString)
  else if Ascii.eqb c "009"%char then "\t"
  else if Ascii.eqb c "010"%char then "\n"
  else if Ascii.eqb c "013"%char then "\r"
  else if isprintable c then String c EmptyString
  else "\x" ++ hex2 c.

Fixpoint repr_chars (q : ascii) (s : string) : string :=
  match s with
  | EmptyString => EmptyString
  | String c s' => repr_char q c ++ repr_chars q s'
  end.

(** [repr(s)] of a str: in apostrophes, unless it holds an apostrophe and
    no double quote. *)
Definition repr_str (s : string) : string :=
  let q := if PyStr.mem "'"%char s && negb (PyStr.mem PyStr.DQ s)
           then PyStr.DQ else "'"%char in
  String q (repr_chars q s ++ String q EmptyString).

(** [repr(v)] *)
Fixpoint repr (v : json) : string :=
  match v with
  | JNull => "None"
  | JBool b => if b then "True" else "False"
  | JInt n => PyStr.of_Z n
  | JFloat f => PyFloat.repr f
  | JStr s => repr_str s
  | JArr items => "[" ++ PyStr.join ", " (map repr items) ++ "]"
  | JObj members =>
      "{" ++ PyStr.join ", "
               (map (fun kv => repr_str (fst kv) ++ ": " ++ repr (snd kv)) members)
          ++ "}"
  end.

(** [str(v)], which an f-string field without a format writes. *)
Definition str (v : json) : string :=
  match v with
  | JStr s => s
  | _ => repr v
  end.

(** [d.get(k)] on the members of a dict, [None] when the key is absent. *)
Fixpoint lookup (k : string) (members : list (string * json)) : option json :=
  match members with
  | [] => None
  | (k', v) :: rest => if String.eqb k' k then Some v else lookup k rest
  end.

Definition has_key (k : string) (members : list (string * json)) : bool :=
  match lookup k members with Some _ => true | None => false end.

(** [x == k] for a str [k] *)
Definition eq_str (x : json) (k : string) : bool :=
  match x with JStr s => String.eqb s k | _ => false end.

(** [x == n] for an int [n]: [True == 1], [2.0 == 2]. *)
Definition eq_int (x : json) (n : Z) : bool :=
  match x with
  | JInt z => Z.eqb z n
  | JBool b => Z.eqb (Z.b2z b) n
  | JFloat f => PyFloat.eq_int f n
  | _ => false
  end.

Definition type_error (msg : string) : py_exn := Exc TypeError msg.

(** [k in v] for a str [k]: key of a dict, element of a list, substring
    of a str; the other types are no containers. *)
Definition contains (k : string) (v : json) : res bool :=
  match v with
  | JObj members => Val (has_key k members)
  | JArr items => Val (existsb (fun x => eq_str x k) items)
  | JStr s => Val (PyStr.contains k s)
  | _ => Err (type_error ("argument of type '" ++ type_name v ++ "' is not iterable"))
  end.

(** [v[k]] for a str [k] *)
Definition getitem (v : json) (k : string) : res json :=
  match v with
  | JObj members =>
      match lookup k members with
      | Some x => Val x
      | None => Err (Exc KeyError (repr_str k))
      end
  | JArr _ => Err (type_error "list indices must be integers or slices, not str")
  | JStr _ => Err (type_error "string indices must be integers, not 'str'")
  | _ => Err (type_error ("'" ++ type_name v ++ "' object is not subscriptable"))
  end.

(** [v.get(k)]: only a dict has the method. *)
Definition get (v : json) (k : string) : res json :=
  match v with
  | JObj members =>
      match lookup k members with
      | Some x => Val x
      | None => Val JNull
      end
  | _ => Err (Exc AttributeError
                  ("'" ++ type_name v ++ "' object has no attribute 'get'"))
  end.

(** [len(v)] *)
Definition len (v : json) : res nat :=
  match v with
  | JObj members => Val (List.length members)
  | JArr items => Val (List.length items)
  | JStr s => Val (String.length s)
  | _ => Err (type_error ("object of type '" ++ type_name v ++ "' has no len()"))
  end.

(** [v[:n]]: a list or a str keeps its first [n] elements; a dict takes
    the slice for a key (unhashable before Python 3.12, absent from it). *)
Definition slice_to (n : nat) (v : json) : res json :=
  match v with
  | JArr items => Val (JArr (firstn n items))
  | JStr s => Val (JStr (PyStr.take n s))
  | JObj _ => Err (type_error "unhashable type: 'slice'")
  | _ => Err (type_error ("'" ++ type_name v ++ "' object is not subscriptable"))
  end.

(** The elements a [for] loop over [v] visits. *)
Definition iter (v : json) : res (list json) :=
  match v with
  | JArr items => Val items
  | JStr s => Val (map (fun c => JStr (String c EmptyString)) (PyStr.chars s))
  | JObj members => Val (map (fun kv => JStr (fst kv)) members)
  | _ => Err (type_error ("'" ++ type_name v ++ "' object is not iterable"))
  end.

End Py.

(* ================================================================== *)
(** ** The [json] module: [dumps] and [loads] *)

Module Json.

Import PyStr.

(** One character of a str as [json.dumps] writes it ([ensure_ascii]
    is on): the two-character escapes, the character itself from SPACE to
    TILDE, a [\u00XX] escape otherwise. *)
Definition escape_char (c : ascii) : string :=
  if Ascii.eqb c DQ then String "\"%char (String DQ EmptyString)
  else if Ascii.eqb c "\"%char then "\\"
  else if Ascii.eqb c "010"%char then "\n"
  else if Ascii.eqb c "013"%char then "\r"
  else if Ascii.eqb c "009"%char then "\t"
  else if Ascii.eqb c "008"%char then "\b"
  else if Ascii.eqb c "012"%char then "\f"
  else if ((32 <=? nat_of_ascii c) && (nat_of_ascii c <=? 126))%nat
       then String c EmptyString
  else "\u00" ++ Py.hex2 c.

Fixpoint escape (s : string) : string :=
  match s with
  | EmptyString => EmptyString
  | String c s' => escape_char c ++ escape s'
  end.

(** A str as a JSON string. *)
Definition encode_str (s : string) : string :=
  String DQ (escape s ++ String DQ EmptyString).

(** [json.dumps(v)]: one line, [", "] between items and [": "] after a
    key. *)
Fixpoint dumps (v : json) : string :=
  match v with
  | JNull => "null"
  | JBool b => if b then "true" else "false"
  | JInt n => of_Z n
  | JFloat f => PyFloat.json_text f
  | JStr s => encode_str s
  | JArr items => "[" ++ join ", " (map dumps items) ++ "]"
  | JObj members =>
      "{" ++ join ", "
               (map (fun kv => encode_str (fst kv) ++ ": " ++ dumps (snd kv))
                    members)
          ++ "}"
  end.

(** A line break followed by the indentation of nesting depth [level]. *)
Definition newline_indent (indent level : nat) : string :=
  String LF (rep " " (indent * level)).

(** [json.dumps(v, indent=indent)] at nesting depth [level]: every item
    of a non-empty container on a line of its own. *)
Fixpoint dumps_at (indent level : nat) (v : json) : string :=
  match v with
  | JArr ((_ :: _) as items) =>
      "[" ++ newline_indent indent (S level)
      ++ join ("," ++ newline_indent indent (S level))
              (map (fun x => dumps_at indent (S level) x) items)
      ++ newline_indent indent level ++ "]"
  | JObj ((_ :: _) as members) =>
      "{" ++ newline_indent indent (S level)
      ++ join ("," ++ newline_indent indent (S level))
              (map (fun kv => encode_str (fst kv) ++ ": "
                              ++ dumps_at indent (S level) (snd kv))
                   members)
      ++ newline_indent indent level ++ "}"
  | JArr [] => "[]"
  | JObj [] => "{}"
  | _ => dumps v
  end.

Definition dumps_indent (indent : nat) (v : json) : string :=
  dumps_at indent 0 v.

(** *** Decoding *)

(** What a call of [json.loads] does: it returns a value, raises
    [json.JSONDecodeError], or raises something else. *)
Inductive decoded : Type :=
| Decoded (v : json)
| DecodeError
| DecoderRaised (e : py_exn).

(** A value as the decoder builds it.  Its strs are lists of code
    points: a [\uXXXX] escape names any code point, also in a text whose
    own characters are all below 256. *)
#[warning="-register-all"]
Inductive wide : Type :=
| WNull
| WBool (b : bool)
| WInt (n : Z)
| WFloat (f : spec_float)
| WStr (s : list Z)
| WArr (items : list wide)
| WObj (members : list (list Z * wide)).

(** Result of one scanning step: a value and the text after it. *)
Inductive parsed (A : Type) : Type :=
| Parsed (a : A) (rest : string)
| Malformed
| Raises (e : py_exn).
Arguments Parsed {A} a rest.
Arguments Malformed {A}.
Arguments Raises {A} e.

(** Deeper nesting than the decoder's recursion allows. *)
Definition recursion_error : py_exn :=
  Exc (OtherException "RecursionError")
      "maximum recursion depth exceeded while decoding a JSON document".

(** A decoded value with a code point that no [ascii] stands for: the
    value is outside the strs the scripts of this development handle. *)
Definition outside_latin1 : py_exn :=
  Exc (OtherException "CodePointAbove255")
      "escape of a code point above U+00FF".

(** JSON whitespace: SPACE, TAB, LF, CR. *)
Definition is_ws (c : ascii) : bool :=
  Ascii.eqb c " "%char || Ascii.eqb c "009"%char
  || Ascii.eqb c "010"%char || Ascii.eqb c "013"%char.

Fixpoint skip_ws (s : string) : string :=
  match s with
  | String c s' => if is_ws c then skip_ws s' else s
  | EmptyString => EmptyString
  end.

Definition digit_val (c : ascii) : option Z :=
  let n := nat_of_ascii c in
  if ((48 <=? n) && (n <=? 57))%nat then Some (Z.of_nat (n - 48)) else None.

Definition hex_val (c : ascii) : option Z :=
  let n := nat_of_ascii c in
  if ((48 <=? n) && (n <=? 57))%nat then Some (Z.of_nat (n - 48))
  else if ((97 <=? n) && (n <=? 102))%nat then Some (Z.of_nat (n - 87))
  else if ((65 <=? n) && (n <=? 70))%nat then Some (Z.of_nat (n - 55))
  else None.

(** The code point of four hexadecimal digits. *)
Definition hex4 (a b c d : ascii) : option Z :=
  match hex_val a, hex_val b, hex_val c, hex_val d with
  | Some x, Some y, Some z, Some w => Some (((x * 16 + y) * 16 + z) * 16 + w)%Z
  | _, _, _, _ => None
  end.

(** The character a backslash escape of one letter stands for. *)
Definition unescape (c : ascii) : option ascii :=
  if Ascii.eqb c DQ then Some DQ
  else if Ascii.eqb c "\"%char then Some "\"%char
  else if Ascii.eqb c "/"%char then Some "/"%char
  else if Ascii.eqb c "b"%char then Some "008"%char
  else if Ascii.eqb c "f"%char then Some "012"%char
  else if Ascii.eqb c "n"%char then Some "010"%char
  else if Ascii.eqb c "r"%char then Some "013"%char
  else if Ascii.eqb c "t"%char then Some "009"%char
  else None.

(** The code point of a character of the text. *)
Definition code_point (c : ascii) : Z := Z.of_nat (nat_of_ascii c).

Definition parsed_cons (cp : Z) (p : parsed (list Z)) : parsed (list Z) :=
  match p with
  | Parsed s rest => Parsed (cp :: s) rest
  | other => other
  end.

(** The two halves of a surrogate pair, and the code point they write. *)
Definition is_high_surrogate (cp : Z) : bool :=
  ((55296 <=? cp) && (cp <=? 56319))%Z.

Definition is_low_surrogate (cp : Z) : bool :=
  ((56320 <=? cp) && (cp <=? 57343))%Z.

Definition join_surrogates (high low : Z) : Z :=
  (65536 + ((high - 55296) * 1024 + (low - 56320)))%Z.

(** The body of a JSON string, from after its opening quote up to its
    closing quote; a raw control character is an error.  A [\uXXXX]
    escape of a high surrogate takes a [\uXXXX] escape of a low surrogate
    right after it as its second half. *)
Fixpoint scanstring (s : string) : parsed (list Z) :=
  match s with
  | EmptyString => Malformed
  | String c s' =>
      if Ascii.eqb c DQ then Parsed [] s'
      else if Ascii.eqb c "\"%char then
        match s' with
        | String "u"%char (String h1 (String h2 (String h3 (String h4 rest)))) =>
            match hex4 h1 h2 h3 h4 with
            | Some cp =>
                if is_high_surrogate cp then
                  match rest with
                  | String "\"%char
                      (String "u"%char
                         (String k1 (String k2 (String k3 (String k4 rest'))))) =>
                      match hex4 k1 k2 k3 k4 with
                      | Some cp' =>
                          if is_low_surrogate cp'
                          then parsed_cons (join_surrogates cp cp')
                                           (scanstring rest')
                          else parsed_cons cp (scanstring rest)
                      | None => Malformed
                      end
                  | _ => parsed_cons cp (scanstring rest)
                  end
                else parsed_cons cp (scanstring rest)
            | None => Malformed
            end
        | String e s'' =>
            match unescape e with
            | Some ch => parsed_cons (code_point ch) (scanstring s'')
            | None => Malformed
            end
        | EmptyString => Malformed
        end
      else if (nat_of_ascii c <? 32)%nat then Malformed
      else parsed_cons (code_point c) (scanstring s')
  end.

(** The longest run of decimal digits a text starts with, as the number it
    writes and its length, and the text after it. *)
Fixpoint span_digits (acc : Z) (n : nat) (s : string) : Z * nat * string :=
  match s with
  | String c s' =>
      match digit_val c with
      | Some d => span_digits (acc * 10 + d) (S n) s'
      | None => (acc, n, s)
      end
  | EmptyString => (acc, n, s)
  end.

(** The fraction of a number: a point and one digit or more.  Returns the
    digits read so far extended by the fraction, and its length. *)
Definition scan_frac (int_part : Z) (s : string) : option (Z * nat * string) :=
  match s with
  | String "."%char s' =>
      match span_digits int_part 0 s' with
      | (_, O, _) => None
      | r => Some r
      end
  | _ => None
  end.

(** The exponent of a number: [e] or [E], a sign or none, and one digit or
    more. *)
Definition scan_exp (s : string) : option (Z * string) :=
  match s with
  | String c s' =>
      if Ascii.eqb c "e"%char || Ascii.eqb c "E"%char then
        let '(neg, s'') :=
          match s' with
          | String "-"%char t => (true, t)
          | String "+"%char t => (false, t)
          | _ => (false, s')
          end in
        match span_digits 0 0 s'' with
        | (_, O, _) => None
        | (x, _, rest) => Some (if neg then (- x)%Z else x, rest)
        end
      else None
  | EmptyString => None
  end.

(** A number: an int when it has neither fraction nor exponent, a float
    otherwise.  [s] starts after the minus sign, if there was one. *)
Definition scan_number (neg : bool) (s : string) : parsed wide :=
  let int_part :=
    match s with
    | String "0"%char s' => Some (0%Z, s')
    | _ => match span_digits 0 0 s with
           | (_, O, _) => None
           | (n, _, rest) => Some (n, rest)
           end
    end in
  match int_part with
  | None => Malformed
  | Some (n, rest) =>
      let '(m, nfrac, rest1, has_frac) :=
        match scan_frac n rest with
        | Some (m, k, r) => (m, k, r, true)
        | None => (n, O, rest, false)
        end in
      match scan_exp rest1 with
      | Some (x, rest2) =>
          Parsed (WFloat (PyFloat.of_decimal neg m (x - Z.of_nat nfrac))) rest2
      | None =>
          if has_frac
          then Parsed (WFloat (PyFloat.of_decimal neg m (- Z.of_nat nfrac))) rest1
          else Parsed (WInt (if neg then (- n)%Z else n)) rest1
      end
  end.

(** [s] without the prefix [p], when it starts with it. *)
Fixpoint after_prefix (p s : string) : option string :=
  match p, s with
  | EmptyString, _ => Some s
  | String a p', String b s' => if Ascii.eqb a b then after_prefix p' s' else None
  | _, EmptyString => None
  end.

Definition scan_const (p : string) (v : wide) (s : string) : parsed wide :=
  match after_prefix p s with
  | Some rest => Parsed v rest
  | None => Malformed
  end.

(** Two strs are the same key when they have the same code points. *)
Fixpoint same_key (a b : list Z) : bool :=
  match a, b with
  | [], [] => true
  | x :: a', y :: b' => Z.eqb x y && same_key a' b'
  | _, _ => false
  end.

(** [d[k] = v] on the members of a dict: a key already there keeps its
    place and takes the new value. *)
Fixpoint dict_set (k : list Z) (v : wide) (members : list (list Z * wide))
  : list (list Z * wide) :=
  match members with
  | [] => [(k, v)]
  | (k', v') :: rest =>
      if same_key k' k then (k, v) :: rest
      else (k', v') :: dict_set k v rest
  end.

(** [dict(pairs)] *)
Definition dict_of_pairs (pairs : list (list Z * wide)) : list (list Z * wide) :=
  fold_left (fun d kv => dict_set (fst kv) (snd kv) d) pairs [].

(** One JSON value at the start of [s]; [array_items] and
    [object_members] read on after the first item of a non-empty array or
    object, with the items read so far (latest first) in [acc]. *)
Fixpoint scan_once (fuel : nat) (s : string) : parsed wide :=
  match fuel with
  | O => Raises recursion_error
  | S fuel' =>
      match s with
      | EmptyString => Malformed
      | String c s' =>
          if Ascii.eqb c DQ then
            match scanstring s' with
            | Parsed str rest => Parsed (WStr str) rest
            | Malformed => Malformed
            | Raises e => Raises e
            end
          else if Ascii.eqb c "{"%char then
            match skip_ws s' with
            | String "}"%char rest => Parsed (WObj []) rest
            | body => object_members fuel' body []
            end
          else if Ascii.eqb c "["%char then
            match skip_ws s' with
            | String "]"%char rest => Parsed (WArr []) rest
            | body => array_items fuel' body []
            end
          else if Ascii.eqb c "n"%char then scan_const "null" WNull s
          else if Ascii.eqb c "t"%char then scan_const "true" (WBool true) s
          else if Ascii.eqb c "f"%char then scan_const "false" (WBool false) s
          else if Ascii.eqb c "N"%char then scan_const "NaN" (WFloat S754_nan) s
          else if Ascii.eqb c "I"%char
               then scan_const "Infinity" (WFloat (S754_infinity false)) s
          else if Ascii.eqb c "-"%char then
            match scan_number true s' with
            | Malformed => scan_const "-Infinity" (WFloat (S754_infinity true)) s
            | r => r
            end
          else scan_number false s
      end
  end

with array_items (fuel : nat) (s : string) (acc : list wide) : parsed wide :=
  match fuel with
  | O => Raises recursion_error
  | S fuel' =>
      match scan_once fuel' s with
      | Parsed v rest =>
          match skip_ws rest with
          | String "]"%char rest' => Parsed (WArr (rev (v :: acc))) rest'
          | String ","%char rest' => array_items fuel' (skip_ws rest') (v :: acc)
          | _ => Malformed
          end
      | Malformed => Malformed
      | Raises e => Raises e
      end
  end

with object_members (fuel : nat) (s : string) (acc : list (list Z * wide))
  : parsed wide :=
  match fuel with
  | O => Raises recursion_error
  | S fuel' =>
      match s with
      | String c s' =>
          if Ascii.eqb c DQ then
            match scanstring s' with
            | Parsed key rest =>
                match skip_ws rest with
                | String ":"%char rest' =>
                    match scan_once fuel' (skip_ws rest') with
                    | Parsed v rest'' =>
                        match skip_ws rest'' with
                        | String "}"%char r =>
                            Parsed (WObj (dict_of_pairs (rev ((key, v) :: acc)))) r
                        | String ","%char r =>
                            object_members fuel' (skip_ws r) ((key, v) :: acc)
                        | _ => Malformed
                        end
                    | Malformed => Malformed
                    | Raises e => Raises e
                    end
                | _ => Malformed
                end
            | Malformed => Malformed
            | Raises e => Raises e
            end
          else Malformed
      | EmptyString => Malformed
      end
  end.

(** What the decoder does with a text: a value, [json.JSONDecodeError],
    or another exception. *)
Inductive scanned : Type :=
| Scanned (v : wide)
| ScanError
| ScanRaised (e : py_exn).

(** The decoder of the library on a text: one value between optional
    whitespace and nothing else.  The fuel, twice the length of the text,
    is never used up: each level of the recursion has read a character of
    its own. *)
Definition decode (s : string) : scanned :=
  match scan_once (2 * String.length s + 2) (skip_ws s) with
  | Parsed v rest =>
      match skip_ws rest with
      | EmptyString => Scanned v
      | _ => ScanError
      end
  | Malformed => ScanError
  | Raises e => ScanRaised e
  end.

(** A str of the decoder as a [string], when its code points are all
    below 256. *)
Definition narrow_char (cp : Z) : option ascii :=
  if ((0 <=? cp) && (cp <? 256))%Z then Some (ascii_of_N (Z.to_N cp)) else None.

Fixpoint narrow_str (s : list Z) : option string :=
  match s with
  | [] => Some EmptyString
  | cp :: s' =>
      match narrow_char cp, narrow_str s' with
      | Some c, Some r => Some (String c r)
      | _, _ => None
      end
  end.

(** A value of the decoder as a [json] value, when all its strs, keys
    included, have their code points below 256. *)
Fixpoint narrow (v : wide) : option json :=
  match v with
  | WNull => Some JNull
  | WBool b => Some (JBool b)
  | WInt n => Some (JInt n)
  | WFloat f => Some (JFloat f)
  | WStr s => option_map JStr (narrow_str s)
  | WArr items =>
      option_map JArr
        ((fix all (l : list wide) : option (list json) :=
            match l with
            | [] => Some []
            | x :: r =>
                match narrow x, all r with
                | Some y, Some ys => Some (y :: ys)
                | _, _ => None
                end
            end) items)
  | WObj members =>
      option_map JObj
        ((fix all (l : list (list Z * wide)) : option (list (string * json)) :=
            match l with
            | [] => Some []
            | (k, x) :: r =>
                match narrow_str k, narrow x, all r with
                | Some k', Some y, Some ys => Some ((k', y) :: ys)
                | _, _, _ => None
                end
            end) members)
  end.

(** [json.loads(s)] as the scripts of this development see it: the value
    of the decoder when it is a [json] value.  A value that holds a code
    point above U+00FF is outside the model, and marked as such. *)
Definition loads (s : string) : decoded :=
  match decode s with
  | Scanned v =>
      match narrow v with
      | Some j => Decoded j
      | None => DecoderRaised outside_latin1
      end
  | ScanError => DecodeError
  | ScanRaised e => DecoderRaised e
  end.

End Json.

(* ================================================================== *)
(** ** Effects: the world outside the interpreter *)

(** What a script does to the world, in the order it does it. *)
Inductive event : Type :=
| Spawn (argv : list string)
    (* a child process is started, its three streams piped *)
| Communicate (input : string) (timeout : Z)
    (* [input] is written to the child's stdin, which is then closed, and
       its output is awaited for at most [timeout] seconds *)
| Kill
    (* the child is killed *)
| Print (line : string).
    (* [line] and a line break are written to the script's stdout *)

(** The world a script runs in: the events so far (oldest first), the
    texts handed to [json.loads] so far (oldest first), and the durable
    state of the machine, its files by path. *)
Record world : Type := World {
  trace : list event;
  decoder_calls : list string;
  files : list (string * string)
}.

(** What the started container does; the scripts do not decide it. *)
Inductive child : Type :=
| Exits (stdout stderr : string)  (* ends within the timeout *)
| TimesOut                        (* still runs when the timeout expires *)
| CannotStart (e : py_exn)        (* the process cannot be created *)
| BreaksPipe (e : py_exn).        (* talking to it fails otherwise *)

(** A statement or expression with effects: from a world to a value or a
    raised exception, and the world after. *)
Definition py (A : Type) : Type := world -> res A * world.

Definition ret {A : Type} (a : A) : py A := fun w => (Val a, w).

Definition raise {A : Type} (e : py_exn) : py A := fun w => (Err e, w).

Definition bind {A B : Type} (m : py A) (k : A -> py B) : py B :=
  fun w => match m w with
           | (Val a, w') => k a w'
           | (Err e, w') => (Err e, w')
           end.

Notation "x <- m ;; k" := (bind m (fun x => k))
  (at level 61, m at next level, right associativity).
Notation "m ;;; k" := (bind m (fun _ => k))
  (at level 61, right associativity).

(** A pure Python operation inside a statement. *)
Definition lift {A : Type} (r : res A) : py A := fun w => (r, w).

(** [try: body  except ... as e: handler e]; a handler that does not
    apply to [e] raises it again. *)
Definition try_except {A : Type} (body : py A) (handler : py_exn -> py A)
  : py A :=
  fun w => match body w with
           | (Val a, w') => (Val a, w')
           | (Err e, w') => handler e w'
           end.

Definition emit (ev : event) : py unit :=
  fun w => (Val tt, World (trace w ++ [ev]) (decoder_calls w) (files w)).

(** [print(line)] *)
Definition print (line : string) : py unit := emit (Print line).

(** How a [for] body leaves an iteration: on to the next item, or out of
    the loop. *)
Inductive flow : Type := Continue | Break.

(** [for x in items: body x] *)
Fixpoint for_each {A : Type} (items : list A) (body : A -> py flow) : py unit :=
  match items with
  | [] => ret tt
  | x :: rest =>
      f <- body x ;;
      match f with
      | Continue => for_each rest body
      | Break => ret tt
      end
  end.

(** *** The [subprocess] module *)

Module Subprocess.

(** [str(e)] of the [TimeoutExpired] that a call on [argv] raises. *)
Definition timeout_expired (argv : list string) (timeout : Z) : py_exn :=
  Exc TimeoutExpired
      ("Command '" ++ Py.repr (JArr (map JStr argv)) ++ "' timed out after "
       ++ PyStr.of_Z timeout ++ " seconds").

(** [Popen(argv, stdin=PIPE, stdout=PIPE, stderr=PIPE, text=True)] *)
Definition popen (argv : list string) (c : child) : py unit :=
  emit (Spawn argv) ;;;
  match c with
  | CannotStart e => raise e
  | _ => ret tt
  end.

(** [process.communicate(input=input, timeout=timeout)]: the pair of the
    child's whole stdout and stderr. *)
Definition communicate (argv : list string) (input : string) (timeout : Z)
    (c : child) : py (string * string) :=
  emit (Communicate input timeout) ;;;
  match c with
  | Exits out err => ret (out, err)
  | TimesOut => raise (timeout_expired argv timeout)
  | BreaksPipe e => raise e
  | CannotStart e => raise e
  end.

(** [process.kill()] *)
Definition kill : py unit := emit Kill.

(** [subprocess.run(argv, input=input, text=True, capture_output=True,
    timeout=timeout)]: starts the child, communicates, and on any
    exception kills the child before raising it again.  The value is the
    pair of [result.stdout] and [result.stderr]. *)
Definition run (argv : list string) (input : string) (timeout : Z)
    (c : child) : py (string * string) :=
  popen argv c ;;;
  try_except (communicate argv input timeout c)
             (fun e => kill ;;; raise e).

End Subprocess.

(* ================================================================== *)
(** ** The scripts *)

(** [json.loads(line)] as a statement: the call is recorded, and what it
    did is handed on, so that the [except json.JSONDecodeError] clause
    around it can be written as a case of the result. *)
Definition call_loads (loads : string -> Json.decoded) (line : string)
  : py Json.decoded :=
  fun w => (Val (loads line),
            World (trace w) (decoder_calls w ++ [line]) (files w)).

(** The command line of both scripts. *)
Definition docker_cmd : list string :=
  [ "docker"; "run"; "--rm"; "-i";
    "-e"; "SEC_EDGAR_USER_AGENT=EdgarAnswerEngine/2.0 (brett.vantil@crowe.com)";
    "stefanoamorelli/sec-edgar-mcp:latest" ].

(** *** simple-mcp-test.py *)

Module SimpleMcpTest.

Import PyStr.

Definition requests : list string :=
  [ text "{'jsonrpc': '2.0', 'id': 1, 'method': 'initialize', 'params': {'protocolVersion': '2024-11-05', 'capabilities': {}, 'clientInfo': {'name': 'test', 'version': '1.0.0'}}}";
    text "{'jsonrpc': '2.0', 'method': 'notifications/initialized'}";
    text "{'jsonrpc': '2.0', 'id': 2, 'method': 'tools/call', 'params': {'name': 'get_cik_by_ticker', 'arguments': {'ticker': 'AAPL'}}}" ].

Definition input_data : string :=
  join (String LF EmptyString) requests ++ String LF EmptyString.

Definition cmd : list string := docker_cmd.

Section Decoder.

(** [json.loads], of the Python library. *)
Variable loads : string -> Json.decoded.

(** The guard of the loop: [line.strip() and line.startswith('{')]. *)
Definition wanted (line : string) : bool :=
  truthy (strip line) && startswith "{" line.

(** The body of the loop over the lines of the output.  Only
    [json.loads] can raise [JSONDecodeError] inside the [try], so the
    [except json.JSONDecodeError: continue] clause is the [DecodeError]
    case of its result.  [return] is [Break]: the loop is the last
    statement of the function. *)
Definition scan_line (line : string) : py flow :=
  if wanted line then
    d <- call_loads loads line ;;
    match d with
    | Json.DecodeError => ret Continue
    | Json.DecoderRaised e => raise e
    | Json.Decoded response =>
        id <- lift (Py.get response "id") ;;
        if Py.eq_int id 2 then
          print "SUCCESS! Apple's CIK data:" ;;;
          print (Json.dumps_indent 2 response) ;;;
          ret Break
        else ret Continue
    end
  else ret Continue.

Definition test_apple_cik (c : child) : py unit :=
  try_except
    (result <- Subprocess.run cmd input_data 15 c ;;
     print "=== RAW OUTPUT ===" ;;;
     print ("STDOUT: " ++ fst result) ;;;
     print ("STDERR: " ++ snd result) ;;;
     print (String LF "=== PARSED RESPONSES ===") ;;;
     for_each (split LF (strip (fst result))) scan_line)
    (fun e =>
       if is_TimeoutExpired e then print "Request timed out"
       else if is_Exception e then print ("Error: " ++ exc_str e)
       else raise e).

End Decoder.

End SimpleMcpTest.

(** *** test-mcp.py *)

Module TestMcp.

Import PyStr.

Definition cmd : list string := docker_cmd.

Definition init_request : json :=
  JObj [ ("jsonrpc", JStr "2.0");
         ("id", JInt 1);
         ("method", JStr "initialize");
         ("params",
          JObj [ ("protocolVersion", JStr "2024-11-05");
                 ("capabilities", JObj []);
                 ("clientInfo",
                  JObj [ ("name", JStr "test-client");
                         ("version", JStr "1.0.0") ]) ]) ].

Definition init_notification : json :=
  JObj [ ("jsonrpc", JStr "2.0");
         ("method", JStr "notifications/initialized") ].

Definition requests (request : json) : list string :=
  [ Json.dumps init_request ++ String LF EmptyString;
    Json.dumps init_notification ++ String LF EmptyString;
    Json.dumps request ++ String LF EmptyString ].

(** [send_mcp_request(request)]: the pair [(stdout, stderr)], where
    [stdout] is [None] after a timeout. *)
Definition send_mcp_request (request : json) (c : child)
  : py (option string * string) :=
  Subprocess.popen cmd c ;;;
  try_except
    (out <- Subprocess.communicate cmd (join "" (requests request)) 30 c ;;
     ret (Some (fst out), snd out))
    (fun e =>
       if is_TimeoutExpired e then Subprocess.kill ;;; ret (None, "Timeout")
       else raise e).

(** The two requests of the main block. *)
Definition list_request : json :=
  JObj [ ("jsonrpc", JStr "2.0"); ("id", JInt 2); ("method", JStr "tools/list") ].

Definition cik_request : json :=
  JObj [ ("jsonrpc", JStr "2.0");
         ("id", JInt 3);
         ("method", JStr "tools/call");
         ("params",
          JObj [ ("name", JStr "get_cik_by_ticker");
                 ("arguments", JObj [ ("ticker", JStr "AAPL") ]) ]) ].

(** [if stdout:] is false for [None] and for the empty str. *)
Definition truthy_stdout (stdout : option string) : bool :=
  match stdout with
  | Some s => truthy s
  | None => false
  end.

(** [stdout.strip().split('\n')] *)
Definition lines_of (stdout : option string) : list string :=
  match stdout with
  | Some s => split LF (strip s)
  | None => []
  end.

(** [k1 in response and k2 in response[k1]], the second test only made
    when the first holds. *)
Definition has_nested (response : json) (k1 k2 : string) : res bool :=
  match Py.contains k1 response with
  | Val true =>
      match Py.getitem response k1 with
      | Val inner => Py.contains k2 inner
      | Err e => Err e
      end
  | other => other
  end.

(** One line of the tools listing:
    [print(f"  - {tool['name']}: {tool['description'][:60]}...")] *)
Definition print_tool (tool : json) : py flow :=
  name <- lift (Py.getitem tool "name") ;;
  description <- lift (Py.getitem tool "description") ;;
  head <- lift (Py.slice_to 60 description) ;;
  print ("  - " ++ Py.str name ++ ": " ++ Py.str head ++ "...") ;;;
  ret Continue.

Section Decoder.

(** [json.loads], of the Python library. *)
Variable loads : string -> Json.decoded.

(** The body of the first loop, over the answer to [tools/list]. *)
Definition scan_tools_line (line : string) : py flow :=
  d <- call_loads loads line ;;
  match d with
  | Json.DecodeError => ret Continue
  | Json.DecoderRaised e => raise e
  | Json.Decoded response =>
      found <- lift (has_nested response "result" "tools") ;;
      if found then
        result <- lift (Py.getitem response "result") ;;
        tools <- lift (Py.getitem result "tools") ;;
        n <- lift (Py.len tools) ;;
        print ("Found " ++ of_Z (Z.of_nat n) ++ " tools:") ;;;
        shown <- lift (Py.slice_to 5 tools) ;;
        items <- lift (Py.iter shown) ;;
        for_each items print_tool ;;;
        n' <- lift (Py.len tools) ;;
        (if (5 <? n')%nat
         then print ("  ... and " ++ of_Z (Z.of_nat n' - 5) ++ " more tools")
         else ret tt) ;;;
        ret Break
      else ret Continue
  end.

(** The body of the second loop, over the answer to the CIK lookup. *)
Definition scan_cik_line (line : string) : py flow :=
  d <- call_loads loads line ;;
  match d with
  | Json.DecodeError => ret Continue
  | Json.DecoderRaised e => raise e
  | Json.Decoded response =>
      with_content <- lift (has_nested response "result" "content") ;;
      if with_content then
        print "Apple (AAPL) CIK lookup result:" ;;;
        result <- lift (Py.getitem response "result") ;;
        content <- lift (Py.getitem result "content") ;;
        print (Json.dumps_indent 2 content) ;;;
        ret Break
      else
        with_result <- lift (Py.contains "result" response) ;;
        ours <- (if with_result
                 then id <- lift (Py.getitem response "id") ;;
                      ret (Py.eq_int id 3)
                 else ret false) ;;
        if ours then
          print "Apple (AAPL) CIK lookup result:" ;;;
          result <- lift (Py.getitem response "result") ;;
          print (Json.dumps_indent 2 result) ;;;
          ret Break
        else ret Continue
  end.

(** One test of the main block: a request, and the scan of its answer. *)
Definition run_test (request : json) (body : string -> py flow) (c : child)
  : py unit :=
  answer <- send_mcp_request request c ;;
  if truthy_stdout (fst answer)
  then for_each (lines_of (fst answer)) body
  else ret tt.

(** The main block; [c1] and [c2] are what the container does on its
    first and on its second start. *)
Definition main (c1 c2 : child) : py unit :=
  print "=== Testing MCP Tools List ===" ;;;
  run_test list_request scan_tools_line c1 ;;;
  print (String LF "=== Testing Company CIK Lookup ===") ;;;
  run_test cik_request scan_cik_line c2.

End Decoder.

End TestMcp.

(* ================================================================== *)
(** ** Vocabulary of the statements *)

Local Open Scope string_scope.
Local Open Scope list_scope.

(** The world after [evs] more events and [calls] more decoder calls. *)
Definition extend (w : world) (evs : list event) (calls : list string) : world :=
  World (trace w ++ evs) (decoder_calls w ++ calls) (files w).

(** A statement is steady when what it returns and what it adds to the
    world are the same in every world: it reads nothing from the world,
    touches no file, and only appends to the trace and to the decoder's
    log.  [P] bounds the events it may add. *)
Definition steady_in (P : event -> Prop) {A : Type} (m : py A) : Prop :=
  exists (r : res A) (evs : list event) (calls : list string),
    Forall P evs /\ forall w, m w = (r, extend w evs calls).

Definition any_event (_ : event) : Prop := True.

Definition is_print (ev : event) : Prop :=
  match ev with Print _ => True | _ => False end.

Definition steady {A : Type} (m : py A) : Prop := steady_in any_event m.

(** The standard input written by a list of events: the [input] of each
    [Communicate], in order. *)
Fixpoint stdin_written (evs : list event) : list string :=
  match evs with
  | [] => []
  | Communicate input _ :: rest => input :: stdin_written rest
  | _ :: rest => stdin_written rest
  end.

(** The children started by a list of events. *)
Fixpoint spawned (evs : list event) : list (list string) :=
  match evs with
  | [] => []
  | Spawn argv :: rest => argv :: spawned rest
  | _ :: rest => spawned rest
  end.

(** The timeouts of the [Communicate] events of a list. *)
Fixpoint timeouts (evs : list event) : list Z :=
  match evs with
  | [] => []
  | Communicate _ t :: rest => t :: timeouts rest
  | _ :: rest => timeouts rest
  end.

(** The lines printed by a list of events. *)
Fixpoint printed (evs : list event) : list string :=
  match evs with
  | [] => []
  | Print line :: rest => line :: printed rest
  | _ :: rest => printed rest
  end.

(** Two runs agree on what can be seen from outside: the value or
    exception, the events, the files. *)
Definition same_outcome {A : Type} (x y : res A * world) : Prop :=
  fst x = fst y /\ trace (snd x) = trace (snd y) /\ files (snd x) = files (snd y).

(** [json.loads] raises [JSONDecodeError] on this line. *)
Definition decode_fails (loads : string -> Json.decoded) (line : string) : bool :=
  match loads line with
  | Json.DecodeError => true
  | _ => false
  end.

(** The lines of a list that decode, or on which the decoder raises
    something other than [JSONDecodeError]. *)
Definition without_malformed (loads : string -> Json.decoded)
    (lines : list string) : list string :=
  filter (fun line => negb (decode_fails loads line)) lines.

(** A str without a line break: one line. *)
Definition one_line (s : string) : Prop := PyStr.mem PyStr.LF s = false.

(** Induction on a JSON value, with the hypothesis for every item of a
    list and every member of a dict. *)
Definition json_nested_ind (P : json -> Prop)
    (Hnull : P JNull)
    (Hbool : forall b, P (JBool b))
    (Hint : forall n, P (JInt n))
    (Hfloat : forall f, P (JFloat f))
    (Hstr : forall s, P (JStr s))
    (Harr : forall items, Forall P items -> P (JArr items))
    (Hobj : forall members, Forall (fun kv => P (snd kv)) members -> P (JObj members))
  : forall v, P v :=
  fix go (v : json) : P v :=
    match v with
    | JNull => Hnull
    | JBool b => Hbool b
    | JInt n => Hint n
    | JFloat f => Hfloat f
    | JStr s => Hstr s
    | JArr items =>
        Harr items
          ((fix all (l : list json) : Forall P l :=
              match l with
              | [] => Forall_nil P
              | x :: l' => Forall_cons x (go x) (all l')
              end) items)
    | JObj members =>
        Hobj members
          ((fix all (l : list (string * json)) : Forall (fun kv => P (snd kv)) l :=
              match l with
              | [] => Forall_nil _
              | kv :: l' => Forall_cons kv (go (snd kv)) (all l')
              end) members)
    end.

(** The JSON-RPC method of a message: the text is decoded and its
    [method] member read. *)
Definition method_of (message : string) : option json :=
  match Json.loads message with
  | Json.Decoded (JObj members) => Py.lookup "method" members
  | _ => None
  end.

(** The events of one call of [subprocess.run]. *)
Definition run_events (argv : list string) (input : string) (timeout : Z)
    (c : child) : list event :=
  Spawn argv
  :: match c with
     | CannotStart _ => []
     | Exits _ _ => [Communicate input timeout]
     | TimesOut | BreaksPipe _ => [Communicate input timeout; Kill]
     end.

(** The events of one call of [send_mcp_request]. *)
Definition send_events (request : json) (c : child) : list event :=
  let input := PyStr.join "" (TestMcp.requests request) in
  Spawn TestMcp.cmd
  :: match c with
     | CannotStart _ => []
     | Exits _ _ => [Communicate input 30]
     | TimesOut => [Communicate input 30; Kill]
     | BreaksPipe e =>
         if is_TimeoutExpired e then [Communicate input 30; Kill]
         else [Communicate input 30]
     end.

(** The two headings of the main block of [test-mcp.py]. *)
Definition heading_tools : string := "=== Testing MCP Tools List ===".

Definition heading_cik : string :=
  String PyStr.LF "=== Testing Company CIK Lookup ===".

(** A statement hands to the decoder only texts that satisfy [C]. *)
Definition decodes_only (C : string -> Prop) {A : Type} (m : py A) : Prop :=
  forall w, exists calls,
    Forall C calls /\ decoder_calls (snd (m w)) = decoder_calls w ++ calls.

Definition no_text (_ : string) : Prop := False.

(** Two decoders that do the same on every text of one line. *)
Definition agree_on_lines (loads loads' : string -> Json.decoded) : Prop :=
  forall s, one_line s -> loads s = loads' s.

(** [response.get('id')] on the members of a dict. *)
Definition id_of (members : list (string * json)) : json :=
  match Py.lookup "id" members with
  | Some x => x
  | None => JNull
  end.

(** A line that [test_apple_cik] passes over: it fails the guard of the
    loop, or it does not decode, or it decodes to a dict whose [id] is
    not 2. *)
Definition passed_over (loads : string -> Json.decoded) (line : string) : Prop :=
  SimpleMcpTest.wanted line = false
  \/ loads line = Json.DecodeError
  \/ exists members,
       loads line = Json.Decoded (JObj members)
       /\ Py.eq_int (id_of members) 2 = false.

(** A line that answers the request of [test_apple_cik]: it is not blank
    and starts with a brace, and it decodes to a dict whose [id] is 2. *)
Definition answers (loads : string -> Json.decoded) (line : string)
    (members : list (string * json)) : Prop :=
  SimpleMcpTest.wanted line = true
  /\ loads line = Json.Decoded (JObj members)
  /\ Py.eq_int (id_of members) 2 = true.

(** What [test_apple_cik] does before it scans an output: the call of
    [subprocess.run] and the raw output. *)
Definition raw_output_events (out err : string) : list event :=
  [ Spawn SimpleMcpTest.cmd;
    Communicate SimpleMcpTest.input_data 15;
    Print "=== RAW OUTPUT ===";
    Print ("STDOUT: " ++ out)%string;
    Print ("STDERR: " ++ err)%string;
    Print (String PyStr.LF "=== PARSED RESPONSES ===") ].

(** The two [except] clauses of [test_apple_cik]. *)
Definition report_failure (e : py_exn) : py unit :=
  if is_TimeoutExpired e then print "Request timed out"
  else if is_Exception e then print ("Error: " ++ exc_str e)%string
  else raise e.

(** A line that the first loop of [test-mcp.py] passes over: it does not
    decode, or it decodes to a value without a [tools] listing. *)
Definition not_a_listing (loads : string -> Json.decoded) (line : string) : Prop :=
  loads line = Json.DecodeError
  \/ exists response,
       loads line = Json.Decoded response
       /\ TestMcp.has_nested response "result" "tools" = Val false.

(** A tool whose [name] and [description] are the strs of [shown]. *)
Definition tool_shown (tool : json) (shown : string * string) : Prop :=
  exists members,
    tool = JObj members
    /\ Py.lookup "name" members = Some (JStr (fst shown))
    /\ Py.lookup "description" members = Some (JStr (snd shown)).

(** The line printed for a tool. *)
Definition tool_line (shown : string * string) : string :=
  ("  - " ++ fst shown ++ ": " ++ PyStr.take 60 (snd shown) ++ "...")%string.

(** The world before a run. *)
Definition fresh : world := World [] [] [].

(** An output of three lines, the second one indented:
    [{"id": 1}], [ {"id": 2}] and [{"id": 2, "late": true}]. *)
Definition indented_output : string :=
  (PyStr.text "{'id': 1}" ++ String PyStr.LF (PyStr.text " {'id': 2}")
   ++ String PyStr.LF (PyStr.text "{'id': 2, 'late': true}"))%string.

(** An output whose one JSON document is broken over two lines:
    [{"id":] and [2}]. *)
Definition broken_output : string :=
  (PyStr.text "{'id':" ++ String PyStr.LF "2}")%string.

(** An answer to the CIK lookup with a [result] and no [id], after a line
    of log: [starting] and [{"result": {}}]. *)
Definition answer_without_id : string :=
  ("starting" ++ String PyStr.LF (PyStr.text "{'result': {}}"))%string.

(** An answer to [tools/list] with seven tools, the last without a
    description. *)
Definition seven_tools : string :=
  PyStr.text "{'jsonrpc': '2.0', 'id': 2, 'result': {'tools': [{'name': 'get_cik_by_ticker', 'description': 'Get the CIK for a company based on its ticker symbol, as the SEC files it.'}, {'name': 'b', 'description': 'B'}, {'name': 'c', 'description': ''}, {'name': 'd', 'description': 'D', 'inputSchema': {}}, {'name': 'e', 'description': 'E'}, {'name': 'f', 'description': 'F'}, {'name': 'g'}]}}".

(** [seven_tools] decoded: the members of the response, its [result] and
    the list of its tools. *)
Definition listing_members : list (string * json) :=
  Eval vm_compute in
    match Json.loads seven_tools with
    | Json.Decoded (JObj members) => members
    | _ => []
    end.

Definition listing_result : list (string * json) :=
  Eval vm_compute in
    match Py.lookup "result" listing_members with
    | Some (JObj result) => result
    | _ => []
    end.

Definition listing_tools : list json :=
  Eval vm_compute in
    match Py.lookup "tools" listing_result with
    | Some (JArr tools) => tools
    | _ => []
    end.

(** The names and descriptions of the first five tools of [seven_tools]. *)
Definition listing_shown : list (string * string) :=
  [ ("get_cik_by_ticker",
     "Get the CIK for a company based on its ticker symbol, as the SEC files it.");
    ("b", "B"); ("c", ""); ("d", "D"); ("e", "E") ].

(** What [test_apple_cik] prints after the raw output of a child that
    ended in time: nothing, or the one answer, decoded from a line of the
    output that answers the request, or the report of one exception. *)
Inductive simple_report (loads : string -> Json.decoded) (lines : list string)
  : list event -> Prop :=
| report_nothing :
    simple_report loads lines []
| report_answer (line : string) (members : list (string * json)) :
    In line lines ->
    answers loads line members ->
    simple_report loads lines
      [ Print "SUCCESS! Apple's CIK data:";
        Print (Json.dumps_indent 2 (JObj members)) ]
| report_timeout :
    simple_report loads lines [Print "Request timed out"]
| report_error (e : py_exn) :
    is_Exception e = true ->
    simple_report loads lines [Print ("Error: " ++ exc_str e)%string].

(** The exceptions that leave a loop of [test-mcp.py]: a [TypeError] or a
    [KeyError] of the body, or what the decoder raises that is no
    [JSONDecodeError]. *)
Definition loop_exn (loads : string -> Json.decoded) (e : py_exn) : Prop :=
  exc_class e = TypeError
  \/ exc_class e = KeyError
  \/ exists line, loads line = Json.DecoderRaised e.

(** A statement that, in every world, prints at most [n] lines and does
    nothing else to the trace, and raises only exceptions of [E]. *)
Definition within (E : py_exn -> Prop) (n : nat) {A : Type} (m : py A) : Prop :=
  exists (r : res A) (prints : list event) (calls : list string),
    Forall is_print prints
    /\ length prints <= n
    /\ (forall e, r = Err e -> E e)
    /\ forall w, m w = (r, extend w prints calls).

(** A loop body that is [within E n] and prints nothing when it goes on
    to the next line. *)
Definition line_within (E : py_exn -> Prop) (n : nat) (body : py flow) : Prop :=
  exists (r : res flow) (prints : list event) (calls : list string),
    Forall is_print prints
    /\ length prints <= n
    /\ (r = Val Continue -> prints = [])
    /\ (forall e, r = Err e -> E e)
    /\ forall w, body w = (r, extend w prints calls).

(** The decoded values that are no container: [None], a bool, a number. *)
Definition scalar (v : json) : bool :=
  match v with
  | JNull | JBool _ | JInt _ | JFloat _ => true
  | _ => false
  end.

Definition is_dict (v : json) : bool :=
  match v with JObj _ => true | _ => false end.

(** A value of the decoder that is an object. *)
Definition is_object (v : Json.wide) : bool :=
  match v with Json.WObj _ => true | _ => false end.

(** The heading of the answer to the CIK lookup. *)
Definition heading_answer : string := "Apple (AAPL) CIK lookup result:".

(** The line that counts the tools of a listing. *)
Definition found_line (tools : list json) : string :=
  ("Found " ++ PyStr.of_Z (Z.of_nat (length tools)) ++ " tools:")%string.

(** The lines that a loop with the body [body] reaches: the lines up to
    and including the first one at which the body does not go on to the
    next line, because it leaves the loop or raises.  The body is run in
    the world [fresh]; what the bodies of the scripts return is the same
    in every world. *)
Fixpoint reached (body : string -> py flow) (lines : list string) : list string :=
  match lines with
  | [] => []
  | line :: rest =>
      line :: match fst (body line fresh) with
              | Val Continue => reached body rest
              | _ => []
              end
  end.

(** The lines of the standard output of a child, as
    [stdout.strip().split('\n')] gives them. *)
Definition output_lines (c : child) : list string :=
  match c with
  | Exits out _ => PyStr.split PyStr.LF (PyStr.strip out)
  | _ => []
  end.

(** The lines that a test of [test-mcp.py] scans: those of the output,
    and none when [if stdout:] fails. *)
Definition scanned_lines (c : child) : list string :=
  match c with
  | Exits out _ =>
      if TestMcp.truthy_stdout (Some out) then TestMcp.lines_of (Some out) else []
  | _ => []
  end.

(* ================================================================== *)
(** ** Lemmas *)

(* ---------------------------------------------------------------- *)
(** *** Steadiness *)

Lemma extend_nil w : extend w [] [] = w.
Proof. destruct w; unfold extend; simpl; now rewrite !app_nil_r. Qed.

Lemma extend_extend w e1 c1 e2 c2 :
  extend (extend w e1 c1) e2 c2 = extend w (e1 ++ e2) (c1 ++ c2).
Proof. unfold extend; simpl; now rewrite !app_assoc. Qed.

Section Steady.

Variable P : event -> Prop.

Lemma steady_ret {A} (a : A) : steady_in P (ret a).
Proof.
  exists (Val a), [], []; split; [constructor |].
  intro w; unfold ret; now rewrite extend_nil.
Qed.

Lemma steady_raise {A} e : steady_in P (@raise A e).
Proof.
  exists (Err e), [], []; split; [constructor |].
  intro w; unfold raise; now rewrite extend_nil.
Qed.

Lemma steady_lift {A} (r : res A) : steady_in P (lift r).
Proof.
  exists r, [], []; split; [constructor |].
  intro w; unfold lift; now rewrite extend_nil.
Qed.

Lemma steady_emit ev : P ev -> steady_in P (emit ev).
Proof.
  intro H; exists (Val tt), [ev], []; split; [now repeat constructor |].
  intro w; unfold emit, extend; now rewrite app_nil_r.
Qed.

Lemma steady_call_loads loads line : steady_in P (call_loads loads line).
Proof.
  exists (Val (loads line)), [], [line]; split; [constructor |].
  intro w; unfold call_loads, extend; now rewrite app_nil_r.
Qed.

Lemma steady_bind {A B} (m : py A) (k : A -> py B) :
  steady_in P m -> (forall a, steady_in P (k a)) -> steady_in P (bind m k).
Proof.
  intros (r & evs & calls & HP & Hm) Hk.
  destruct r as [a | e].
  - destruct (Hk a) as (r' & evs' & calls' & HP' & Hka).
    exists r', (evs ++ evs'), (calls ++ calls'); split.
    + now apply Forall_app.
    + intro w. unfold bind; now rewrite Hm, Hka, extend_extend.
  - exists (Err e), evs, calls; split; [exact HP |].
    intro w. unfold bind; now rewrite Hm.
Qed.

Lemma steady_try_except {A} (m : py A) (h : py_exn -> py A) :
  steady_in P m -> (forall e, steady_in P (h e)) -> steady_in P (try_except m h).
Proof.
  intros (r & evs & calls & HP & Hm) Hh.
  destruct r as [a | e].
  - exists (Val a), evs, calls; split; [exact HP |].
    intro w. unfold try_except; now rewrite Hm.
  - destruct (Hh e) as (r' & evs' & calls' & HP' & Hhe).
    exists r', (evs ++ evs'), (calls ++ calls'); split.
    + now apply Forall_app.
    + intro w. unfold try_except; now rewrite Hm, Hhe, extend_extend.
Qed.

Lemma steady_for_each {A} (items : list A) (body : A -> py flow) :
  (forall x, steady_in P (body x)) -> steady_in P (for_each items body).
Proof.
  intro Hb; induction items as [| x rest IH]; simpl.
  - apply steady_ret.
  - apply steady_bind; [apply Hb |].
    intros []; [exact IH | apply steady_ret].
Qed.

End Steady.

Lemma steady_weaken (P Q : event -> Prop) {A} (m : py A) :
  (forall ev, P ev -> Q ev) -> steady_in P m -> steady_in Q m.
Proof.
  intros HPQ (r & evs & calls & HP & Hm).
  exists r, evs, calls; split; [| exact Hm].
  eapply Forall_impl; eauto.
Qed.

(** One step of a proof of steadiness, by the shape of the statement. *)
Ltac steady_step :=
  first [ apply steady_ret | apply steady_raise | apply steady_lift
        | apply steady_call_loads
        | apply steady_emit; exact I
        | apply steady_bind; [| intro ]
        | apply steady_try_except; [| intro ]
        | apply steady_for_each; intro
        | match goal with
          | |- steady_in _ (if ?b then _ else _) => destruct b
          | |- steady_in _ (match ?x with _ => _ end) => destruct x
          end ].

Ltac steady := repeat steady_step.

Lemma steady_popen argv c : steady (Subprocess.popen argv c).
Proof. unfold steady, Subprocess.popen. steady. Qed.

Lemma steady_communicate argv input t c :
  steady (Subprocess.communicate argv input t c).
Proof. unfold steady, Subprocess.communicate. steady. Qed.

Lemma steady_run argv input t c : steady (Subprocess.run argv input t c).
Proof.
  unfold steady, Subprocess.run, Subprocess.kill.
  apply steady_bind; [apply steady_popen | intros _].
  apply steady_try_except; [apply steady_communicate | intro; steady].
Qed.

Lemma prints_scan_line loads line :
  steady_in is_print (SimpleMcpTest.scan_line loads line).
Proof. unfold SimpleMcpTest.scan_line, print. steady. Qed.

Lemma prints_print_tool tool : steady_in is_print (TestMcp.print_tool tool).
Proof. unfold TestMcp.print_tool, print. steady. Qed.

Lemma prints_scan_tools_line loads line :
  steady_in is_print (TestMcp.scan_tools_line loads line).
Proof.
  unfold TestMcp.scan_tools_line, print.
  repeat first [ apply prints_print_tool | steady_step ].
Qed.

Lemma prints_scan_cik_line loads line :
  steady_in is_print (TestMcp.scan_cik_line loads line).
Proof. unfold TestMcp.scan_cik_line, print. steady. Qed.

Lemma any_event_holds (Q : event -> Prop) ev : Q ev -> any_event ev.
Proof. intros _; exact I. Qed.

Lemma steady_test_apple_cik loads c :
  steady (SimpleMcpTest.test_apple_cik loads c).
Proof.
  unfold steady, SimpleMcpTest.test_apple_cik, print.
  apply steady_try_except; [| intro; steady].
  apply steady_bind; [apply steady_run | intro].
  repeat (apply steady_bind; [apply steady_emit; exact I | intros _]).
  apply steady_for_each; intro line.
  eapply steady_weaken; [apply any_event_holds | apply prints_scan_line].
Qed.

Lemma steady_send_mcp_request request c :
  steady (TestMcp.send_mcp_request request c).
Proof.
  unfold steady, TestMcp.send_mcp_request, Subprocess.kill.
  apply steady_bind; [apply steady_popen | intros _].
  apply steady_try_except; [| intro; steady].
  apply steady_bind; [apply steady_communicate | intro; steady].
Qed.

Lemma steady_run_test request body c :
  (forall line, steady_in is_print (body line)) ->
  steady (TestMcp.run_test request body c).
Proof.
  intro H. unfold steady, TestMcp.run_test.
  apply steady_bind; [apply steady_send_mcp_request | intro answer].
  destruct (TestMcp.truthy_stdout (fst answer)); [| apply steady_ret].
  apply steady_for_each; intro line.
  eapply steady_weaken; [apply any_event_holds | apply H].
Qed.

Lemma steady_main loads c1 c2 : steady (TestMcp.main loads c1 c2).
Proof.
  unfold steady, TestMcp.main, print.
  apply steady_bind; [apply steady_emit; exact I | intros _].
  apply steady_bind;
    [apply steady_run_test; intro; apply prints_scan_tools_line | intros _].
  apply steady_bind; [apply steady_emit; exact I | intros _].
  apply steady_run_test; intro; apply prints_scan_cik_line.
Qed.

(* ---------------------------------------------------------------- *)
(** *** Loops *)

Lemma same_outcome_refl {A} (x : res A * world) : same_outcome x x.
Proof. now repeat split. Qed.

Lemma same_outcome_trans {A} (x y z : res A * world) :
  same_outcome x y -> same_outcome y z -> same_outcome x z.
Proof.
  intros (? & ? & ?) (? & ? & ?); repeat split; etransitivity; eassumption.
Qed.

(** A steady statement does not see the decoder's log. *)
Lemma steady_same_outcome {A} (m : py A) w calls :
  steady m -> same_outcome (m (extend w [] calls)) (m w).
Proof.
  intros (r & evs & cs & _ & H). rewrite !H. unfold same_outcome, extend; simpl.
  now rewrite app_nil_r.
Qed.

Lemma for_each_cons {A} (x : A) rest body w :
  for_each (x :: rest) body w =
  match body x w with
  | (Val Continue, w') => for_each rest body w'
  | (Val Break, w') => (Val tt, w')
  | (Err e, w') => (Err e, w')
  end.
Proof.
  simpl. unfold bind. destruct (body x w) as [[[] | e] w']; reflexivity.
Qed.

(** Items on which the body only logs and goes on can be left out. *)
Lemma for_each_drop {A} (body : A -> py flow) (dull : A -> bool) :
  (forall x, steady (body x)) ->
  (forall x w, dull x = true ->
     exists calls, body x w = (Val Continue, extend w [] calls)) ->
  forall items w,
    same_outcome (for_each items body w)
                 (for_each (filter (fun x => negb (dull x)) items) body w).
Proof.
  intros Hs Hd items; induction items as [| x rest IH]; intro w.
  - apply same_outcome_refl.
  - cbn [filter]. destruct (dull x) eqn:Hx; cbn [negb].
    + rewrite for_each_cons. destruct (Hd x w Hx) as (calls & ->).
      eapply same_outcome_trans; [apply IH |].
      apply steady_same_outcome, steady_for_each, Hs.
    + rewrite !for_each_cons.
      destruct (body x w) as [[[] | e] w']; try apply same_outcome_refl.
      apply IH.
Qed.

Lemma bind_val {A B} (m : py A) (k : A -> py B) w a w' :
  m w = (Val a, w') -> bind m k w = k a w'.
Proof. unfold bind; now intros ->. Qed.

Lemma call_loads_eq loads line w :
  call_loads loads line w = (Val (loads line), extend w [] [line]).
Proof. unfold call_loads, extend. now rewrite app_nil_r. Qed.

Lemma scan_line_malformed loads line w :
  decode_fails loads line = true ->
  exists calls,
    SimpleMcpTest.scan_line loads line w = (Val Continue, extend w [] calls).
Proof.
  unfold decode_fails, SimpleMcpTest.scan_line; intro H.
  destruct (SimpleMcpTest.wanted line).
  - exists [line]. rewrite (bind_val _ _ _ _ _ (call_loads_eq _ _ _)).
    now destruct (loads line).
  - exists []. unfold ret. now rewrite extend_nil.
Qed.

Lemma scan_tools_line_malformed loads line w :
  decode_fails loads line = true ->
  exists calls,
    TestMcp.scan_tools_line loads line w = (Val Continue, extend w [] calls).
Proof.
  unfold decode_fails, TestMcp.scan_tools_line; intro H.
  exists [line]. rewrite (bind_val _ _ _ _ _ (call_loads_eq _ _ _)).
  now destruct (loads line).
Qed.

Lemma scan_cik_line_malformed loads line w :
  decode_fails loads line = true ->
  exists calls,
    TestMcp.scan_cik_line loads line w = (Val Continue, extend w [] calls).
Proof.
  unfold decode_fails, TestMcp.scan_cik_line; intro H.
  exists [line]. rewrite (bind_val _ _ _ _ _ (call_loads_eq _ _ _)).
  now destruct (loads line).
Qed.

(* ---------------------------------------------------------------- *)
(** *** Line breaks *)

Lemma mem_app c (a b : string) :
  PyStr.mem c (a ++ b)%string = PyStr.mem c a || PyStr.mem c b.
Proof.
  induction a as [| x a IH]; simpl; [reflexivity |].
  now rewrite IH, orb_assoc.
Qed.

Lemma one_line_app a b : one_line a -> one_line b -> one_line (a ++ b)%string.
Proof. unfold one_line; intros Ha Hb; now rewrite mem_app, Ha, Hb. Qed.

Lemma one_line_cons c s :
  Ascii.eqb c PyStr.LF = false -> one_line s -> one_line (String c s).
Proof. unfold one_line; simpl; now intros -> ->. Qed.

Lemma one_line_take n s : one_line s -> one_line (PyStr.take n s).
Proof.
  unfold one_line; revert s; induction n as [| n IH]; intros [| c s]; simpl;
    try reflexivity.
  intro H; apply orb_false_elim in H as [-> H]; simpl; auto.
Qed.

Lemma one_line_substring a n s : one_line s -> one_line (String.substring a n s).
Proof.
  unfold one_line; revert a n; induction s as [| c s IH]; intros [| a] [| n];
    simpl; try reflexivity; intro H; apply orb_false_elim in H as [Hc H].
  - rewrite Hc; simpl. apply (IH 0 n H).
  - apply (IH a 0 H).
  - apply (IH a (S n) H).
Qed.

Lemma one_line_rep c n : Ascii.eqb c PyStr.LF = false -> one_line (PyStr.rep c n).
Proof. intro H; induction n; simpl; [reflexivity | now apply one_line_cons]. Qed.

Lemma one_line_uint d : one_line (NilEmpty.string_of_uint d).
Proof. induction d; simpl; try reflexivity; now apply one_line_cons. Qed.

Lemma one_line_of_Z n : one_line (PyStr.of_Z n).
Proof.
  unfold PyStr.of_Z, NilZero.string_of_int, NilZero.string_of_uint.
  destruct (Z.to_int n) as [d | d];
    [| apply one_line_cons; [reflexivity |]];
    (destruct d; [reflexivity | apply one_line_uint ..]).
Qed.

Lemma one_line_format_short ds dp : one_line ds -> one_line (PyFloat.format_short ds dp).
Proof.
  intro H. unfold PyFloat.format_short.
  repeat match goal with
         | |- one_line (if ?b then _ else _) => destruct b
         | |- one_line (_ ++ _)%string => apply one_line_app
         | |- one_line (PyStr.take _ _) => apply one_line_take
         | |- one_line (String.substring _ _ _) => apply one_line_substring
         | |- one_line (PyStr.rep _ _) => apply one_line_rep
         | |- one_line (PyStr.of_Z _) => apply one_line_of_Z
         | |- _ => exact H
         | |- _ => reflexivity
         end.
Qed.

Lemma one_line_float_repr f : one_line (PyFloat.repr f).
Proof.
  unfold PyFloat.repr.
  destruct (PyFloat.canon f) as [[] | [] | | s m e]; try reflexivity.
  destruct (PyFloat.shortest _ _ _ _ _ _) as [t k].
  destruct (PyFloat.drop_zeros _ _ _) as [t' k'].
  apply one_line_app; [now destruct s |].
  apply one_line_format_short, one_line_of_Z.
Qed.

Lemma one_line_float_text f : one_line (PyFloat.json_text f).
Proof.
  unfold PyFloat.json_text.
  destruct (PyFloat.canon f) as [[] | [] | | s m e] eqn:E;
    try reflexivity; apply one_line_float_repr.
Qed.

Lemma one_line_escape_char c : one_line (Json.escape_char c).
Proof. destruct c as [[] [] [] [] [] [] [] []]; reflexivity. Qed.

Lemma one_line_escape s : one_line (Json.escape s).
Proof.
  induction s as [| c s IH]; simpl; [reflexivity |].
  apply one_line_app; [apply one_line_escape_char | exact IH].
Qed.

Lemma one_line_encode_str s : one_line (Json.encode_str s).
Proof.
  unfold Json.encode_str. apply one_line_cons; [reflexivity |].
  apply one_line_app; [apply one_line_escape | reflexivity].
Qed.

Lemma one_line_join sep parts :
  one_line sep -> Forall one_line parts -> one_line (PyStr.join sep parts).
Proof.
  intros Hsep H; induction H as [| p ps Hp Hps IH]; simpl; [reflexivity |].
  destruct ps as [| q ps]; [exact Hp |].
  apply one_line_app; [exact Hp | apply one_line_app; [exact Hsep | exact IH]].
Qed.

(** [json.dumps] without [indent] writes no line break: the text of a
    value is one line, whatever its strings hold. *)
Lemma one_line_dumps v : one_line (Json.dumps v).
Proof.
  induction v as [| b | n | f | s | items IH | members IH] using json_nested_ind;
    cbn [Json.dumps].
  - reflexivity.
  - now destruct b.
  - apply one_line_of_Z.
  - apply one_line_float_text.
  - apply one_line_encode_str.
  - apply one_line_app; [reflexivity |].
    apply one_line_app; [| reflexivity].
    apply one_line_join; [reflexivity |].
    now apply Forall_map.
  - apply one_line_app; [reflexivity |].
    apply one_line_app; [| reflexivity].
    apply one_line_join; [reflexivity |].
    apply Forall_map. eapply Forall_impl; [| exact IH].
    intros [k v] Hv; cbn [fst snd] in *.
    apply one_line_app; [apply one_line_encode_str |].
    apply one_line_app; [reflexivity | exact Hv].
Qed.

(** Splitting at line breaks. *)
Lemma split_one_line s : Forall one_line (PyStr.split PyStr.LF s).
Proof.
  induction s as [| a s IH]; simpl.
  - repeat constructor.
  - destruct (Ascii.eqb a PyStr.LF) eqn:E.
    + constructor; [reflexivity | exact IH].
    + destruct (PyStr.split PyStr.LF s) as [| p ps]; [repeat constructor; now apply one_line_cons|].
      inversion IH; subst. constructor; [now apply one_line_cons | assumption].
Qed.

Lemma split_app_lf a b :
  one_line a ->
  PyStr.split PyStr.LF (a ++ String PyStr.LF b)%string = a :: PyStr.split PyStr.LF b.
Proof.
  unfold one_line; induction a as [| c a IH]; simpl; intro H.
  - reflexivity.
  - apply orb_false_elim in H as [Hc H]. rewrite Hc, (IH H). reflexivity.
Qed.

(* ---------------------------------------------------------------- *)
(** *** What each call does to the world *)

Ltac world_eq :=
  unfold extend; cbn [trace decoder_calls files];
  rewrite <- ?app_assoc, ?app_nil_r; reflexivity.

Ltac run_py :=
  cbv beta delta [bind ret raise lift try_except emit print
                  Subprocess.popen Subprocess.communicate Subprocess.kill
                  Subprocess.run] iota;
  cbn [trace decoder_calls files fst snd].

Lemma run_eq argv input t c w :
  Subprocess.run argv input t c w =
  match c with
  | Exits out err => (Val (out, err), extend w [Spawn argv; Communicate input t] [])
  | TimesOut =>
      (Err (Subprocess.timeout_expired argv t),
       extend w [Spawn argv; Communicate input t; Kill] [])
  | CannotStart e => (Err e, extend w [Spawn argv] [])
  | BreaksPipe e => (Err e, extend w [Spawn argv; Communicate input t; Kill] [])
  end.
Proof. destruct c; run_py; f_equal; world_eq. Qed.

Lemma send_mcp_request_eq request c w :
  TestMcp.send_mcp_request request c w =
  let input := PyStr.join "" (TestMcp.requests request) in
  match c with
  | Exits out err =>
      (Val (Some out, err), extend w [Spawn TestMcp.cmd; Communicate input 30] [])
  | TimesOut =>
      (Val (None, "Timeout"),
       extend w [Spawn TestMcp.cmd; Communicate input 30; Kill] [])
  | CannotStart e => (Err e, extend w [Spawn TestMcp.cmd] [])
  | BreaksPipe e =>
      if is_TimeoutExpired e
      then (Val (None, "Timeout"),
            extend w [Spawn TestMcp.cmd; Communicate input 30; Kill] [])
      else (Err e, extend w [Spawn TestMcp.cmd; Communicate input 30] [])
  end.
Proof.
  unfold TestMcp.send_mcp_request.
  destruct c as [out err | | e | e]; run_py.
  - f_equal; world_eq.
  - change (is_TimeoutExpired (Subprocess.timeout_expired TestMcp.cmd 30)) with true.
    run_py; f_equal; world_eq.
  - f_equal; world_eq.
  - destruct (is_TimeoutExpired e); run_py; f_equal; world_eq.
Qed.

(** The events of a loop are prints. *)
Lemma stdin_written_app a b :
  stdin_written (a ++ b) = stdin_written a ++ stdin_written b.
Proof.
  induction a as [| [] a IH]; simpl; rewrite ?IH; reflexivity.
Qed.

Lemma spawned_app a b : spawned (a ++ b) = spawned a ++ spawned b.
Proof.
  induction a as [| [] a IH]; simpl; rewrite ?IH; reflexivity.
Qed.

Lemma timeouts_app a b : timeouts (a ++ b) = timeouts a ++ timeouts b.
Proof.
  induction a as [| [] a IH]; simpl; rewrite ?IH; reflexivity.
Qed.

Lemma prints_carry_nothing evs :
  Forall is_print evs ->
  stdin_written evs = [] /\ spawned evs = [] /\ timeouts evs = [].
Proof.
  induction 1 as [| [] evs Hev _ IH]; simpl; try contradiction; auto.
Qed.

Lemma bind_trace {A B} (P : event -> Prop) (m : py A) (k : A -> py B) w :
  (forall a, steady_in P (k a)) ->
  exists evs, Forall P evs /\
    trace (snd (bind m k w)) = trace (snd (m w)) ++ evs.
Proof.
  intro Hk. unfold bind. destruct (m w) as [[a | e] w1]; cbn [snd].
  - destruct (Hk a) as (r & evs & calls & HP & H). rewrite H.
    exists evs; split; [exact HP | reflexivity].
  - exists []; split; [constructor | now rewrite app_nil_r].
Qed.

Lemma try_except_trace {A} (P : event -> Prop) (m : py A) h w :
  (forall e, steady_in P (h e)) ->
  exists evs, Forall P evs /\
    trace (snd (try_except m h w)) = trace (snd (m w)) ++ evs.
Proof.
  intro Hh. unfold try_except. destruct (m w) as [[a | e] w1]; cbn [snd].
  - exists []; split; [constructor | now rewrite app_nil_r].
  - destruct (Hh e) as (r & evs & calls & HP & H). rewrite H.
    exists evs; split; [exact HP | reflexivity].
Qed.

(** The events of [test_apple_cik]: those of the call of [subprocess.run],
    and prints. *)
Lemma test_apple_cik_events loads c w :
  exists prints,
    Forall is_print prints /\
    trace (snd (SimpleMcpTest.test_apple_cik loads c w)) =
    trace (snd (Subprocess.run SimpleMcpTest.cmd SimpleMcpTest.input_data 15 c w))
    ++ prints.
Proof.
  unfold SimpleMcpTest.test_apple_cik.
  match goal with
  | |- context [try_except (bind ?m ?k) ?h] =>
      destruct (try_except_trace is_print (bind m k) h w) as (e1 & H1 & E1);
      [ intro; unfold print; steady
      | destruct (bind_trace is_print m k w) as (e2 & H2 & E2);
        [ intro; unfold print;
          repeat first [ apply prints_scan_line | steady_step ] | ] ]
  end.
  exists (e2 ++ e1); split; [now apply Forall_app |].
  now rewrite E1, E2, app_assoc.
Qed.

Lemma run_test_events request body c w :
  (forall line, steady_in is_print (body line)) ->
  exists prints,
    Forall is_print prints /\
    trace (snd (TestMcp.run_test request body c w)) =
    trace (snd (TestMcp.send_mcp_request request c w)) ++ prints.
Proof.
  intro Hb. unfold TestMcp.run_test. apply bind_trace.
  intro answer. destruct (TestMcp.truthy_stdout (fst answer)); [| apply steady_ret].
  apply steady_for_each, Hb.
Qed.

Lemma string_app_assoc (a b c : string) :
  ((a ++ b) ++ c = a ++ (b ++ c))%string.
Proof. induction a as [| x a IH]; simpl; [reflexivity | now rewrite IH]. Qed.

Lemma split_three_lines a b c :
  one_line a -> one_line b -> one_line c ->
  PyStr.split PyStr.LF
    (PyStr.join "" [ (a ++ String PyStr.LF "")%string;
                     (b ++ String PyStr.LF "")%string;
                     (c ++ String PyStr.LF "")%string ])
  = [a; b; c; ""].
Proof.
  intros Ha Hb Hc. cbn [PyStr.join].
  rewrite !string_app_assoc. cbn [String.append].
  rewrite (split_app_lf a _ Ha), (split_app_lf b _ Hb), (split_app_lf c _ Hc).
  reflexivity.
Qed.

Lemma dumps_init_request :
  Json.dumps TestMcp.init_request =
  PyStr.text "{'jsonrpc': '2.0', 'id': 1, 'method': 'initialize', 'params': {'protocolVersion': '2024-11-05', 'capabilities': {}, 'clientInfo': {'name': 'test-client', 'version': '1.0.0'}}}".
Proof. vm_compute. reflexivity. Qed.

Lemma dumps_init_notification :
  Json.dumps TestMcp.init_notification =
  PyStr.text "{'jsonrpc': '2.0', 'method': 'notifications/initialized'}".
Proof. vm_compute. reflexivity. Qed.

Lemma run_stdin argv input t c w :
  stdin_written (trace (snd (Subprocess.run argv input t c w))) =
  stdin_written (trace w)
  ++ match c with CannotStart _ => [] | _ => [input] end.
Proof.
  rewrite run_eq. destruct c; cbn [snd extend trace];
    rewrite stdin_written_app; reflexivity.
Qed.

Lemma send_stdin request c w :
  stdin_written (trace (snd (TestMcp.send_mcp_request request c w))) =
  stdin_written (trace w)
  ++ match c with
     | CannotStart _ => []
     | _ => [PyStr.join "" (TestMcp.requests request)]
     end.
Proof.
  rewrite send_mcp_request_eq. cbv zeta.
  destruct c as [| | e | e]; try destruct (is_TimeoutExpired e);
    cbn [snd extend trace]; rewrite stdin_written_app; reflexivity.
Qed.



Lemma bind_assoc {A B C} (m : py A) (k1 : A -> py B) (k2 : B -> py C) w :
  bind (bind m k1) k2 w = bind m (fun a => bind (k1 a) k2) w.
Proof. unfold bind. destruct (m w) as [[a | e] w']; reflexivity. Qed.

Lemma bind_err {A B} (m : py A) (k : A -> py B) w e w' :
  m w = (Err e, w') -> bind m k w = (Err e, w').
Proof. unfold bind; now intros ->. Qed.

Lemma print_eq line w : print line w = (Val tt, extend w [Print line] []).
Proof. unfold print, emit, extend. now rewrite app_nil_r. Qed.

Lemma run_trace argv input t c w :
  trace (snd (Subprocess.run argv input t c w)) =
  trace w ++ run_events argv input t c.
Proof. rewrite run_eq. destruct c; reflexivity. Qed.

Lemma send_trace request c w :
  trace (snd (TestMcp.send_mcp_request request c w)) =
  trace w ++ send_events request c.
Proof.
  rewrite send_mcp_request_eq. unfold send_events. cbv zeta.
  destruct c as [| | e | e]; try destruct (is_TimeoutExpired e); reflexivity.
Qed.

Lemma send_events_spawned request c : spawned (send_events request c) = [TestMcp.cmd].
Proof.
  unfold send_events. cbv zeta.
  destruct c as [| | e | e]; try destruct (is_TimeoutExpired e); reflexivity.
Qed.

Lemma send_events_stdin request c :
  stdin_written (send_events request c) =
  match c with
  | CannotStart _ => []
  | _ => [PyStr.join "" (TestMcp.requests request)]
  end.
Proof.
  unfold send_events. cbv zeta.
  destruct c as [| | e | e]; try destruct (is_TimeoutExpired e); reflexivity.
Qed.

Lemma send_events_timeouts request c :
  timeouts (send_events request c) =
  match c with CannotStart _ => [] | _ => [30%Z] end.
Proof.
  unfold send_events. cbv zeta.
  destruct c as [| | e | e]; try destruct (is_TimeoutExpired e); reflexivity.
Qed.

(** A test whose answer is [None] or empty: nothing is scanned. *)
Lemma run_test_skipped request body c w :
  match c with
  | TimesOut => True
  | Exits out _ => out = ""
  | _ => False
  end ->
  TestMcp.run_test request body c w = (Val tt, extend w (send_events request c) []).
Proof.
  unfold TestMcp.run_test, bind. rewrite send_mcp_request_eq. cbv zeta.
  destruct c as [out err | | e | e]; intro H; try contradiction; subst; reflexivity.
Qed.

(** The events of the main block: the heading and the call of the first
    test, its prints, and, unless the first test raised, the same for the
    second. *)
Lemma main_trace loads c1 c2 w :
  exists prints1 tail,
    Forall is_print prints1 /\
    trace (snd (TestMcp.main loads c1 c2 w)) =
      trace w ++ Print heading_tools :: send_events TestMcp.list_request c1
      ++ prints1 ++ tail /\
    (tail = [] \/
     exists prints2,
       Forall is_print prints2 /\
       tail = Print heading_cik :: send_events TestMcp.cik_request c2 ++ prints2).
Proof.
  unfold TestMcp.main.
  set (w1 := extend w [Print heading_tools] []).
  assert (H0 : print heading_tools w = (Val tt, w1)) by apply print_eq.
  rewrite (bind_val _ _ _ _ _ H0).
  destruct (run_test_events TestMcp.list_request (TestMcp.scan_tools_line loads)
              c1 w1 (prints_scan_tools_line loads)) as (p1 & HP1 & E1).
  rewrite send_trace in E1.
  destruct (TestMcp.run_test TestMcp.list_request (TestMcp.scan_tools_line loads) c1 w1)
    as [[[] | e] w2] eqn:R1; cbn [snd] in E1.
  - rewrite (bind_val _ _ _ _ _ R1).
    set (w3 := extend w2 [Print heading_cik] []).
    assert (H2 : print heading_cik w2 = (Val tt, w3)) by apply print_eq.
    rewrite (bind_val _ _ _ _ _ H2).
    destruct (run_test_events TestMcp.cik_request (TestMcp.scan_cik_line loads)
                c2 w3 (prints_scan_cik_line loads)) as (p2 & HP2 & E2).
    rewrite send_trace in E2.
    exists p1, (Print heading_cik :: send_events TestMcp.cik_request c2 ++ p2).
    split; [exact HP1 |]. split; [| right; exists p2; split; [exact HP2 | reflexivity]].
    rewrite E2. unfold w3; cbn [trace extend]. rewrite E1. unfold w1; cbn [trace extend].
    rewrite <- !app_assoc. reflexivity.
  - rewrite (bind_err _ _ _ _ _ R1).
    exists p1, []. split; [exact HP1 |]. split; [| now left].
    cbn [snd]. rewrite E1. unfold w1; cbn [trace extend].
    rewrite <- !app_assoc, app_nil_r. reflexivity.
Qed.

(* ---------------------------------------------------------------- *)
(** *** What is handed to the decoder *)

Section DecodesOnly.

Variable C : string -> Prop.

Lemma decodes_ret {A} (a : A) : decodes_only C (ret a).
Proof. intro w; exists []; split; [constructor | now rewrite app_nil_r]. Qed.

Lemma decodes_raise {A} e : decodes_only C (@raise A e).
Proof. intro w; exists []; split; [constructor | now rewrite app_nil_r]. Qed.

Lemma decodes_lift {A} (r : res A) : decodes_only C (lift r).
Proof. intro w; exists []; split; [constructor | now rewrite app_nil_r]. Qed.

Lemma decodes_emit ev : decodes_only C (emit ev).
Proof. intro w; exists []; split; [constructor | now rewrite app_nil_r]. Qed.

Lemma decodes_bind {A B} (m : py A) (k : A -> py B) :
  decodes_only C m -> (forall a, decodes_only C (k a)) -> decodes_only C (bind m k).
Proof.
  intros Hm Hk w. destruct (Hm w) as (c1 & H1 & E1).
  unfold bind. destruct (m w) as [[a | e] w1]; cbn [snd] in *.
  - destruct (Hk a w1) as (c2 & H2 & E2).
    exists (c1 ++ c2); split; [now apply Forall_app |].
    now rewrite E2, E1, app_assoc.
  - exists c1; split; assumption.
Qed.

Lemma decodes_try_except {A} (m : py A) (h : py_exn -> py A) :
  decodes_only C m -> (forall e, decodes_only C (h e)) ->
  decodes_only C (try_except m h).
Proof.
  intros Hm Hh w. destruct (Hm w) as (c1 & H1 & E1).
  unfold try_except. destruct (m w) as [[a | e] w1]; cbn [snd] in *.
  - exists c1; split; assumption.
  - destruct (Hh e w1) as (c2 & H2 & E2).
    exists (c1 ++ c2); split; [now apply Forall_app |].
    now rewrite E2, E1, app_assoc.
Qed.

Lemma decodes_for_each {A} (items : list A) (body : A -> py flow) :
  (forall x, In x items -> decodes_only C (body x)) ->
  decodes_only C (for_each items body).
Proof.
  induction items as [| x rest IH]; intro Hb; simpl.
  - apply decodes_ret.
  - apply decodes_bind; [apply Hb; now left |].
    intros []; [apply IH; intros; apply Hb; now right | apply decodes_ret].
Qed.

End DecodesOnly.

Ltac decodes_step :=
  first [ apply decodes_ret | apply decodes_raise | apply decodes_lift
        | apply decodes_emit
        | apply decodes_bind; [| intro ]
        | apply decodes_try_except; [| intro ]
        | apply decodes_for_each; intros ? _
        | match goal with
          | |- decodes_only _ (if ?b then _ else _) => destruct b
          | |- decodes_only _ (match ?x with _ => _ end) => destruct x
          end ].

Lemma decodes_print_tool C tool : decodes_only C (TestMcp.print_tool tool).
Proof. unfold TestMcp.print_tool, print. repeat decodes_step. Qed.

Lemma in_split_one_line s line : In line (PyStr.split PyStr.LF s) -> one_line line.
Proof. intro H. exact (proj1 (Forall_forall _ _) (split_one_line s) line H). Qed.

(** *** Runs under two decoders *)

Lemma bind_ext {A B} (m : py A) (k k' : A -> py B) w :
  (forall a w', k a w' = k' a w') -> bind m k w = bind m k' w.
Proof. intro H. unfold bind. destruct (m w) as [[a | e] w1]; [apply H | reflexivity]. Qed.

Lemma try_except_ext {A} (m m' : py A) h w :
  m w = m' w -> try_except m h w = try_except m' h w.
Proof. unfold try_except; now intros ->. Qed.

Lemma for_each_ext {A} (items : list A) (body body' : A -> py flow) :
  (forall x w, In x items -> body x w = body' x w) ->
  forall w, for_each items body w = for_each items body' w.
Proof.
  induction items as [| x rest IH]; intros H w; simpl; [reflexivity |].
  unfold bind. rewrite (H x w (or_introl eq_refl)).
  destruct (body' x w) as [[[] | e] w1]; try reflexivity.
  apply IH. intros; apply H; now right.
Qed.

Lemma scan_line_ext loads loads' line w :
  loads line = loads' line ->
  SimpleMcpTest.scan_line loads line w = SimpleMcpTest.scan_line loads' line w.
Proof.
  intro H. unfold SimpleMcpTest.scan_line, call_loads, bind. now rewrite H.
Qed.

Lemma scan_tools_line_ext loads loads' line w :
  loads line = loads' line ->
  TestMcp.scan_tools_line loads line w = TestMcp.scan_tools_line loads' line w.
Proof.
  intro H. unfold TestMcp.scan_tools_line, call_loads, bind at 1. rewrite H.
  reflexivity.
Qed.

Lemma scan_cik_line_ext loads loads' line w :
  loads line = loads' line ->
  TestMcp.scan_cik_line loads line w = TestMcp.scan_cik_line loads' line w.
Proof.
  intro H. unfold TestMcp.scan_cik_line, call_loads, bind at 1. rewrite H.
  reflexivity.
Qed.

Lemma test_apple_cik_ext loads loads' c w :
  agree_on_lines loads loads' ->
  SimpleMcpTest.test_apple_cik loads c w = SimpleMcpTest.test_apple_cik loads' c w.
Proof.
  intro H. unfold SimpleMcpTest.test_apple_cik.
  apply try_except_ext. apply bind_ext; intros result w1.
  repeat (apply bind_ext; intros _ ?).
  apply for_each_ext. intros line w2 Hin.
  apply scan_line_ext, H. eapply in_split_one_line; eassumption.
Qed.

Lemma run_test_ext request (body body' : string -> py flow) c w :
  (forall line w', one_line line -> body line w' = body' line w') ->
  TestMcp.run_test request body c w = TestMcp.run_test request body' c w.
Proof.
  intro H. unfold TestMcp.run_test. apply bind_ext; intros [stdout stderr] w1.
  destruct (TestMcp.truthy_stdout (fst (stdout, stderr))); [| reflexivity].
  apply for_each_ext. intros line w2 Hin. apply H.
  destruct stdout as [s |]; cbn [fst TestMcp.lines_of] in Hin; [| contradiction].
  eapply in_split_one_line; eassumption.
Qed.

Lemma main_ext loads loads' c1 c2 w :
  agree_on_lines loads loads' ->
  TestMcp.main loads c1 c2 w = TestMcp.main loads' c1 c2 w.
Proof.
  intro H. unfold TestMcp.main.
  apply bind_ext; intros _ w1.
  unfold bind at 1 3.
  rewrite (run_test_ext _ (TestMcp.scan_tools_line loads)
             (TestMcp.scan_tools_line loads') c1 w1)
    by (intros; now apply scan_tools_line_ext, H).
  destruct (TestMcp.run_test _ _ c1 w1) as [[[] | e] w2]; [| reflexivity].
  apply bind_ext; intros _ w3.
  apply run_test_ext. intros; now apply scan_cik_line_ext, H.
Qed.

(* ---------------------------------------------------------------- *)
(** *** The loops, line by line *)

Lemma no_text_calls calls : Forall no_text calls -> calls = [].
Proof. destruct 1 as [| x l H _]; [reflexivity | destruct H]. Qed.

Lemma decodes_nothing {A} (m : py A) w :
  decodes_only no_text m -> decoder_calls (snd (m w)) = decoder_calls w.
Proof.
  intro H. destruct (H w) as (calls & Hc & E).
  rewrite E, (no_text_calls calls Hc). apply app_nil_r.
Qed.

Lemma after_call_loads {A} loads line (k : Json.decoded -> py A) w :
  (forall d, decodes_only no_text (k d)) ->
  decoder_calls (snd (bind (call_loads loads line) k w)) = decoder_calls w ++ [line].
Proof.
  intro H. rewrite (bind_val _ _ _ _ _ (call_loads_eq loads line w)).
  now rewrite decodes_nothing.
Qed.

Lemma scan_tools_line_calls loads line w :
  decoder_calls (snd (TestMcp.scan_tools_line loads line w)) = decoder_calls w ++ [line].
Proof.
  unfold TestMcp.scan_tools_line. apply after_call_loads. intro d. unfold print.
  repeat first [ apply decodes_print_tool | decodes_step ].
Qed.

Lemma scan_cik_line_calls loads line w :
  decoder_calls (snd (TestMcp.scan_cik_line loads line w)) = decoder_calls w ++ [line].
Proof.
  unfold TestMcp.scan_cik_line. apply after_call_loads. intro d. unfold print.
  repeat decodes_step.
Qed.

Lemma scan_line_calls loads line w :
  decoder_calls (snd (SimpleMcpTest.scan_line loads line w)) =
  decoder_calls w ++ (if SimpleMcpTest.wanted line then [line] else []).
Proof.
  unfold SimpleMcpTest.scan_line. destruct (SimpleMcpTest.wanted line).
  - apply after_call_loads. intro d. unfold print. repeat decodes_step.
  - cbn. now rewrite app_nil_r.
Qed.

Lemma flat_map_single {A} (l : list A) : flat_map (fun x => [x]) l = l.
Proof. induction l as [| x l IH]; simpl; [reflexivity | now rewrite IH]. Qed.

Lemma flat_map_filter {A} (f : A -> bool) (l : list A) :
  flat_map (fun x => if f x then [x] else []) l = filter f l.
Proof.
  induction l as [| x l IH]; simpl; [reflexivity |].
  rewrite IH. now destruct (f x).
Qed.

(** Items on which the body only logs and goes on, before the rest. *)
Lemma for_each_pass {A} (body : A -> py flow) (log : A -> list string) pre rest :
  Forall (fun x => forall w, body x w = (Val Continue, extend w [] (log x))) pre ->
  forall w,
    for_each (pre ++ rest) body w =
    for_each rest body (extend w [] (flat_map log pre)).
Proof.
  induction 1 as [| x pre Hx _ IH]; intro w.
  - cbn. now rewrite extend_nil.
  - cbn [app]. rewrite for_each_cons, Hx, IH, extend_extend. reflexivity.
Qed.

Lemma for_each_break {A} (body : A -> py flow) x rest w w' :
  body x w = (Val Break, w') -> for_each (x :: rest) body w = (Val tt, w').
Proof. intro H. now rewrite for_each_cons, H. Qed.

Lemma for_each_raise {A} (body : A -> py flow) x rest w e w' :
  body x w = (Err e, w') -> for_each (x :: rest) body w = (Err e, w').
Proof. intro H. now rewrite for_each_cons, H. Qed.

Lemma ret_eq {A} (a : A) w : ret a w = (Val a, extend w [] []).
Proof. unfold ret. now rewrite extend_nil. Qed.

(** Running a statement whose parts are known: each [bind] is resolved
    with the equation of its first part. *)
Ltac py_step :=
  first
    [ rewrite (bind_val _ _ _ _ _ (call_loads_eq _ _ _))
    | rewrite (bind_val _ _ _ _ _ (print_eq _ _))
    | match goal with
      | |- context [bind (lift (Val ?a)) ?k ?w] =>
          change (bind (lift (Val a)) k w) with (k a w); cbv beta match
      | |- context [bind (lift (Err ?e)) ?k ?w] =>
          change (bind (lift (Err e)) k w) with (@Err _ e, w) at 1
      | |- context [bind (ret ?a) ?k ?w] =>
          change (bind (ret a) k w) with (k a w); cbv beta match
      end ].

Lemma scan_line_passed loads line w :
  passed_over loads line ->
  SimpleMcpTest.scan_line loads line w =
  (Val Continue,
   extend w [] (if SimpleMcpTest.wanted line then [line] else [])).
Proof.
  unfold passed_over, SimpleMcpTest.scan_line.
  destruct (SimpleMcpTest.wanted line) eqn:W.
  - intros [H | [H | (members & H & Hid)]]; [discriminate | |];
      py_step; rewrite H; [reflexivity |].
    unfold Py.get, id_of in *.
    destruct (Py.lookup "id" members) as [x |];
      py_step; rewrite Hid; now rewrite ret_eq, extend_extend.
  - intros _. apply ret_eq.
Qed.

Lemma scan_line_answer loads line members w :
  answers loads line members ->
  SimpleMcpTest.scan_line loads line w =
  (Val Break,
   extend w [ Print "SUCCESS! Apple's CIK data:";
              Print (Json.dumps_indent 2 (JObj members)) ] [line]).
Proof.
  unfold answers, SimpleMcpTest.scan_line. intros (W & H & Hid).
  rewrite W. py_step. rewrite H.
  unfold Py.get, id_of in *.
  destruct (Py.lookup "id" members) as [x |];
    py_step; rewrite Hid; repeat py_step;
    now rewrite ret_eq, !extend_extend.
Qed.

(** [test_apple_cik] on a child that ends in time: the raw output, the
    scan, and the report of what the scan raised. *)
Lemma test_apple_cik_exits loads out err w :
  SimpleMcpTest.test_apple_cik loads (Exits out err) w =
  match for_each (PyStr.split PyStr.LF (PyStr.strip out))
                 (SimpleMcpTest.scan_line loads)
                 (extend w (raw_output_events out err) []) with
  | (Val a, w') => (Val a, w')
  | (Err e, w') => report_failure e w'
  end.
Proof.
  unfold SimpleMcpTest.test_apple_cik, try_except.
  rewrite (bind_val _ _ _ _ _ (run_eq _ _ _ (Exits out err) w)).
  cbn [fst snd]. repeat py_step. rewrite !extend_extend. reflexivity.
Qed.

Lemma scan_cik_line_decode_error loads line w :
  loads line = Json.DecodeError ->
  TestMcp.scan_cik_line loads line w = (Val Continue, extend w [] [line]).
Proof.
  intro H. unfold TestMcp.scan_cik_line. py_step. rewrite H.
  now rewrite ret_eq, extend_extend.
Qed.

Lemma has_key_lookup k members x :
  Py.lookup k members = Some x -> Py.has_key k members = true.
Proof. unfold Py.has_key; now intros ->. Qed.

(** The line of C8: a [result] without [content], and no [id]. *)
Lemma scan_cik_line_without_id loads line members result w :
  loads line = Json.Decoded (JObj members) ->
  Py.lookup "result" members = Some result ->
  Py.contains "content" result = Val false ->
  Py.lookup "id" members = None ->
  TestMcp.scan_cik_line loads line w =
  (Err (Exc KeyError "'id'"), extend w [] [line]).
Proof.
  intros H Hres Hcontent Hid. unfold TestMcp.scan_cik_line. py_step. rewrite H.
  unfold TestMcp.has_nested.
  cbn [Py.contains Py.getitem]. rewrite (has_key_lookup _ _ _ Hres), Hres, Hcontent.
  repeat py_step. rewrite Hid.
  unfold bind, lift. reflexivity.
Qed.

Lemma scan_tools_line_not_a_listing loads line w :
  not_a_listing loads line ->
  TestMcp.scan_tools_line loads line w = (Val Continue, extend w [] [line]).
Proof.
  intros [H | (response & H & Hn)]; unfold TestMcp.scan_tools_line;
    py_step; rewrite H.
  - now rewrite ret_eq, extend_extend.
  - rewrite Hn. py_step. now rewrite ret_eq, extend_extend.
Qed.

Lemma print_tool_shown tool shown w :
  tool_shown tool shown ->
  TestMcp.print_tool tool w = (Val Continue, extend w [Print (tool_line shown)] []).
Proof.
  intros (members & -> & Hn & Hd). unfold TestMcp.print_tool.
  cbn [Py.getitem]. rewrite Hn, Hd. repeat py_step. cbn [Py.slice_to].
  repeat py_step. cbn [Py.str]. now rewrite ret_eq, extend_extend.
Qed.

Lemma print_tools_shown tools shown :
  Forall2 tool_shown tools shown ->
  forall w,
    for_each tools TestMcp.print_tool w =
    (Val tt, extend w (map (fun s => Print (tool_line s)) shown) []).
Proof.
  induction 1 as [| t s ts ss Hts _ IH]; intro w.
  - apply ret_eq.
  - rewrite for_each_cons, (print_tool_shown _ _ _ Hts), IH, extend_extend.
    reflexivity.
Qed.

Lemma has_nested_dict members k1 k2 inner x :
  Py.lookup k1 members = Some (JObj inner) ->
  Py.lookup k2 inner = Some x ->
  TestMcp.has_nested (JObj members) k1 k2 = Val true.
Proof.
  intros H1 H2. unfold TestMcp.has_nested. cbn [Py.contains Py.getitem].
  rewrite (has_key_lookup _ _ _ H1), H1. cbn [Py.contains].
  now rewrite (has_key_lookup _ _ _ H2).
Qed.

(** The line of C9: a listing whose first five tools have a name and a
    description. *)
Lemma scan_tools_line_listing loads line members result tools shown w :
  loads line = Json.Decoded (JObj members) ->
  Py.lookup "result" members = Some (JObj result) ->
  Py.lookup "tools" result = Some (JArr tools) ->
  Forall2 tool_shown (firstn 5 tools) shown ->
  TestMcp.scan_tools_line loads line w =
  (Val Break,
   extend w
     (Print ("Found " ++ PyStr.of_Z (Z.of_nat (length tools)) ++ " tools:")%string
      :: map (fun s => Print (tool_line s)) shown
      ++ (if (5 <? length tools)%nat
          then [Print ("  ... and " ++ PyStr.of_Z (Z.of_nat (length tools) - 5)
                       ++ " more tools")%string]
          else []))
     [line]).
Proof.
  intros H Hres Htools Hshown. unfold TestMcp.scan_tools_line. py_step. rewrite H.
  rewrite (has_nested_dict _ _ _ _ _ Hres Htools). py_step.
  cbn [Py.getitem]. rewrite Hres. py_step.
  cbn [Py.getitem]. rewrite Htools. py_step.
  repeat (cbn [Py.len Py.slice_to Py.iter]; py_step).
  rewrite (bind_val _ _ _ _ _ (print_tools_shown _ _ Hshown _)).
  repeat py_step.
  destruct (5 <? length tools)%nat; repeat py_step;
    rewrite ?ret_eq, !extend_extend; cbn [app]; rewrite ?app_nil_r;
    reflexivity.
Qed.

Lemma decode_fails_true loads line :
  decode_fails loads line = true -> loads line = Json.DecodeError.
Proof. unfold decode_fails. now destruct (loads line). Qed.

(* ---------------------------------------------------------------- *)
(** *** Every way through the loops *)

Lemma bind_lift {A B} (r : res A) (k : A -> py B) w :
  bind (lift r) k w = match r with Val a => k a w | Err e => (Err e, w) end.
Proof. now destruct r. Qed.

Lemma raise_eq {A} e w : @raise A e w = (Err e, extend w [] []).
Proof. unfold raise. now rewrite extend_nil. Qed.

(** One line of [simple-mcp-test.py]: passed over, or the answer, or an
    exception; only the answer prints. *)
Lemma scan_line_cases loads line w :
  (exists calls,
      SimpleMcpTest.scan_line loads line w = (Val Continue, extend w [] calls))
  \/ (exists members,
        answers loads line members
        /\ SimpleMcpTest.scan_line loads line w =
           (Val Break,
            extend w [ Print "SUCCESS! Apple's CIK data:";
                       Print (Json.dumps_indent 2 (JObj members)) ] [line]))
  \/ (exists e calls,
        SimpleMcpTest.scan_line loads line w = (Err e, extend w [] calls)).
Proof.
  destruct (SimpleMcpTest.wanted line) eqn:W.
  - destruct (loads line) as [v | | e] eqn:L.
    + destruct v as [| b | n | f | s | items | members];
        try (right; right; eexists; exists [line];
             unfold SimpleMcpTest.scan_line; rewrite W; py_step; rewrite L;
             rewrite bind_lift; cbn [Py.get]; reflexivity).
      destruct (Py.eq_int (id_of members) 2) eqn:I.
      * right; left. exists members. split; [now repeat split |].
        now apply scan_line_answer.
      * left. exists [line].
        rewrite (scan_line_passed loads line w), W; [reflexivity |].
        right; right. now exists members.
    + left. exists [line].
      rewrite (scan_line_passed loads line w), W; [reflexivity |].
      right; now left.
    + right; right. exists e, [line].
      unfold SimpleMcpTest.scan_line; rewrite W; py_step; rewrite L.
      now rewrite raise_eq, extend_extend.
  - left. exists [].
    rewrite (scan_line_passed loads line w), W; [reflexivity | now left].
Qed.

Lemma scan_lines_cases loads lines :
  forall w,
    (exists calls,
        for_each lines (SimpleMcpTest.scan_line loads) w
        = (Val tt, extend w [] calls))
    \/ (exists line members calls,
          In line lines /\ answers loads line members
          /\ for_each lines (SimpleMcpTest.scan_line loads) w =
             (Val tt,
              extend w [ Print "SUCCESS! Apple's CIK data:";
                         Print (Json.dumps_indent 2 (JObj members)) ] calls))
    \/ (exists e calls,
          for_each lines (SimpleMcpTest.scan_line loads) w
          = (Err e, extend w [] calls)).
Proof.
  induction lines as [| l rest IH]; intro w.
  - left. exists []. apply ret_eq.
  - rewrite for_each_cons.
    destruct (scan_line_cases loads l w)
      as [(calls & ->) | [(members & Ha & ->) | (e & calls & ->)]].
    + destruct (IH (extend w [] calls))
        as [(c2 & ->) | [(line & members & c2 & Hin & Ha & ->) | (e & c2 & ->)]].
      * left. exists (calls ++ c2). now rewrite extend_extend.
      * right; left. exists line, members, (calls ++ c2).
        split; [now right | split; [exact Ha |]]. now rewrite extend_extend.
      * right; right. exists e, (calls ++ c2). now rewrite extend_extend.
    + right; left. exists l, members, [l].
      split; [now left | split; [exact Ha | reflexivity]].
    + right; right. now exists e, calls.
Qed.

(** The two [except] clauses: a timeout and any other [Exception] end in
    one printed line, anything else goes on up. *)
Lemma report_failure_eq e w :
  report_failure e w =
  if is_TimeoutExpired e then (Val tt, extend w [Print "Request timed out"] [])
  else if is_Exception e
       then (Val tt, extend w [Print ("Error: " ++ exc_str e)%string] [])
       else (Err e, extend w [] []).
Proof.
  unfold report_failure.
  destruct (is_TimeoutExpired e); [apply print_eq |].
  destruct (is_Exception e); [apply print_eq | apply raise_eq].
Qed.

Lemma test_apple_cik_eq loads c w :
  SimpleMcpTest.test_apple_cik loads c w =
  match c with
  | Exits out err =>
      match for_each (PyStr.split PyStr.LF (PyStr.strip out))
                     (SimpleMcpTest.scan_line loads)
                     (extend w (raw_output_events out err) []) with
      | (Val a, w') => (Val a, w')
      | (Err e, w') => report_failure e w'
      end
  | TimesOut =>
      (Val tt,
       extend w (run_events SimpleMcpTest.cmd SimpleMcpTest.input_data 15 TimesOut
                 ++ [Print "Request timed out"]) [])
  | CannotStart e | BreaksPipe e =>
      report_failure e
        (extend w (run_events SimpleMcpTest.cmd SimpleMcpTest.input_data 15 c) [])
  end.
Proof.
  destruct c as [out err | | e | e].
  - apply test_apple_cik_exits.
  - unfold SimpleMcpTest.test_apple_cik, try_except.
    rewrite (bind_err _ _ _ _ _ (run_eq _ _ _ TimesOut w)).
    cbn [is_TimeoutExpired exc_class Subprocess.timeout_expired].
    rewrite print_eq, extend_extend. reflexivity.
  - unfold SimpleMcpTest.test_apple_cik, try_except.
    now rewrite (bind_err _ _ _ _ _ (run_eq _ _ _ (CannotStart e) w)).
  - unfold SimpleMcpTest.test_apple_cik, try_except.
    now rewrite (bind_err _ _ _ _ _ (run_eq _ _ _ (BreaksPipe e) w)).
Qed.

(* ---------------------------------------------------------------- *)
(** *** Bounds on what a statement prints and raises *)

Section Within.

Variable E : py_exn -> Prop.

Lemma within_ret {A} (a : A) n : within E n (ret a).
Proof.
  exists (Val a), [], []. repeat split; [constructor | cbn; lia | discriminate |].
  intro w. apply ret_eq.
Qed.

Lemma within_print s n : 1 <= n -> within E n (print s).
Proof.
  intro Hn. exists (Val tt), [Print s], [].
  repeat split; [now repeat constructor | exact Hn | discriminate |].
  intro w. apply print_eq.
Qed.

Lemma within_weaken {A} (m : py A) n n' :
  n <= n' -> within E n m -> within E n' m.
Proof.
  intros Hn (r & p & c & HP & HL & HE & Hm).
  exists r, p, c. repeat split; [exact HP | lia | exact HE | exact Hm].
Qed.

Lemma within_bind {A B} (m : py A) (k : A -> py B) n1 n2 :
  within E n1 m -> (forall a, within E n2 (k a)) -> within E (n1 + n2) (bind m k).
Proof.
  intros (r & p & c & HP & HL & HE & Hm) Hk.
  destruct r as [a | e].
  - destruct (Hk a) as (r' & p' & c' & HP' & HL' & HE' & Hka).
    exists r', (p ++ p'), (c ++ c'). repeat split.
    + now apply Forall_app.
    + rewrite length_app; lia.
    + exact HE'.
    + intro w. unfold bind; now rewrite Hm, Hka, extend_extend.
  - exists (Err e), p, c. repeat split; [exact HP | lia | |].
    + intros e' [= <-]. now apply HE.
    + intro w. unfold bind; now rewrite Hm.
Qed.

(** A pure operation before a statement: the statement is only looked at
    for the value the operation has. *)
Lemma within_lift {A B} (r : res A) (k : A -> py B) n :
  (forall e, r = Err e -> E e) ->
  (forall a, r = Val a -> within E n (k a)) ->
  within E n (bind (lift r) k).
Proof.
  intros HE Hk. destruct r as [a | e].
  - destruct (Hk a eq_refl) as (r' & p' & c' & HP' & HL' & HE' & Hka).
    exists r', p', c'. repeat split; try assumption.
  - exists (Err e), [], [].
    repeat split; [constructor | cbn; lia | |].
    + intros e' [= <-]. now apply HE.
    + intro w. unfold bind, lift. now rewrite extend_nil.
Qed.

Lemma within_then_print {B} s (k : py B) n :
  within E n k -> within E (S n) (print s ;;; k).
Proof.
  intro Hk. change (S n) with (1 + n).
  apply within_bind; [now apply within_print | intros _; exact Hk].
Qed.

(** A loop whose body prints at most one line for each item. *)
Lemma within_for_each_items {A} (items : list A) (body : A -> py flow) :
  (forall x, within E 1 (body x)) ->
  within E (length items) (for_each items body).
Proof.
  intro Hb. induction items as [| x rest IH]; cbn [for_each length].
  - apply within_ret.
  - change (S (length rest)) with (1 + length rest).
    apply within_bind; [apply Hb |].
    intros []; [exact IH | apply within_ret].
Qed.

(** A loop over lines that stops at the first line that prints. *)
Lemma within_for_each_lines (lines : list string) (body : string -> py flow) n :
  (forall line, line_within E n (body line)) ->
  within E n (for_each lines body).
Proof.
  intro Hb. induction lines as [| x rest IH]; cbn [for_each].
  - apply within_ret.
  - destruct (Hb x) as (r & p & c & HP & HL & HC & HE & Hm).
    destruct r as [[] | e].
    + rewrite (HC eq_refl) in *.
      destruct IH as (r' & p' & c' & HP' & HL' & HE' & Hrest).
      exists r', p', (c ++ c'). repeat split; try assumption.
      intro w. unfold bind. rewrite Hm, Hrest, extend_extend. reflexivity.
    + exists (Val tt), p, c. repeat split; try assumption; [discriminate |].
      intro w. unfold bind. rewrite Hm, ret_eq, extend_extend.
      now rewrite !app_nil_r.
    + exists (Err e), p, c. repeat split; try assumption.
      * intros e' [= <-]. now apply HE.
      * intro w. unfold bind. now rewrite Hm.
Qed.

End Within.

(** Where the operations on decoded values fail, they fail with a
    [TypeError] or a [KeyError]. *)
Lemma contains_raises loads k v e : Py.contains k v = Err e -> loop_exn loads e.
Proof. destruct v; cbn; intros [= <-]; now left. Qed.

Lemma getitem_raises loads v k e : Py.getitem v k = Err e -> loop_exn loads e.
Proof.
  destruct v as [| | | | | | members]; cbn; try (intros [= <-]; now left).
  destruct (Py.lookup k members); intros [= <-]. right; now left.
Qed.

Lemma len_raises loads v e : Py.len v = Err e -> loop_exn loads e.
Proof. destruct v; cbn; intros [= <-]; now left. Qed.

Lemma slice_to_raises loads n v e : Py.slice_to n v = Err e -> loop_exn loads e.
Proof. destruct v; cbn; intros [= <-]; now left. Qed.

Lemma iter_raises loads v e : Py.iter v = Err e -> loop_exn loads e.
Proof. destruct v; cbn; intros [= <-]; now left. Qed.

Lemma has_nested_raises loads v k1 k2 e :
  TestMcp.has_nested v k1 k2 = Err e -> loop_exn loads e.
Proof.
  unfold TestMcp.has_nested.
  destruct (Py.contains k1 v) as [[] | e1] eqn:C.
  - destruct (Py.getitem v k1) as [inner | e2] eqn:G.
    + apply contains_raises.
    + intros [= <-]. eapply getitem_raises; eassumption.
  - discriminate.
  - intros [= <-]. eapply contains_raises; eassumption.
Qed.

Lemma length_chars_take n s : length (PyStr.chars (PyStr.take n s)) <= n.
Proof.
  revert s; induction n as [| n IH]; intros [| c s]; cbn; try lia.
  specialize (IH s). lia.
Qed.

(** [for tool in tools[:5]] visits at most five items. *)
Lemma slice_iter_length n v shown items :
  Py.slice_to n v = Val shown -> Py.iter shown = Val items -> length items <= n.
Proof.
  destruct v as [| | | | s | l | m]; cbn; try discriminate.
  - intros [= <-]; cbn. intros [= <-].
    rewrite length_map. apply length_chars_take.
  - intros [= <-]; cbn. intros [= <-]. rewrite length_firstn. apply Nat.le_min_l.
Qed.

Lemma within_print_tool loads tool :
  within (loop_exn loads) 1 (TestMcp.print_tool tool).
Proof.
  unfold TestMcp.print_tool.
  apply within_lift; [apply getitem_raises | intros name _].
  apply within_lift; [apply getitem_raises | intros description _].
  apply within_lift; [apply slice_to_raises | intros head _].
  apply within_then_print, within_ret.
Qed.

Section LineWithin.

Variable E : py_exn -> Prop.

Lemma line_within_ext (m m' : py flow) n :
  (forall w, m w = m' w) -> line_within E n m' -> line_within E n m.
Proof.
  intros Hext (r & p & c & HP & HL & HC & HE & Hm).
  exists r, p, c. repeat split; try assumption.
  intro w. now rewrite Hext.
Qed.

Lemma line_within_continue n : line_within E n (ret Continue).
Proof.
  exists (Val Continue), [], [].
  repeat split; [constructor | cbn; lia | discriminate |].
  intro w. apply ret_eq.
Qed.

Lemma line_within_raise e n : E e -> line_within E n (raise e).
Proof.
  intro He. exists (Err e), [], [].
  repeat split; [constructor | cbn; lia | now intros ? [= <-] |].
  intro w. apply raise_eq.
Qed.

Lemma line_within_lift {A} (r : res A) (k : A -> py flow) n :
  (forall e, r = Err e -> E e) ->
  (forall a, r = Val a -> line_within E n (k a)) ->
  line_within E n (bind (lift r) k).
Proof.
  intros HE Hk. destruct r as [a | e].
  - exact (Hk a eq_refl).
  - exists (Err e), [], [].
    repeat split; [constructor | cbn; lia | |].
    + intros e' [= <-]. now apply HE.
    + intro w. unfold bind, lift. now rewrite extend_nil.
Qed.

Lemma line_within_ret {A} (a : A) (k : A -> py flow) n :
  line_within E n (k a) -> line_within E n (bind (ret a) k).
Proof. intro H; exact H. Qed.

Lemma line_within_call_loads loads line (k : Json.decoded -> py flow) n :
  line_within E n (k (loads line)) ->
  line_within E n (bind (call_loads loads line) k).
Proof.
  intros (r & p & c & HP & HL & HC & HE & Hm).
  exists r, p, (line :: c). repeat split; try assumption.
  intro w. rewrite (bind_val _ _ _ _ _ (call_loads_eq _ _ _)), Hm.
  now rewrite extend_extend.
Qed.

(** A statement that never goes on to the next line may print. *)
Lemma line_within_stops (m : py flow) n :
  within E n m -> (forall w, fst (m w) <> Val Continue) -> line_within E n m.
Proof.
  intros (r & p & c & HP & HL & HE & Hm) Hstop.
  exists r, p, c. repeat split; try assumption.
  intros ->. exfalso. apply (Hstop fresh). now rewrite Hm.
Qed.

End LineWithin.

Lemma bind_stops {A} (m : py A) (k : A -> py flow) :
  (forall a w, fst (k a w) <> Val Continue) ->
  forall w, fst (bind m k w) <> Val Continue.
Proof.
  intros Hk w. unfold bind.
  destruct (m w) as [[a | e] w']; [apply Hk | discriminate].
Qed.

Lemma break_stops w : fst (ret Break w) <> Val Continue.
Proof. discriminate. Qed.

Ltac stops := repeat (apply bind_stops; intro); apply break_stops.

(** The body of the first loop: nothing printed for a line passed over,
    at most seven lines for a listing. *)
Lemma line_within_scan_tools_line loads line :
  line_within (loop_exn loads) 7 (TestMcp.scan_tools_line loads line).
Proof.
  unfold TestMcp.scan_tools_line.
  apply line_within_call_loads.
  destruct (loads line) as [response | | e] eqn:L.
  - apply line_within_lift; [apply has_nested_raises | intros [] _].
    + apply line_within_stops; [| stops].
      apply within_lift; [apply getitem_raises | intros result _].
      apply within_lift; [apply getitem_raises | intros tools _].
      apply within_lift; [apply len_raises | intros n _].
      apply within_then_print.
      apply within_lift; [apply slice_to_raises | intros shown Hs].
      apply within_lift; [apply iter_raises | intros items Hi].
      apply (within_weaken _ _ (length items + 1));
        [pose proof (slice_iter_length _ _ _ _ Hs Hi); lia |].
      apply within_bind;
        [apply within_for_each_items; intro; apply within_print_tool | intros _].
      apply within_lift; [apply len_raises | intros n' _].
      apply (within_bind (loop_exn loads) _ _ 1 0); [| intros _; apply within_ret].
      destruct (5 <? n')%nat; [now apply within_print | apply within_ret].
    + apply line_within_continue.
  - apply line_within_continue.
  - apply line_within_raise. right; right. now exists line.
Qed.

(** The body of the second loop: nothing printed for a line passed
    over, two lines for an answer. *)
Lemma line_within_scan_cik_line loads line :
  line_within (loop_exn loads) 2 (TestMcp.scan_cik_line loads line).
Proof.
  unfold TestMcp.scan_cik_line.
  apply line_within_call_loads.
  destruct (loads line) as [response | | e] eqn:L.
  - apply line_within_lift; [apply has_nested_raises | intros [] _].
    + apply line_within_stops; [| stops].
      apply within_then_print.
      apply within_lift; [apply getitem_raises | intros result _].
      apply within_lift; [apply getitem_raises | intros content _].
      apply within_then_print, within_ret.
    + apply line_within_lift; [apply contains_raises | intros [] _].
      * eapply line_within_ext; [intro w; apply bind_assoc |].
        apply line_within_lift; [apply getitem_raises | intros id _].
        apply line_within_ret.
        destruct (Py.eq_int id 3).
        -- apply line_within_stops; [| stops].
           apply within_then_print.
           apply within_lift; [apply getitem_raises | intros result _].
           apply within_then_print, within_ret.
        -- apply line_within_continue.
      * apply line_within_ret, line_within_continue.
  - apply line_within_continue.
  - apply line_within_raise. right; right. now exists line.
Qed.

(** One test of the main block: the events of [send_mcp_request], then
    what the loop prints; the exceptions of the loop and of the start of
    the container go through. *)
Lemma run_test_within E request body c n :
  (forall line, line_within E n (body line)) ->
  exists (r : res unit) (prints : list event) (calls : list string),
    Forall is_print prints
    /\ length prints <= n
    /\ (forall e, r = Err e -> E e \/ c = CannotStart e \/ c = BreaksPipe e)
    /\ forall w,
         TestMcp.run_test request body c w =
         (r, extend w (send_events request c ++ prints) calls).
Proof.
  intro Hb.
  assert (Hnone : forall evs,
             (forall w, TestMcp.send_mcp_request request c w
                        = (Val (None, "Timeout"%string), extend w evs [])) ->
             send_events request c = evs ->
             exists (r : res unit) prints calls,
               Forall is_print prints /\ length prints <= n
               /\ (forall e, r = Err e ->
                             E e \/ c = CannotStart e \/ c = BreaksPipe e)
               /\ forall w, TestMcp.run_test request body c w =
                            (r, extend w (send_events request c ++ prints) calls)).
  { intros evs Hs Hev. exists (Val tt), [], [].
    repeat split; [constructor | cbn; lia | discriminate |].
    intro w. unfold TestMcp.run_test.
    rewrite (bind_val _ _ _ _ _ (Hs w)). cbn [fst TestMcp.truthy_stdout].
    rewrite ret_eq, extend_extend, Hev. reflexivity. }
  assert (Herr : forall e evs,
             (forall w, TestMcp.send_mcp_request request c w
                        = (Err e, extend w evs [])) ->
             send_events request c = evs ->
             c = CannotStart e \/ c = BreaksPipe e ->
             exists (r : res unit) prints calls,
               Forall is_print prints /\ length prints <= n
               /\ (forall e, r = Err e ->
                             E e \/ c = CannotStart e \/ c = BreaksPipe e)
               /\ forall w, TestMcp.run_test request body c w =
                            (r, extend w (send_events request c ++ prints) calls)).
  { intros e evs Hs Hev Hc. exists (Err e), [], [].
    repeat split; [constructor | cbn; lia | now intros ? [= <-]; right |].
    intro w. unfold TestMcp.run_test.
    rewrite (bind_err _ _ _ _ _ (Hs w)), Hev, app_nil_r. reflexivity. }
  destruct c as [out err | | e | e].
  - assert (S : forall w,
               TestMcp.send_mcp_request request (Exits out err) w =
               (Val (Some out, err),
                extend w (send_events request (Exits out err)) []))
      by (intro w; exact (send_mcp_request_eq request (Exits out err) w)).
    destruct (TestMcp.truthy_stdout (Some out)) eqn:T.
    + destruct (within_for_each_lines E (TestMcp.lines_of (Some out)) body n Hb)
        as (r & p & k & HP & HL & HE & Hm).
      exists r, p, k. repeat split; try assumption.
      * intros e He. left. now apply HE.
      * intro w. unfold TestMcp.run_test.
        rewrite (bind_val _ _ _ _ _ (S w)).
        cbn [fst]. rewrite T, Hm, extend_extend. reflexivity.
    + exists (Val tt), [], [].
      repeat split; [constructor | cbn; lia | discriminate |].
      intro w. unfold TestMcp.run_test.
      rewrite (bind_val _ _ _ _ _ (S w)).
      cbn [fst]. rewrite T, ret_eq, extend_extend. reflexivity.
  - eapply Hnone; [intro w; exact (send_mcp_request_eq request TimesOut w) |].
    reflexivity.
  - eapply Herr; [intro w; exact (send_mcp_request_eq request (CannotStart e) w) | |].
    + reflexivity.
    + now left.
  - destruct (is_TimeoutExpired e) eqn:T.
    + eapply Hnone.
      * intro w. rewrite (send_mcp_request_eq request (BreaksPipe e) w).
        cbv zeta. rewrite T. reflexivity.
      * unfold send_events. rewrite T. reflexivity.
    + eapply Herr.
      * intro w. rewrite (send_mcp_request_eq request (BreaksPipe e) w).
        cbv zeta. rewrite T. reflexivity.
      * unfold send_events. rewrite T. reflexivity.
      * now right.
Qed.

(** The main block of [test-mcp.py], test by test. *)
Lemma main_within loads c1 c2 :
  exists (r1 : res unit) (p1 : list event) (k1 : list string),
    Forall is_print p1
    /\ length p1 <= 7
    /\ (forall e, r1 = Err e ->
                  loop_exn loads e \/ c1 = CannotStart e \/ c1 = BreaksPipe e)
    /\ match r1 with
       | Err e =>
           forall w,
             TestMcp.main loads c1 c2 w =
             (Err e,
              extend w (Print heading_tools
                        :: send_events TestMcp.list_request c1 ++ p1) k1)
       | Val _ =>
           exists (r2 : res unit) (p2 : list event) (k2 : list string),
             Forall is_print p2
             /\ length p2 <= 2
             /\ (forall e, r2 = Err e ->
                           loop_exn loads e \/ c2 = CannotStart e
                           \/ c2 = BreaksPipe e)
             /\ forall w,
                  TestMcp.main loads c1 c2 w =
                  (r2,
                   extend w
                     (Print heading_tools
                      :: send_events TestMcp.list_request c1 ++ p1
                      ++ Print heading_cik
                      :: send_events TestMcp.cik_request c2 ++ p2)
                     (k1 ++ k2))
       end.
Proof.
  destruct (run_test_within (loop_exn loads) TestMcp.list_request
              (TestMcp.scan_tools_line loads) c1 7
              (line_within_scan_tools_line loads))
    as (r1 & p1 & k1 & HP1 & HL1 & HE1 & H1).
  exists r1, p1, k1. split; [exact HP1 |]. split; [exact HL1 |].
  split; [exact HE1 |].
  destruct r1 as [[] | e].
  - destruct (run_test_within (loop_exn loads) TestMcp.cik_request
                (TestMcp.scan_cik_line loads) c2 2
                (line_within_scan_cik_line loads))
      as (r2 & p2 & k2 & HP2 & HL2 & HE2 & H2).
    exists r2, p2, k2. split; [exact HP2 |]. split; [exact HL2 |].
    split; [exact HE2 |].
    intro w. unfold TestMcp.main.
    rewrite (bind_val _ _ _ _ _ (print_eq _ _)).
    rewrite (bind_val _ _ _ _ _ (H1 _)).
    rewrite (bind_val _ _ _ _ _ (print_eq _ _)).
    rewrite H2, !extend_extend. f_equal. f_equal.
    cbn [app]. rewrite <- !app_assoc. reflexivity.
  - intro w. unfold TestMcp.main.
    rewrite (bind_val _ _ _ _ _ (print_eq _ _)).
    rewrite (bind_err _ _ _ _ _ (H1 _)), extend_extend. reflexivity.
Qed.

(* ---------------------------------------------------------------- *)
(** *** The loop bodies of [test-mcp.py], case by case *)

Lemma print_tools_until_key_error good shown bad rest key :
  Forall2 tool_shown good shown ->
  Py.getitem bad "name" = Err (Exc KeyError (Py.repr_str key))
  \/ (exists name, Py.getitem bad "name" = Val name)
     /\ Py.getitem bad "description" = Err (Exc KeyError (Py.repr_str key)) ->
  forall w,
    for_each (good ++ bad :: rest) TestMcp.print_tool w =
    (Err (Exc KeyError (Py.repr_str key)),
     extend w (map (fun s => Print (tool_line s)) shown) []).
Proof.
  intros HF Hbad. induction HF as [| tool s good shown Hs HF IH]; intro w.
  - cbn [app map]. apply for_each_raise. unfold TestMcp.print_tool.
    destruct Hbad as [-> | ((name & ->) & ->)]; repeat py_step;
      now rewrite extend_nil.
  - cbn [app map]. rewrite for_each_cons, (print_tool_shown _ _ _ Hs), IH.
    now rewrite extend_extend.
Qed.

(* ---------------------------------------------------------------- *)
(** *** The guard of [simple-mcp-test.py] *)

Lemma rstrip_cons c s :
  PyStr.truthy (PyStr.rstrip (String c s))
  = negb (PyStr.isspace c) || PyStr.truthy (PyStr.rstrip s).
Proof.
  cbn [PyStr.rstrip].
  destruct (PyStr.rstrip s); [destruct (PyStr.isspace c) |]; cbn;
    [reflexivity | reflexivity | now rewrite orb_true_r].
Qed.

Lemma startswith_brace line :
  PyStr.startswith "{" line = true -> exists rest, line = String "{" rest.
Proof.
  unfold PyStr.startswith.
  destruct line as [| c rest]; cbn [String.prefix]; [discriminate |].
  destruct (ascii_dec "{" c) as [<- |]; [now exists rest | discriminate].
Qed.

(** What [object_members] reads is an object. *)
Lemma object_members_dict fuel :
  forall s acc v rest,
    Json.object_members fuel s acc = Json.Parsed v rest -> is_object v = true.
Proof.
  induction fuel as [| fuel IH]; intros s acc v rest; cbn [Json.object_members];
    [discriminate |].
  destruct s as [| c s']; [discriminate |].
  destruct (Ascii.eqb c PyStr.DQ); [| discriminate].
  destruct (Json.scanstring s') as [key r | | e]; try discriminate.
  destruct (Json.skip_ws r) as [| c1 r1]; [discriminate |].
  destruct (Ascii.eqb c1 ":") eqn:C1.
  - apply Ascii.eqb_eq in C1 as ->.
    destruct (Json.scan_once fuel (Json.skip_ws r1)) as [x r2 | | e];
      try discriminate.
    destruct (Json.skip_ws r2) as [| c2 r3]; [discriminate |].
    destruct (Ascii.eqb c2 "}") eqn:C2; [apply Ascii.eqb_eq in C2 as -> |].
    + intros [= <- _]. reflexivity.
    + destruct (Ascii.eqb c2 ",") eqn:C3; [apply Ascii.eqb_eq in C3 as -> |].
      * apply IH.
      * intro H. exfalso. revert H C2 C3.
        destruct c2 as [[] [] [] [] [] [] [] []]; cbn; try discriminate.
  - intro H. exfalso. revert H C1.
    destruct c1 as [[] [] [] [] [] [] [] []]; cbn; try discriminate.
Qed.

Lemma scan_once_brace fuel rest v r :
  Json.scan_once (S fuel) (String "{" rest) = Json.Parsed v r ->
  is_object v = true.
Proof.
  cbn [Json.scan_once].
  change (Ascii.eqb "{" PyStr.DQ) with false.
  change (Ascii.eqb "{" "{") with true. cbv iota.
  destruct (Json.skip_ws rest) as [| c s2]; [apply object_members_dict |].
  destruct c as [[] [] [] [] [] [] [] []]; try apply object_members_dict.
  intros [= <- _]. reflexivity.
Qed.

(** The decoder reads a text that starts with a brace as an object, or
    not at all. *)
Lemma decode_brace rest v :
  Json.decode (String "{" rest) = Json.Scanned v -> is_object v = true.
Proof.
  unfold Json.decode.
  replace (2 * String.length (String "{" rest) + 2)
    with (S (2 * String.length (String "{" rest) + 1)) by lia.
  cbn [Json.skip_ws]. change (Json.is_ws "{") with false. cbv iota.
  destruct (Json.scan_once _ _) as [x r | | e] eqn:Sc; try discriminate.
  destruct (Json.skip_ws r); [| discriminate].
  intros [= <-]. eapply scan_once_brace; eassumption.
Qed.

(** An object of the decoder that is a [json] value is a dict. *)
Lemma narrow_object v j :
  is_object v = true -> Json.narrow v = Some j -> is_dict j = true.
Proof.
  destruct v as [| | | | | | members]; try discriminate. intros _.
  cbn [Json.narrow].
  match goal with
  | |- option_map JObj ?x = _ -> _ => destruct x as [ms |]
  end; cbn [option_map]; [| discriminate].
  intros [= <-]. reflexivity.
Qed.

(** The outcome of one test of [test-mcp.py] does not depend on what
    the container writes to its standard error. *)
Lemma run_test_ignores_stderr request body out err err' w :
  TestMcp.run_test request body (Exits out err) w
  = TestMcp.run_test request body (Exits out err') w.
Proof.
  unfold TestMcp.run_test.
  rewrite (bind_val _ _ _ _ _ (send_mcp_request_eq request (Exits out err) w)).
  rewrite (bind_val _ _ _ _ _ (send_mcp_request_eq request (Exits out err') w)).
  reflexivity.
Qed.

(* ---------------------------------------------------------------- *)
(** *** The lines a loop reaches *)

(** A steady body with a known log of decoder calls. *)
Lemma steady_log {A} (P : event -> Prop) (m : py A) (log : list string) :
  steady_in P m ->
  (forall w, decoder_calls (snd (m w)) = decoder_calls w ++ log) ->
  exists r evs, forall w, m w = (r, extend w evs log).
Proof.
  intros (r & evs & calls & _ & Hm) Hlog.
  exists r, evs. intro w. rewrite Hm. f_equal. f_equal.
  specialize (Hlog fresh). rewrite Hm in Hlog. cbn [snd extend decoder_calls] in Hlog.
  eapply app_inv_head; eassumption.
Qed.

Lemma for_each_reached (body : string -> py flow) (log : string -> list string) :
  (forall line, exists r evs, forall w, body line w = (r, extend w evs (log line))) ->
  forall lines w, exists r evs,
    for_each lines body w = (r, extend w evs (flat_map log (reached body lines))).
Proof.
  intros Hb lines. induction lines as [| x rest IH]; intro w.
  - exists (Val tt), []. apply ret_eq.
  - rewrite for_each_cons. cbn [reached flat_map].
    destruct (Hb x) as (r & evs & Hx). rewrite (Hx fresh), (Hx w). cbn [fst].
    destruct r as [[] | e].
    + destruct (IH (extend w evs (log x))) as (r' & evs' & ->).
      exists r', (evs ++ evs'). now rewrite extend_extend.
    + exists (Val tt), evs. cbn [flat_map]. now rewrite app_nil_r.
    + exists (Err e), evs. cbn [flat_map]. now rewrite app_nil_r.
Qed.

Lemma reached_in body lines line : In line (reached body lines) -> In line lines.
Proof.
  induction lines as [| x rest IH]; cbn [reached]; [tauto |].
  intros [<- | H]; [now left | right].
  destruct (fst (body x fresh)) as [[] | e]; [now apply IH | destruct H | destruct H].
Qed.

Lemma reached_all body lines :
  (forall line, In line lines -> fst (body line fresh) = Val Continue) ->
  reached body lines = lines.
Proof.
  induction lines as [| x rest IH]; intro H; cbn [reached]; [reflexivity |].
  rewrite (H x (or_introl eq_refl)), IH; [reflexivity |].
  intros; apply H; now right.
Qed.

Lemma reached_until body pre line post :
  (forall l, In l pre -> fst (body l fresh) = Val Continue) ->
  fst (body line fresh) <> Val Continue ->
  reached body (pre ++ line :: post) = pre ++ [line].
Proof.
  intros Hpre Hline. induction pre as [| x pre IH]; cbn [app reached].
  - destruct (fst (body line fresh)) as [[] | e];
      [now contradiction Hline | reflexivity | reflexivity].
  - rewrite (Hpre x (or_introl eq_refl)), IH; [reflexivity |].
    intros; apply Hpre; now right.
Qed.

(** The three loop bodies, world by world. *)
Lemma scan_tools_line_log loads line :
  exists r evs, forall w,
    TestMcp.scan_tools_line loads line w = (r, extend w evs [line]).
Proof.
  eapply steady_log; [apply prints_scan_tools_line |].
  intro w. apply scan_tools_line_calls.
Qed.

Lemma scan_cik_line_log loads line :
  exists r evs, forall w,
    TestMcp.scan_cik_line loads line w = (r, extend w evs [line]).
Proof.
  eapply steady_log; [apply prints_scan_cik_line |].
  intro w. apply scan_cik_line_calls.
Qed.

Lemma scan_line_log loads line :
  exists r evs, forall w,
    SimpleMcpTest.scan_line loads line w
    = (r, extend w evs (if SimpleMcpTest.wanted line then [line] else [])).
Proof.
  eapply steady_log; [apply prints_scan_line |].
  intro w. apply scan_line_calls.
Qed.

Lemma for_each_reached_calls (body : string -> py flow) (log : string -> list string) :
  (forall line, exists r evs, forall w, body line w = (r, extend w evs (log line))) ->
  forall lines w,
    decoder_calls (snd (for_each lines body w))
    = decoder_calls w ++ flat_map log (reached body lines).
Proof.
  intros Hb lines w.
  destruct (for_each_reached body log Hb lines w) as (r & evs & ->).
  reflexivity.
Qed.

(** The decoder calls of [test_apple_cik]. *)
Lemma test_apple_cik_calls loads c w :
  decoder_calls (snd (SimpleMcpTest.test_apple_cik loads c w))
  = decoder_calls w
    ++ filter SimpleMcpTest.wanted
         (reached (SimpleMcpTest.scan_line loads) (output_lines c)).
Proof.
  assert (R : forall e w', decoder_calls (snd (report_failure e w')) = decoder_calls w').
  { intros e w'. rewrite report_failure_eq.
    destruct (is_TimeoutExpired e); [| destruct (is_Exception e)];
      cbn [snd extend decoder_calls]; now rewrite app_nil_r. }
  rewrite test_apple_cik_eq.
  destruct c as [out err | | e | e]; cbn [output_lines reached filter];
    rewrite ?R; cbn [snd extend decoder_calls]; rewrite ?app_nil_r; try reflexivity.
  destruct (for_each_reached (SimpleMcpTest.scan_line loads)
              (fun l => if SimpleMcpTest.wanted l then [l] else [])
              (scan_line_log loads)
              (PyStr.split PyStr.LF (PyStr.strip out))
              (extend w (raw_output_events out err) []))
    as (r & evs & ->).
  rewrite flat_map_filter.
  destruct r as [a | e]; rewrite ?R; cbn [snd extend decoder_calls];
    now rewrite app_nil_r.
Qed.

(** The decoder calls of one test of [test-mcp.py]. *)
Lemma run_test_calls request (body : string -> py flow) c w :
  (forall line, exists r evs, forall w, body line w = (r, extend w evs [line])) ->
  decoder_calls (snd (TestMcp.run_test request body c w))
  = decoder_calls w ++ reached body (scanned_lines c).
Proof.
  intro Hb. unfold TestMcp.run_test.
  pose proof (send_mcp_request_eq request c w) as S. cbv zeta in S.
  destruct c as [out err | | e | e]; cbn [scanned_lines].
  - rewrite (bind_val _ _ _ _ _ S). cbn [fst].
    destruct (TestMcp.truthy_stdout (Some out)).
    + rewrite (for_each_reached_calls body (fun l => [l]) Hb), flat_map_single.
      cbn [extend decoder_calls]. now rewrite app_nil_r.
    + cbn [reached snd ret extend decoder_calls]. now rewrite !app_nil_r.
  - rewrite (bind_val _ _ _ _ _ S).
    cbn [fst TestMcp.truthy_stdout reached snd ret extend decoder_calls].
    now rewrite !app_nil_r.
  - rewrite (bind_err _ _ _ _ _ S).
    cbn [reached snd extend decoder_calls]. now rewrite !app_nil_r.
  - destruct (is_TimeoutExpired e).
    + rewrite (bind_val _ _ _ _ _ S).
      cbn [fst TestMcp.truthy_stdout reached snd ret extend decoder_calls].
      now rewrite !app_nil_r.
    + rewrite (bind_err _ _ _ _ _ S).
      cbn [reached snd extend decoder_calls]. now rewrite !app_nil_r.
Qed.

Lemma scanned_lines_in c line : In line (scanned_lines c) -> In line (output_lines c).
Proof.
  destruct c as [out err | | e | e]; cbn [scanned_lines output_lines]; try tauto.
  destruct (TestMcp.truthy_stdout (Some out)); [tauto | intros []].
Qed.

(** The decoder calls of the main block of [test-mcp.py]: those of the
    first test, and those of the second when it is run. *)
Lemma main_calls loads c1 c2 w :
  exists calls2,
    (calls2 = [] \/ calls2 = reached (TestMcp.scan_cik_line loads) (scanned_lines c2))
    /\ decoder_calls (snd (TestMcp.main loads c1 c2 w))
       = decoder_calls w
         ++ reached (TestMcp.scan_tools_line loads) (scanned_lines c1) ++ calls2.
Proof.
  unfold TestMcp.main.
  rewrite (bind_val _ _ _ _ _ (print_eq _ _)).
  pose proof (run_test_calls TestMcp.list_request (TestMcp.scan_tools_line loads) c1
                (extend w [Print "=== Testing MCP Tools List ==="] [])
                (scan_tools_line_log loads)) as H1.
  unfold bind at 1.
  destruct (TestMcp.run_test TestMcp.list_request (TestMcp.scan_tools_line loads) c1 _)
    as [[a | e] w1]; cbn [snd] in H1.
  - rewrite (bind_val _ _ _ _ _ (print_eq _ _)).
    exists (reached (TestMcp.scan_cik_line loads) (scanned_lines c2)).
    split; [now right |].
    rewrite (run_test_calls TestMcp.cik_request (TestMcp.scan_cik_line loads) c2 _
               (scan_cik_line_log loads)).
    cbn [extend decoder_calls]. rewrite H1. cbn [extend decoder_calls].
    now rewrite !app_nil_r, <- !app_assoc.
  - exists []. split; [now left |].
    cbn [snd]. rewrite H1. cbn [extend decoder_calls].
    now rewrite !app_nil_r.
Qed.

(** *** What a loop prints comes from one line *)

Lemma for_each_prints_of_one (body : string -> py flow) :
  (forall line, exists r evs calls,
      (r = Val Continue -> evs = [])
      /\ forall w, body line w = (r, extend w evs calls)) ->
  forall lines w, exists prints,
    trace (snd (for_each lines body w)) = trace w ++ prints
    /\ (prints = []
        \/ exists line,
             In line lines
             /\ forall w', trace (snd (body line w')) = trace w' ++ prints).
Proof.
  intros Hb lines. induction lines as [| x rest IH]; intro w.
  - exists []. split; [cbn; now rewrite app_nil_r | now left].
  - rewrite for_each_cons.
    destruct (Hb x) as (r & evs & calls & Hq & Hx). rewrite (Hx w).
    assert (Hone : forall w', trace (snd (body x w')) = trace w' ++ evs)
      by (intro w'; now rewrite Hx).
    destruct r as [[] | e].
    + rewrite (Hq eq_refl) in *.
      destruct (IH (extend w [] calls)) as (prints & E & Hp).
      exists prints. split.
      * rewrite E. cbn [extend trace]. now rewrite app_nil_r.
      * destruct Hp as [-> | (line & Hin & Hl)]; [now left | right].
        exists line. split; [now right | exact Hl].
    + exists evs. split; [reflexivity |].
      right. exists x. split; [now left | exact Hone].
    + exists evs. split; [reflexivity |].
      right. exists x. split; [now left | exact Hone].
Qed.

Lemma line_within_quiet E n (body : py flow) :
  line_within E n body ->
  exists r evs calls,
    (r = Val Continue -> evs = []) /\ forall w, body w = (r, extend w evs calls).
Proof.
  intros (r & p & c & _ & _ & HC & _ & Hm). now exists r, p, c.
Qed.

Lemma line_within_scan_line loads line :
  line_within (fun _ => True) 2 (SimpleMcpTest.scan_line loads line).
Proof.
  unfold SimpleMcpTest.scan_line.
  destruct (SimpleMcpTest.wanted line); [| apply line_within_continue].
  apply line_within_call_loads.
  destruct (loads line) as [response | | e].
  - apply line_within_lift; [trivial | intros id _].
    destruct (Py.eq_int id 2); [| apply line_within_continue].
    apply line_within_stops; [| stops].
    apply within_then_print, within_then_print, within_ret.
  - apply line_within_continue.
  - now apply line_within_raise.
Qed.

(* ================================================================== *)
(** ** The claims *)

(** C2. Decoding is best-effort per line.  In each of the three loops a
    line on which [json.loads] raises [JSONDecodeError] is passed over
    without a trace: the body of the loop prints nothing, raises nothing
    and goes on to the next line.  So the scan of a list of lines
    returns, prints and raises what the scan of the same list without its
    malformed lines does: a malformed line neither ends the scan nor keeps
    a later line from being matched and printed. *)
Theorem malformed_lines_are_passed_over :
  forall (loads : string -> Json.decoded) (lines : list string) (w : world),
    (forall line,
        decode_fails loads line = true ->
        SimpleMcpTest.scan_line loads line w =
          (Val Continue,
           extend w [] (if SimpleMcpTest.wanted line then [line] else []))
        /\ TestMcp.scan_tools_line loads line w
           = (Val Continue, extend w [] [line])
        /\ TestMcp.scan_cik_line loads line w
           = (Val Continue, extend w [] [line]))
    /\ same_outcome
      (for_each lines (SimpleMcpTest.scan_line loads) w)
      (for_each (without_malformed loads lines) (SimpleMcpTest.scan_line loads) w)
    /\ same_outcome
      (for_each lines (TestMcp.scan_tools_line loads) w)
      (for_each (without_malformed loads lines) (TestMcp.scan_tools_line loads) w)
    /\ same_outcome
      (for_each lines (TestMcp.scan_cik_line loads) w)
      (for_each (without_malformed loads lines) (TestMcp.scan_cik_line loads) w).
Proof.
  intros loads lines w; unfold without_malformed; split; [| split; [| split]].
  - intros line H. apply decode_fails_true in H. split; [| split].
    + apply scan_line_passed. right; now left.
    + apply scan_tools_line_not_a_listing. now left.
    + now apply scan_cik_line_decode_error.
  - apply for_each_drop;
      [intro; eapply steady_weaken; [apply any_event_holds | apply prints_scan_line]
      | intros; now apply scan_line_malformed].
  - apply for_each_drop;
      [intro; eapply steady_weaken; [apply any_event_holds | apply prints_scan_tools_line]
      | intros; now apply scan_tools_line_malformed].
  - apply for_each_drop;
      [intro; eapply steady_weaken; [apply any_event_holds | apply prints_scan_cik_line]
      | intros; now apply scan_cik_line_malformed].
Qed.

(** C2 on two malformed lines before an answer: the scan of
    [simple-mcp-test.py] does what it does on the answer alone, and prints
    it. *)
Lemma malformed_lines_before_an_answer :
  same_outcome
    (for_each ["garbage {"; "{oops"; PyStr.text "{'id': 2}"]
              (SimpleMcpTest.scan_line Json.loads) fresh)
    (for_each (without_malformed Json.loads
                 ["garbage {"; "{oops"; PyStr.text "{'id': 2}"])
              (SimpleMcpTest.scan_line Json.loads) fresh)
  /\ without_malformed Json.loads ["garbage {"; "{oops"; PyStr.text "{'id': 2}"]
     = [PyStr.text "{'id': 2}"]
  /\ printed (trace (snd (for_each ["garbage {"; "{oops"; PyStr.text "{'id': 2}"]
                            (SimpleMcpTest.scan_line Json.loads) fresh)))
     = [ "SUCCESS! Apple's CIK data:"; Json.dumps_indent 2 (JObj [("id", JInt 2)]) ].
Proof.
  split; [| split].
  - exact (proj1 (proj2 (malformed_lines_are_passed_over Json.loads
                           ["garbage {"; "{oops"; PyStr.text "{'id': 2}"] fresh))).
  - vm_compute. reflexivity.
  - vm_compute. reflexivity.
Defined.

(** C1. Each script writes three JSON messages to the standard input of
    the container, each ended by a line break: an [initialize] request,
    a [notifications/initialized] notification and one payload request.
    In [simple-mcp-test.py] all three are constants.  In [test-mcp.py] the
    first two are constants (the protocol version is [2024-11-05]) and the
    third is [json.dumps(request)], which holds no line break: the text
    written is a function of [request] alone, the same for every world and
    whatever the container does.  Nothing else is written to the
    container, and nothing at all when it cannot be started. *)
Theorem stdin_is_three_json_lines :
  (PyStr.split PyStr.LF SimpleMcpTest.input_data =
     [ PyStr.text "{'jsonrpc': '2.0', 'id': 1, 'method': 'initialize', 'params': {'protocolVersion': '2024-11-05', 'capabilities': {}, 'clientInfo': {'name': 'test', 'version': '1.0.0'}}}";
       PyStr.text "{'jsonrpc': '2.0', 'method': 'notifications/initialized'}";
       PyStr.text "{'jsonrpc': '2.0', 'id': 2, 'method': 'tools/call', 'params': {'name': 'get_cik_by_ticker', 'arguments': {'ticker': 'AAPL'}}}";
       "" ]
   /\ map method_of SimpleMcpTest.requests =
        [ Some (JStr "initialize"); Some (JStr "notifications/initialized");
          Some (JStr "tools/call") ]
   /\ forall loads c w,
        stdin_written (trace (snd (SimpleMcpTest.test_apple_cik loads c w))) =
        stdin_written (trace w)
        ++ match c with
           | CannotStart _ => []
           | _ => [SimpleMcpTest.input_data]
           end)
  /\
  (forall request,
     PyStr.split PyStr.LF (PyStr.join "" (TestMcp.requests request)) =
       [ PyStr.text "{'jsonrpc': '2.0', 'id': 1, 'method': 'initialize', 'params': {'protocolVersion': '2024-11-05', 'capabilities': {}, 'clientInfo': {'name': 'test-client', 'version': '1.0.0'}}}";
         PyStr.text "{'jsonrpc': '2.0', 'method': 'notifications/initialized'}";
         Json.dumps request;
         "" ])
  /\ map method_of
         [Json.dumps TestMcp.init_request; Json.dumps TestMcp.init_notification] =
       [ Some (JStr "initialize"); Some (JStr "notifications/initialized") ]
  /\ (forall request c w,
        stdin_written (trace (snd (TestMcp.send_mcp_request request c w))) =
        stdin_written (trace w)
        ++ match c with
           | CannotStart _ => []
           | _ => [PyStr.join "" (TestMcp.requests request)]
           end).
Proof.
  split; [split; [| split] | split; [| split]].
  - vm_compute. reflexivity.
  - vm_compute. reflexivity.
  - intros loads c w.
    destruct (test_apple_cik_events loads c w) as (prints & HP & E).
    rewrite E, stdin_written_app, run_stdin.
    destruct (prints_carry_nothing prints HP) as (-> & _).
    now rewrite app_nil_r.
  - intro request.
    rewrite <- dumps_init_request, <- dumps_init_notification.
    apply split_three_lines; apply one_line_dumps.
  - vm_compute. reflexivity.
  - intros; apply send_stdin.
Qed.

(** C5. Every call that talks to the container carries a timeout: 15
    seconds in [simple-mcp-test.py], 30 in [test-mcp.py].  When it
    expires the child is killed, once: [send_mcp_request] returns
    [(None, "Timeout")] and raises nothing, [test_apple_cik] prints
    [Request timed out].  A timeout makes no script start the container
    again: [test_apple_cik] and [send_mcp_request] start it once per call
    whatever it does; the main block of [test-mcp.py] starts it once per
    test, at most twice, and when the first test times out the starts
    are the two of the two tests, the second one with the request of the
    second test and not that of the first. *)
Theorem timeout_is_one_run_and_kill :
  (forall loads w,
     SimpleMcpTest.test_apple_cik loads TimesOut w =
     (Val tt,
      extend w [ Spawn SimpleMcpTest.cmd;
                 Communicate SimpleMcpTest.input_data 15;
                 Kill;
                 Print "Request timed out" ] []))
  /\ (forall loads c w,
        let after := trace (snd (SimpleMcpTest.test_apple_cik loads c w)) in
        timeouts after
          = timeouts (trace w) ++ match c with CannotStart _ => [] | _ => [15%Z] end
        /\ spawned after = spawned (trace w) ++ [SimpleMcpTest.cmd])
  /\ (forall request w,
        TestMcp.send_mcp_request request TimesOut w =
        (Val (None, "Timeout"),
         extend w [ Spawn TestMcp.cmd;
                    Communicate (PyStr.join "" (TestMcp.requests request)) 30;
                    Kill ] []))
  /\ (forall request c w,
        let after := trace (snd (TestMcp.send_mcp_request request c w)) in
        timeouts after
          = timeouts (trace w) ++ match c with CannotStart _ => [] | _ => [30%Z] end
        /\ spawned after = spawned (trace w) ++ [TestMcp.cmd])
  /\ (forall loads c1 c2 w,
        let after := trace (snd (TestMcp.main loads c1 c2 w)) in
        spawned after = spawned (trace w) ++ [TestMcp.cmd]
        \/ spawned after = spawned (trace w) ++ [TestMcp.cmd; TestMcp.cmd])
  /\ (forall loads c2 w,
        let after := trace (snd (TestMcp.main loads TimesOut c2 w)) in
        spawned after = spawned (trace w) ++ [TestMcp.cmd; TestMcp.cmd]
        /\ stdin_written after =
           stdin_written (trace w)
           ++ PyStr.join "" (TestMcp.requests TestMcp.list_request)
           :: match c2 with
              | CannotStart _ => []
              | _ => [PyStr.join "" (TestMcp.requests TestMcp.cik_request)]
              end).
Proof.
  repeat match goal with |- _ /\ _ => split end.
  - intros loads w.
    unfold SimpleMcpTest.test_apple_cik, try_except.
    rewrite (bind_err _ _ _ _ _ (run_eq _ _ _ TimesOut w)).
    cbn [is_TimeoutExpired exc_class Subprocess.timeout_expired].
    rewrite print_eq, extend_extend. reflexivity.
  - intros loads c w after; subst after.
    destruct (test_apple_cik_events loads c w) as (prints & HP & E).
    rewrite E, run_trace.
    destruct (prints_carry_nothing prints HP) as (_ & Hs & Ht).
    rewrite !timeouts_app, !spawned_app, Hs, Ht, !app_nil_r.
    split; destruct c; reflexivity.
  - intros request w. now rewrite send_mcp_request_eq.
  - intros request c w after; subst after.
    rewrite send_trace, timeouts_app, spawned_app,
      send_events_timeouts, send_events_spawned.
    split; reflexivity.
  - intros loads c1 c2 w after; subst after.
    destruct (main_trace loads c1 c2 w) as (p1 & tail & HP1 & E & Htail).
    rewrite E.
    destruct (prints_carry_nothing p1 HP1) as (_ & Hs1 & _).
    change (Print heading_tools :: send_events TestMcp.list_request c1 ++ p1 ++ tail)
      with ([Print heading_tools] ++ send_events TestMcp.list_request c1 ++ p1 ++ tail).
    rewrite !spawned_app, send_events_spawned, Hs1.
    destruct Htail as [-> | (p2 & HP2 & ->)].
    + left. reflexivity.
    + right.
      destruct (prints_carry_nothing p2 HP2) as (_ & Hs2 & _).
      change (Print heading_cik :: send_events TestMcp.cik_request c2 ++ p2)
        with ([Print heading_cik] ++ send_events TestMcp.cik_request c2 ++ p2).
      rewrite !spawned_app, send_events_spawned, Hs2. reflexivity.
  - intros loads c2 w after; subst after.
    unfold TestMcp.main.
    rewrite (bind_val _ _ _ _ _ (print_eq _ _)).
    rewrite (bind_val _ _ _ _ _
               (run_test_skipped TestMcp.list_request _ TimesOut _ I)).
    rewrite (bind_val _ _ _ _ _ (print_eq _ _)).
    match goal with
    | |- context [TestMcp.run_test ?r ?b c2 ?w0] =>
        destruct (run_test_events r b c2 w0 (prints_scan_cik_line loads))
          as (p2 & HP2 & E2)
    end.
    rewrite E2, send_trace. cbn [trace extend].
    destruct (prints_carry_nothing p2 HP2) as (Hi2 & Hs2 & _).
    split.
    + rewrite !spawned_app, Hs2, !send_events_spawned, app_nil_r.
      cbn [spawned app]. rewrite <- !app_assoc. reflexivity.
    + rewrite !stdin_written_app, Hi2, !send_events_stdin, app_nil_r.
      cbn [stdin_written app]. rewrite <- !app_assoc.
      destruct c2; reflexivity.
Qed.

(** C7. The scripts keep no state.  What a run returns and what it adds
    to the world are fixed by the decoder and by what the container does,
    and are the same in every world the run starts in; the run only adds
    events to the trace (starts of the container, writes to its input
    with kills after a timeout, prints) and calls to the decoder's log,
    and the files of the machine are after the run what they were before
    it. *)
Theorem scripts_keep_no_state :
  forall (loads : string -> Json.decoded) (c c1 c2 : child),
    (exists r evs calls,
        forall w,
          SimpleMcpTest.test_apple_cik loads c w =
          (r, World (trace w ++ evs) (decoder_calls w ++ calls) (files w)))
    /\ (exists r evs calls,
          forall w,
            TestMcp.main loads c1 c2 w =
            (r, World (trace w ++ evs) (decoder_calls w ++ calls) (files w)))
    /\ (forall w, files (snd (SimpleMcpTest.test_apple_cik loads c w)) = files w)
    /\ (forall w, files (snd (TestMcp.main loads c1 c2 w)) = files w).
Proof.
  intros loads c c1 c2.
  destruct (steady_test_apple_cik loads c) as (r & evs & calls & _ & H).
  destruct (steady_main loads c1 c2) as (r' & evs' & calls' & _ & H').
  repeat split.
  - exists r, evs, calls. exact H.
  - exists r', evs', calls'. exact H'.
  - intro w. now rewrite H.
  - intro w. now rewrite H'.
Qed.

(** C10. When [send_mcp_request] returns a [stdout] that is [None] (after
    a timeout) or empty, the test is skipped: no line is decoded, nothing
    is printed for it and nothing is raised.  After the first test the
    main block goes on with the heading and the request of the second, as
    it does after any first test that raised nothing. *)
Theorem empty_answer_skips_the_test :
  forall (loads : string -> Json.decoded) (err : string) (w : world),
    (forall request body,
       TestMcp.run_test request body TimesOut w =
         (Val tt, extend w (send_events request TimesOut) [])
       /\ TestMcp.run_test request body (Exits "" err) w =
         (Val tt, extend w (send_events request (Exits "" err)) []))
    /\ (forall c2,
          TestMcp.main loads TimesOut c2 w =
          (print heading_cik ;;;
           TestMcp.run_test TestMcp.cik_request (TestMcp.scan_cik_line loads) c2)
            (extend w (Print heading_tools
                       :: send_events TestMcp.list_request TimesOut) []))
    /\ (forall c2,
          TestMcp.main loads (Exits "" err) c2 w =
          (print heading_cik ;;;
           TestMcp.run_test TestMcp.cik_request (TestMcp.scan_cik_line loads) c2)
            (extend w (Print heading_tools
                       :: send_events TestMcp.list_request (Exits "" err)) []))
    /\ (forall c1 w1,
          (print heading_tools ;;;
           TestMcp.run_test TestMcp.list_request (TestMcp.scan_tools_line loads) c1) w
            = (Val tt, w1) ->
          TestMcp.main loads c1 TimesOut w =
            (Val tt, extend w1 (Print heading_cik
                                :: send_events TestMcp.cik_request TimesOut) [])
          /\ TestMcp.main loads c1 (Exits "" err) w =
            (Val tt, extend w1 (Print heading_cik
                                :: send_events TestMcp.cik_request (Exits "" err)) [])).
Proof.
  intros loads err w. repeat match goal with |- _ /\ _ => split end.
  - intros; split; now apply run_test_skipped.
  - intro c2. unfold TestMcp.main.
    rewrite (bind_val _ _ _ _ _ (print_eq _ _)).
    rewrite (bind_val _ _ _ _ _
               (run_test_skipped TestMcp.list_request _ TimesOut _ I)).
    now rewrite extend_extend.
  - intro c2. unfold TestMcp.main.
    rewrite (bind_val _ _ _ _ _ (print_eq _ _)).
    rewrite (bind_val _ _ _ _ _
               (run_test_skipped TestMcp.list_request _ (Exits "" err) _ eq_refl)).
    now rewrite extend_extend.
  - intros c1 w1 H.
    assert (E : forall c2,
               TestMcp.main loads c1 c2 w =
               (print heading_cik ;;;
                TestMcp.run_test TestMcp.cik_request (TestMcp.scan_cik_line loads) c2) w1).
    { intro c2. unfold TestMcp.main.
      rewrite <- (bind_assoc (print heading_tools)).
      now rewrite (bind_val _ _ _ _ _ H). }
    split; rewrite E.
    + rewrite (bind_val _ _ _ _ _ (print_eq _ _)).
      rewrite (run_test_skipped TestMcp.cik_request _ TimesOut _ I).
      now rewrite extend_extend.
    + rewrite (bind_val _ _ _ _ _ (print_eq _ _)).
      rewrite (run_test_skipped TestMcp.cik_request _ (Exits "" err) _ eq_refl).
      now rewrite extend_extend.
Qed.




(** C4, as the code has it.  The second line of [indented_output] is
    valid JSON, an object whose [id] is 2, after one space.
    [simple-mcp-test.py] hands the first and the third line to the decoder
    and not the second. *)
Lemma indented_line_is_not_decoded :
  PyStr.split PyStr.LF (PyStr.strip indented_output) =
    [ PyStr.text "{'id': 1}"; PyStr.text " {'id': 2}";
      PyStr.text "{'id': 2, 'late': true}" ]
  /\ Json.loads (PyStr.text " {'id': 2}") = Json.Decoded (JObj [("id", JInt 2)])
  /\ decoder_calls (snd (SimpleMcpTest.test_apple_cik Json.loads
                           (Exits indented_output "") fresh)) =
     [ PyStr.text "{'id': 1}"; PyStr.text "{'id': 2, 'late': true}" ].
Proof. repeat split; vm_compute; reflexivity. Qed.

(** C4, amended.  [test-mcp.py] hands every line that its loops reach to
    [json.loads], whatever the line starts with.  [simple-mcp-test.py]
    hands a line to [json.loads] only when the line is not blank and
    starts with a brace; any other line, valid JSON or not, is skipped
    undecoded.  The lines a loop reaches are the lines up to and
    including the first one at which its body does not go on, because it
    leaves the loop or raises: every line before it is decoded (in
    [simple-mcp-test.py], when it passes the guard), it is decoded
    itself, and no line after it is.  So it is for the loops on any list
    of lines and for the scripts on any output of the container. *)
Theorem lines_handed_to_the_decoder :
  forall (loads : string -> Json.decoded) (w : world),
    (forall line,
        decoder_calls (snd (TestMcp.scan_tools_line loads line w))
          = decoder_calls w ++ [line]
        /\ decoder_calls (snd (TestMcp.scan_cik_line loads line w))
          = decoder_calls w ++ [line]
        /\ decoder_calls (snd (SimpleMcpTest.scan_line loads line w))
          = decoder_calls w ++ (if SimpleMcpTest.wanted line then [line] else []))
    /\ (forall lines,
          decoder_calls (snd (for_each lines (TestMcp.scan_tools_line loads) w))
            = decoder_calls w ++ reached (TestMcp.scan_tools_line loads) lines)
    /\ (forall lines,
          decoder_calls (snd (for_each lines (TestMcp.scan_cik_line loads) w))
            = decoder_calls w ++ reached (TestMcp.scan_cik_line loads) lines)
    /\ (forall lines,
          decoder_calls (snd (for_each lines (SimpleMcpTest.scan_line loads) w))
            = decoder_calls w
              ++ filter SimpleMcpTest.wanted
                   (reached (SimpleMcpTest.scan_line loads) lines))
    /\ (forall request c,
          decoder_calls
            (snd (TestMcp.run_test request (TestMcp.scan_tools_line loads) c w))
            = decoder_calls w
              ++ reached (TestMcp.scan_tools_line loads) (scanned_lines c)
          /\ decoder_calls
               (snd (TestMcp.run_test request (TestMcp.scan_cik_line loads) c w))
             = decoder_calls w
               ++ reached (TestMcp.scan_cik_line loads) (scanned_lines c))
    /\ (forall c,
          decoder_calls (snd (SimpleMcpTest.test_apple_cik loads c w))
            = decoder_calls w
              ++ filter SimpleMcpTest.wanted
                   (reached (SimpleMcpTest.scan_line loads) (output_lines c)))
    /\ (forall line w',
          fst (TestMcp.scan_tools_line loads line w')
            = fst (TestMcp.scan_tools_line loads line fresh)
          /\ fst (TestMcp.scan_cik_line loads line w')
            = fst (TestMcp.scan_cik_line loads line fresh)
          /\ fst (SimpleMcpTest.scan_line loads line w')
            = fst (SimpleMcpTest.scan_line loads line fresh))
    /\ (forall (body : string -> py flow) lines,
          (forall line, In line lines -> fst (body line fresh) = Val Continue) ->
          reached body lines = lines)
    /\ (forall (body : string -> py flow) pre line post,
          (forall l, In l pre -> fst (body l fresh) = Val Continue) ->
          fst (body line fresh) <> Val Continue ->
          reached body (pre ++ line :: post) = pre ++ [line]).
Proof.
  intros loads w. repeat match goal with |- _ /\ _ => split end.
  - intro line. split; [| split].
    + apply scan_tools_line_calls.
    + apply scan_cik_line_calls.
    + apply scan_line_calls.
  - intro lines.
    rewrite (for_each_reached_calls _ (fun l => [l]) (scan_tools_line_log loads)).
    now rewrite flat_map_single.
  - intro lines.
    rewrite (for_each_reached_calls _ (fun l => [l]) (scan_cik_line_log loads)).
    now rewrite flat_map_single.
  - intro lines.
    rewrite (for_each_reached_calls _
               (fun l => if SimpleMcpTest.wanted l then [l] else [])
               (scan_line_log loads)).
    now rewrite flat_map_filter.
  - intros request c. split; apply run_test_calls;
      [apply scan_tools_line_log | apply scan_cik_line_log].
  - intro c. apply test_apple_cik_calls.
  - intros line w'. split; [| split].
    + destruct (scan_tools_line_log loads line) as (r & evs & H).
      now rewrite (H w'), (H fresh).
    + destruct (scan_cik_line_log loads line) as (r & evs & H).
      now rewrite (H w'), (H fresh).
    + destruct (scan_line_log loads line) as (r & evs & H).
      now rewrite (H w'), (H fresh).
  - intros body lines. apply reached_all.
  - intros body pre line post. apply reached_until.
Qed.

(** C6. No script puts lines together.  Every text handed to
    [json.loads] is one of the lines of the output of the container, a
    text without a line break, and the decoder is asked about nothing
    else: two decoders that agree on the texts of one line give the same
    run of each script.  What a loop prints is what its body prints for
    one of its lines, taken alone in any world.  What is matched and
    printed is thus fixed by how single lines decode; a JSON document
    that spans two lines or more reaches the decoder only in pieces. *)
Theorem only_single_lines_are_decoded :
  forall (loads : string -> Json.decoded) (c c1 c2 : child) (w : world),
    (exists calls,
        Forall (fun text => In text (output_lines c)) calls
        /\ Forall one_line calls
        /\ decoder_calls (snd (SimpleMcpTest.test_apple_cik loads c w))
           = decoder_calls w ++ calls)
    /\ (exists calls,
          Forall (fun text => In text (output_lines c1 ++ output_lines c2)) calls
          /\ Forall one_line calls
          /\ decoder_calls (snd (TestMcp.main loads c1 c2 w))
             = decoder_calls w ++ calls)
    /\ (forall lines, exists prints,
          trace (snd (for_each lines (SimpleMcpTest.scan_line loads) w))
            = trace w ++ prints
          /\ (prints = []
              \/ exists line,
                   In line lines
                   /\ forall w',
                        trace (snd (SimpleMcpTest.scan_line loads line w'))
                        = trace w' ++ prints))
    /\ (forall lines, exists prints,
          trace (snd (for_each lines (TestMcp.scan_tools_line loads) w))
            = trace w ++ prints
          /\ (prints = []
              \/ exists line,
                   In line lines
                   /\ forall w',
                        trace (snd (TestMcp.scan_tools_line loads line w'))
                        = trace w' ++ prints))
    /\ (forall lines, exists prints,
          trace (snd (for_each lines (TestMcp.scan_cik_line loads) w))
            = trace w ++ prints
          /\ (prints = []
              \/ exists line,
                   In line lines
                   /\ forall w',
                        trace (snd (TestMcp.scan_cik_line loads line w'))
                        = trace w' ++ prints))
    /\ (forall loads',
          agree_on_lines loads loads' ->
          SimpleMcpTest.test_apple_cik loads c w
            = SimpleMcpTest.test_apple_cik loads' c w)
    /\ (forall loads',
          agree_on_lines loads loads' ->
          TestMcp.main loads c1 c2 w = TestMcp.main loads' c1 c2 w).
Proof.
  intros loads c c1 c2 w.
  assert (Hone : forall (cs : list child) calls,
             Forall (fun text => In text (flat_map output_lines cs)) calls ->
             Forall one_line calls).
  { intros cs calls H. eapply Forall_impl; [| exact H].
    intros text Hin. apply in_flat_map in Hin as (c0 & _ & Hin).
    destruct c0 as [out err | | e | e]; cbn [output_lines] in Hin;
      try contradiction.
    eapply in_split_one_line; eassumption. }
  repeat match goal with |- _ /\ _ => split end.
  - assert (H : Forall (fun text => In text (output_lines c))
                  (filter SimpleMcpTest.wanted
                     (reached (SimpleMcpTest.scan_line loads) (output_lines c)))).
    { apply Forall_forall. intros text Hin.
      apply filter_In in Hin as (Hin & _). eapply reached_in; eassumption. }
    eexists. split; [exact H |]. split; [| apply test_apple_cik_calls].
    apply (Hone [c]). cbn [flat_map]. now rewrite app_nil_r.
  - destruct (main_calls loads c1 c2 w) as (calls2 & Hc2 & E).
    assert (H : Forall (fun text => In text (output_lines c1 ++ output_lines c2))
                  (reached (TestMcp.scan_tools_line loads) (scanned_lines c1)
                   ++ calls2)).
    { apply Forall_app. split; apply Forall_forall; intros text Hin.
      - apply in_or_app. left. eapply scanned_lines_in, reached_in; eassumption.
      - destruct Hc2 as [-> | ->]; [destruct Hin |].
        apply in_or_app. right. eapply scanned_lines_in, reached_in; eassumption. }
    eexists. split; [exact H |]. split; [| exact E].
    apply (Hone [c1; c2]). cbn [flat_map]. now rewrite app_nil_r.
  - intro lines. apply for_each_prints_of_one. intro line.
    eapply line_within_quiet, line_within_scan_line.
  - intro lines. apply for_each_prints_of_one. intro line.
    eapply line_within_quiet, line_within_scan_tools_line.
  - intro lines. apply for_each_prints_of_one. intro line.
    eapply line_within_quiet, line_within_scan_cik_line.
  - intros loads' H. now apply test_apple_cik_ext.
  - intros loads' H. now apply main_ext.
Qed.

(** C6 on [broken_output]: the whole output decodes to an object whose
    [id] is 2, its two lines do not decode, and [simple-mcp-test.py]
    prints no matched result. *)
Lemma broken_document_is_not_matched :
  Json.loads broken_output = Json.Decoded (JObj [("id", JInt 2)])
  /\ decoder_calls (snd (SimpleMcpTest.test_apple_cik Json.loads
                           (Exits broken_output "") fresh))
     = [PyStr.text "{'id':"]
  /\ map Json.loads (PyStr.split PyStr.LF (PyStr.strip broken_output))
     = [Json.DecodeError; Json.DecodeError]
  /\ trace (snd (SimpleMcpTest.test_apple_cik Json.loads
                   (Exits broken_output "") fresh))
     = raw_output_events broken_output "".
Proof. repeat split; vm_compute; reflexivity. Qed.

(** C8. In the second loop of [test-mcp.py], a line that decodes to a
    JSON object with a [result] in which [content] is not found, and with
    no [id], makes [response['id']] raise [KeyError].  The loop catches
    [JSONDecodeError] only: the exception leaves the loop and the main
    block, so the program ends with it, where a line that does not decode
    is passed over.  Here the first test has ended normally, the answer
    of the second is not empty, and the lines before the line do not
    decode. *)
Theorem missing_id_raises_key_error :
  forall (loads : string -> Json.decoded) (c1 : child) (out err : string)
         (w w1 : world) (pre : list string) (line : string) (post : list string)
         (members : list (string * json)) (result : json),
    (print heading_tools ;;;
     TestMcp.run_test TestMcp.list_request (TestMcp.scan_tools_line loads) c1) w
      = (Val tt, w1) ->
    PyStr.truthy out = true ->
    PyStr.split PyStr.LF (PyStr.strip out) = pre ++ line :: post ->
    Forall (fun l => loads l = Json.DecodeError) pre ->
    loads line = Json.Decoded (JObj members) ->
    Py.lookup "result" members = Some result ->
    Py.contains "content" result = Val false ->
    Py.lookup "id" members = None ->
    TestMcp.main loads c1 (Exits out err) w =
    (Err (Exc KeyError "'id'"),
     extend w1
       (Print heading_cik :: send_events TestMcp.cik_request (Exits out err))
       (pre ++ [line])).
Proof.
  intros loads c1 out err w w1 pre line post members result
         H1 Hout Hlines Hpre Hline Hres Hcontent Hid.
  unfold TestMcp.main.
  rewrite <- (bind_assoc (print heading_tools)).
  rewrite (bind_val _ _ _ _ _ H1).
  rewrite (bind_val _ _ _ _ _ (print_eq _ _)).
  unfold TestMcp.run_test.
  rewrite (bind_val _ _ _ _ _ (send_mcp_request_eq _ (Exits out err) _)).
  cbn [fst TestMcp.truthy_stdout TestMcp.lines_of]. rewrite Hout, Hlines.
  rewrite (for_each_pass _ (fun l => [l]) pre).
  - rewrite (for_each_raise _ _ _ _ _ _
               (scan_cik_line_without_id _ _ _ _ _ Hline Hres Hcontent Hid)).
    rewrite !extend_extend, flat_map_single. reflexivity.
  - eapply Forall_impl; [| exact Hpre].
    intros l Hl w'. now apply scan_cik_line_decode_error.
Qed.

(** C8 on [answer_without_id], after a first test that timed out: the
    program ends with [KeyError: 'id'] and prints nothing for the second
    test. *)
Lemma missing_id_raises_key_error_on_empty_result :
  TestMcp.main Json.loads TimesOut (Exits answer_without_id "") fresh =
  (Err (Exc KeyError "'id'"),
   extend
     (extend fresh
        (Print heading_tools :: send_events TestMcp.list_request TimesOut) [])
     (Print heading_cik
      :: send_events TestMcp.cik_request (Exits answer_without_id ""))
     (["starting"] ++ [PyStr.text "{'result': {}}"])).
Proof.
  apply (missing_id_raises_key_error Json.loads TimesOut answer_without_id ""
           fresh
           (extend fresh
              (Print heading_tools :: send_events TestMcp.list_request TimesOut) [])
           ["starting"] (PyStr.text "{'result': {}}") []
           [("result", JObj [])] (JObj [])).
  - vm_compute. reflexivity.
  - reflexivity.
  - vm_compute. reflexivity.
  - constructor; [vm_compute; reflexivity | constructor].
  - vm_compute. reflexivity.
  - reflexivity.
  - reflexivity.
  - reflexivity.
Defined.

(** C9. When a line of the answer to [tools/list] decodes to an object
    whose [result] holds a list [tools], [test-mcp.py] prints the number
    of tools, then one line for each of the first five tools at most, in
    the order of the list, with the name and the first 60 characters of
    the description, then, when there are more than five tools, one line
    with the number of the others; and it stops: the lines after it are
    not scanned.  The lines before it are lines without a listing, and the
    tools shown are dicts with a str [name] and a str [description]. *)
Theorem tools_listing_shows_first_five :
  forall (loads : string -> Json.decoded) (pre : list string) (line : string)
         (rest : list string) (members result : list (string * json))
         (tools : list json) (shown : list (string * string)) (w : world),
    Forall (not_a_listing loads) pre ->
    loads line = Json.Decoded (JObj members) ->
    Py.lookup "result" members = Some (JObj result) ->
    Py.lookup "tools" result = Some (JArr tools) ->
    Forall2 tool_shown (firstn 5 tools) shown ->
    for_each (pre ++ line :: rest) (TestMcp.scan_tools_line loads) w =
    (Val tt,
     extend w
       (Print ("Found " ++ PyStr.of_Z (Z.of_nat (length tools)) ++ " tools:")%string
        :: map (fun s => Print (tool_line s)) shown
        ++ (if (5 <? length tools)%nat
            then [Print ("  ... and "
                         ++ PyStr.of_Z (Z.of_nat (length tools) - 5)
                         ++ " more tools")%string]
            else []))
       (pre ++ [line]))
    /\ length shown = Nat.min 5 (length tools).
Proof.
  intros loads pre line rest members result tools shown w
         Hpre Hline Hres Htools Hshown.
  split.
  - rewrite (for_each_pass _ (fun l => [l]) pre).
    + rewrite (for_each_break _ _ _ _ _
                 (scan_tools_line_listing _ _ _ _ _ _ _ Hline Hres Htools Hshown)).
      rewrite extend_extend, flat_map_single. reflexivity.
    + eapply Forall_impl; [| exact Hpre].
      intros l Hl w'. now apply scan_tools_line_not_a_listing.
  - rewrite <- (Forall2_length Hshown). apply length_firstn.
Qed.

(** C9 on [seven_tools], after a line of log and before a second
    listing: five tools are shown and two counted, once. *)
Lemma tools_listing_of_seven_tools :
  for_each (["starting"] ++ seven_tools :: [seven_tools])
           (TestMcp.scan_tools_line Json.loads) fresh =
  (Val tt,
   extend fresh
     (Print ("Found " ++ PyStr.of_Z (Z.of_nat (length listing_tools)) ++ " tools:")%string
      :: map (fun s => Print (tool_line s)) listing_shown
      ++ (if (5 <? length listing_tools)%nat
          then [Print ("  ... and "
                       ++ PyStr.of_Z (Z.of_nat (length listing_tools) - 5)
                       ++ " more tools")%string]
          else []))
     (["starting"] ++ [seven_tools]))
  /\ length listing_shown = Nat.min 5 (length listing_tools).
Proof.
  assert (H1 : Forall (not_a_listing Json.loads) ["starting"]).
  { constructor; [| constructor]. left. vm_compute. reflexivity. }
  assert (H2 : Json.loads seven_tools = Json.Decoded (JObj listing_members))
    by (vm_compute; reflexivity).
  assert (H3 : Py.lookup "result" listing_members = Some (JObj listing_result))
    by (vm_compute; reflexivity).
  assert (H4 : Py.lookup "tools" listing_result = Some (JArr listing_tools))
    by (vm_compute; reflexivity).
  assert (H5 : Forall2 tool_shown (firstn 5 listing_tools) listing_shown).
  { cbn [firstn listing_tools listing_shown].
    repeat (constructor;
            [eexists; split; [reflexivity | split; vm_compute; reflexivity] |]).
    constructor. }
  exact (tools_listing_shows_first_five Json.loads ["starting"] seven_tools
           [seven_tools] listing_members listing_result listing_tools
           listing_shown fresh H1 H2 H3 H4 H5).
Defined.

(** What the listing of [seven_tools] prints. *)
Lemma tools_listing_of_seven_tools_printed :
  printed (trace (snd (for_each (["starting"] ++ seven_tools :: [seven_tools])
                         (TestMcp.scan_tools_line Json.loads) fresh))) =
  [ "Found 7 tools:";
    "  - get_cik_by_ticker: Get the CIK for a company based on its ticker symbol, as the...";
    "  - b: B..."; "  - c: ..."; "  - d: D..."; "  - e: E...";
    "  ... and 2 more tools" ].
Proof. vm_compute. reflexivity. Qed.

(* ================================================================== *)
(** ** Further properties of the scripts *)

(** X1. [test_apple_cik] lets no [Exception] out: whatever the container
    does and however the lines decode, an exception that leaves the
    function is neither a [TimeoutExpired] nor any other [Exception]; only
    what [except Exception] does not catch ([KeyboardInterrupt],
    [SystemExit]) goes through. *)
Theorem test_apple_cik_catches_every_exception :
  forall (loads : string -> Json.decoded) (c : child) (w : world) (e : py_exn),
    fst (SimpleMcpTest.test_apple_cik loads c w) = Err e ->
    is_Exception e = false /\ is_TimeoutExpired e = false.
Proof.
  intros loads c w e. rewrite test_apple_cik_eq.
  assert (R : forall e' w', fst (report_failure e' w') = Err e ->
                            is_Exception e = false /\ is_TimeoutExpired e = false).
  { intros e' w'. rewrite report_failure_eq.
    destruct (is_TimeoutExpired e') eqn:T; [discriminate |].
    destruct (is_Exception e') eqn:X; [discriminate |].
    cbn [fst]. intro H; inversion H; subst. now split. }
  destruct c as [out err | | e' | e']; try apply R.
  - destruct (for_each _ _ _) as [[a | e'] w']; [discriminate | apply R].
  - discriminate.
Qed.

(** X1 on a keyboard interrupt while the container is started: it is
    what leaves the function. *)
Lemma keyboard_interrupt_leaves_test_apple_cik :
  fst (SimpleMcpTest.test_apple_cik Json.loads
         (CannotStart (Exc (NotAnException "KeyboardInterrupt") "")) fresh)
    = Err (Exc (NotAnException "KeyboardInterrupt") "")
  /\ is_Exception (Exc (NotAnException "KeyboardInterrupt") "") = false
  /\ is_TimeoutExpired (Exc (NotAnException "KeyboardInterrupt") "") = false.
Proof.
  assert (H : fst (SimpleMcpTest.test_apple_cik Json.loads
                     (CannotStart (Exc (NotAnException "KeyboardInterrupt") ""))
                     fresh)
              = Err (Exc (NotAnException "KeyboardInterrupt") ""))
    by (vm_compute; reflexivity).
  split; [exact H |].
  exact (test_apple_cik_catches_every_exception Json.loads
           (CannotStart (Exc (NotAnException "KeyboardInterrupt") "")) fresh
           (Exc (NotAnException "KeyboardInterrupt") "") H).
Defined.

(** X2. [simple-mcp-test.py] reports at most one thing.  For every
    output of a child that ended in time and every decoder, it prints the
    raw output and then nothing, or one answer, or one line for one
    exception.  An answer printed is the decoded value of a line of the
    output that passes the guard and decodes to an object whose [id] is 2:
    no other value is ever printed as matched result, and never two. *)
Theorem test_apple_cik_reports_once :
  forall (loads : string -> Json.decoded) (out err : string) (w : world),
    exists tail,
      simple_report loads (PyStr.split PyStr.LF (PyStr.strip out)) tail
      /\ trace (snd (SimpleMcpTest.test_apple_cik loads (Exits out err) w))
         = trace w ++ raw_output_events out err ++ tail.
Proof.
  intros loads out err w. rewrite test_apple_cik_exits.
  destruct (scan_lines_cases loads (PyStr.split PyStr.LF (PyStr.strip out))
              (extend w (raw_output_events out err) []))
    as [(calls & ->) | [(line & members & calls & Hin & Ha & ->) | (e & calls & ->)]].
  - exists []. split; [constructor |]. cbn [snd extend trace].
    now rewrite <- !app_assoc.
  - eexists. split; [eapply report_answer; eassumption |].
    cbn [snd extend trace]. now rewrite <- !app_assoc.
  - rewrite report_failure_eq.
    destruct (is_TimeoutExpired e) eqn:T; [| destruct (is_Exception e) eqn:X].
    + eexists. split; [apply report_timeout |].
      cbn [snd extend trace]. now rewrite <- !app_assoc.
    + eexists. split; [apply (report_error _ _ e X) |].
      cbn [snd extend trace]. now rewrite <- !app_assoc.
    + exists []. split; [constructor |]. cbn [snd extend trace].
      now rewrite <- !app_assoc.
Qed.

(** X3. The main block of [test-mcp.py], whatever the two containers
    answer and however the lines decode: after the first heading and the
    events of the first request it prints at most seven lines (the count,
    five tools, the rest); then either an exception has ended the script,
    and the second test is never started, or the second heading and
    request follow, with at most two lines printed for the lookup. *)
Theorem main_runs_both_tests_or_raises :
  forall (loads : string -> Json.decoded) (c1 c2 : child) (w : world),
    exists prints1 tail,
      Forall is_print prints1
      /\ length prints1 <= 7
      /\ trace (snd (TestMcp.main loads c1 c2 w)) =
           trace w ++ Print heading_tools
           :: send_events TestMcp.list_request c1 ++ prints1 ++ tail
      /\ ((tail = [] /\ exists e, fst (TestMcp.main loads c1 c2 w) = Err e)
          \/ exists prints2,
               Forall is_print prints2
               /\ length prints2 <= 2
               /\ tail = Print heading_cik
                         :: send_events TestMcp.cik_request c2 ++ prints2).
Proof.
  intros loads c1 c2 w.
  destruct (main_within loads c1 c2) as (r1 & p1 & k1 & HP1 & HL1 & _ & H).
  destruct r1 as [[] | e].
  - destruct H as (r2 & p2 & k2 & HP2 & HL2 & _ & H).
    exists p1, (Print heading_cik :: send_events TestMcp.cik_request c2 ++ p2).
    split; [exact HP1 |]. split; [exact HL1 |]. split.
    + rewrite H. cbn [snd extend trace]. reflexivity.
    + right. exists p2. now repeat split.
  - exists p1, []. split; [exact HP1 |]. split; [exact HL1 |]. split.
    + rewrite H. cbn [snd extend trace]. now rewrite app_nil_r.
    + left. split; [reflexivity |]. exists e. now rewrite H.
Qed.

(** X4. What can end [test-mcp.py] with an exception: a [TypeError] or a
    [KeyError] of a loop body, an exception of the decoder that is no
    [JSONDecodeError], or an exception of the start of a container or of
    the exchange with it.  Nothing else is raised. *)
Theorem main_raises_only :
  forall (loads : string -> Json.decoded) (c1 c2 : child) (w : world)
         (e : py_exn),
    fst (TestMcp.main loads c1 c2 w) = Err e ->
    loop_exn loads e
    \/ c1 = CannotStart e \/ c1 = BreaksPipe e
    \/ c2 = CannotStart e \/ c2 = BreaksPipe e.
Proof.
  intros loads c1 c2 w e.
  destruct (main_within loads c1 c2) as (r1 & p1 & k1 & _ & _ & HE1 & H).
  destruct r1 as [[] | e1].
  - destruct H as (r2 & p2 & k2 & _ & _ & HE2 & H).
    rewrite H. cbn [fst]. intros ->.
    destruct (HE2 e eq_refl) as [? | [? | ?]]; auto.
  - rewrite H. cbn [fst]. intros [= <-].
    destruct (HE1 e1 eq_refl) as [? | [? | ?]]; auto.
Qed.

(** X4 on a first line that is the number 42: the [TypeError] of
    ['result' in 42] ends the script. *)
Lemma main_raises_on_a_number :
  fst (TestMcp.main Json.loads (Exits "42" "") TimesOut fresh)
    = Err (Py.type_error "argument of type 'int' is not iterable")
  /\ (loop_exn Json.loads (Py.type_error "argument of type 'int' is not iterable")
      \/ Exits "42" "" = CannotStart (Py.type_error "argument of type 'int' is not iterable")
      \/ Exits "42" "" = BreaksPipe (Py.type_error "argument of type 'int' is not iterable")
      \/ TimesOut = CannotStart (Py.type_error "argument of type 'int' is not iterable")
      \/ TimesOut = BreaksPipe (Py.type_error "argument of type 'int' is not iterable")).
Proof.
  assert (H : fst (TestMcp.main Json.loads (Exits "42" "") TimesOut fresh)
              = Err (Py.type_error "argument of type 'int' is not iterable"))
    by (vm_compute; reflexivity).
  split; [exact H |].
  exact (main_raises_only Json.loads (Exits "42" "") TimesOut fresh
           (Py.type_error "argument of type 'int' is not iterable") H).
Defined.

(** X5. A line of the container's output that is a JSON scalar (a bare
    number, [true], [null]) ends either loop of [test-mcp.py] with a
    [TypeError]: ['result' in response] is asked of a value that is no
    container, and only [JSONDecodeError] is caught. *)
Theorem scalar_line_raises_type_error :
  forall (loads : string -> Json.decoded) (line : string) (v : json) (w : world),
    loads line = Json.Decoded v ->
    scalar v = true ->
    exists msg,
      TestMcp.scan_tools_line loads line w
        = (Err (Exc TypeError msg), extend w [] [line])
      /\ TestMcp.scan_cik_line loads line w
        = (Err (Exc TypeError msg), extend w [] [line]).
Proof.
  intros loads line v w L S.
  exists ("argument of type '" ++ Py.type_name v ++ "' is not iterable")%string.
  unfold TestMcp.scan_tools_line, TestMcp.scan_cik_line.
  split; py_step; rewrite L; destruct v; try discriminate S; reflexivity.
Qed.

(** X5 on the line [42]. *)
Lemma scalar_line_42_raises_type_error :
  exists msg,
    TestMcp.scan_tools_line Json.loads "42" fresh
      = (Err (Exc TypeError msg), extend fresh [] ["42"%string])
    /\ TestMcp.scan_cik_line Json.loads "42" fresh
      = (Err (Exc TypeError msg), extend fresh [] ["42"%string]).
Proof.
  assert (L : Json.loads "42" = Json.Decoded (JInt 42)) by (vm_compute; reflexivity).
  exact (scalar_line_raises_type_error Json.loads "42" (JInt 42) fresh L eq_refl).
Defined.

(** X6. A tool among the first five that has no [name], or a [name] and
    no [description], ends the listing: the count and the tools before it
    are printed, then [tool['name']] or [tool['description']] raises a
    [KeyError] that nothing catches. *)
Theorem tool_without_a_key_ends_the_listing :
  forall (loads : string -> Json.decoded) (line : string)
         (members result : list (string * json)) (tools good rest : list json)
         (bad : list (string * json)) (shown : list (string * string))
         (key : string) (w : world),
    loads line = Json.Decoded (JObj members) ->
    Py.lookup "result" members = Some (JObj result) ->
    Py.lookup "tools" result = Some (JArr tools) ->
    firstn 5 tools = good ++ JObj bad :: rest ->
    Forall2 tool_shown good shown ->
    (key = "name"%string /\ Py.lookup "name" bad = None)
    \/ (key = "description"%string /\ Py.has_key "name" bad = true
        /\ Py.lookup "description" bad = None) ->
    TestMcp.scan_tools_line loads line w =
    (Err (Exc KeyError ("'" ++ key ++ "'")%string),
     extend w
       (Print (found_line tools) :: map (fun s => Print (tool_line s)) shown)
       [line]).
Proof.
  intros loads line members result tools good rest bad shown key w
         H Hres Htools Hfirst Hshown Hkey.
  assert (Hbad :
            Py.getitem (JObj bad) "name" = Err (Exc KeyError (Py.repr_str key))
            \/ (exists name, Py.getitem (JObj bad) "name" = Val name)
               /\ Py.getitem (JObj bad) "description"
                  = Err (Exc KeyError (Py.repr_str key))).
  { cbn [Py.getitem].
    destruct Hkey as [(-> & ->) | (-> & Hn & ->)]; [now left | right].
    unfold Py.has_key in Hn.
    destruct (Py.lookup "name" bad) as [name |]; [| discriminate].
    split; [now exists name | reflexivity]. }
  assert (Hrepr : Py.repr_str key = ("'" ++ key ++ "'")%string)
    by (destruct Hkey as [(-> & _) | (-> & _)]; reflexivity).
  unfold TestMcp.scan_tools_line. py_step. rewrite H.
  rewrite (has_nested_dict _ _ _ _ _ Hres Htools). py_step.
  cbn [Py.getitem]. rewrite Hres. py_step.
  cbn [Py.getitem]. rewrite Htools. py_step.
  repeat (cbn [Py.len Py.slice_to Py.iter]; py_step).
  rewrite Hfirst.
  rewrite (bind_err _ _ _ _ _
             (print_tools_until_key_error _ _ _ rest key Hshown Hbad _)).
  rewrite !extend_extend, Hrepr. reflexivity.
Qed.

(** X6 on a listing of two tools, the second without a name: the count
    and the first tool are printed before the [KeyError]. *)
Lemma second_tool_without_a_name :
  TestMcp.scan_tools_line Json.loads
    (PyStr.text "{'result': {'tools': [{'name': 'a', 'description': 'A'}, {'title': 'b'}]}}")
    fresh
  = (Err (Exc KeyError "'name'"),
     extend fresh
       [ Print "Found 2 tools:"; Print "  - a: A..." ]
       [ PyStr.text "{'result': {'tools': [{'name': 'a', 'description': 'A'}, {'title': 'b'}]}}" ]).
Proof.
  assert (L : Json.loads
                (PyStr.text "{'result': {'tools': [{'name': 'a', 'description': 'A'}, {'title': 'b'}]}}")
              = Json.Decoded
                  (JObj [("result",
                          JObj [("tools",
                                 JArr [ JObj [("name", JStr "a");
                                              ("description", JStr "A")];
                                        JObj [("title", JStr "b")] ])])]))
    by (vm_compute; reflexivity).
  assert (S : Forall2 tool_shown
                [JObj [("name", JStr "a"); ("description", JStr "A")]]
                [("a"%string, "A"%string)]).
  { constructor; [| constructor].
    exists [("name"%string, JStr "a"); ("description"%string, JStr "A")].
    repeat split. }
  exact (tool_without_a_key_ends_the_listing Json.loads _
           [("result"%string,
             JObj [("tools"%string,
                    JArr [ JObj [("name"%string, JStr "a");
                                 ("description"%string, JStr "A")];
                           JObj [("title"%string, JStr "b")] ])])]
           [("tools"%string,
             JArr [ JObj [("name"%string, JStr "a");
                          ("description"%string, JStr "A")];
                    JObj [("title"%string, JStr "b")] ])]
           [ JObj [("name"%string, JStr "a"); ("description"%string, JStr "A")];
             JObj [("title"%string, JStr "b")] ]
           [ JObj [("name"%string, JStr "a"); ("description"%string, JStr "A")] ]
           []
           [("title"%string, JStr "b")]
           [("a"%string, "A"%string)]
           "name" fresh
           L eq_refl eq_refl eq_refl S (or_introl (conj eq_refl eq_refl))).
Defined.

(** X7. In the second loop a [result] with a [content] is printed
    whatever the [id] of the answer is, and whether it has one: the test
    of the [id] is only made when there is no [content]. *)
Theorem content_is_printed_whatever_the_id :
  forall (loads : string -> Json.decoded) (line : string)
         (members result : list (string * json)) (content : json) (w : world),
    loads line = Json.Decoded (JObj members) ->
    Py.lookup "result" members = Some (JObj result) ->
    Py.lookup "content" result = Some content ->
    TestMcp.scan_cik_line loads line w =
    (Val Break,
     extend w [ Print heading_answer; Print (Json.dumps_indent 2 content) ]
       [line]).
Proof.
  intros loads line members result content w H Hres Hcontent.
  unfold TestMcp.scan_cik_line. py_step. rewrite H.
  rewrite (has_nested_dict _ _ _ _ _ Hres Hcontent). repeat py_step.
  cbn [Py.getitem]. rewrite Hres. py_step.
  cbn [Py.getitem]. rewrite Hcontent. repeat py_step.
  now rewrite ret_eq, !extend_extend.
Qed.

(** X7 on an answer whose [id] is 1. *)
Lemma content_of_another_answer_is_printed :
  TestMcp.scan_cik_line Json.loads
    (PyStr.text "{'id': 1, 'result': {'content': []}}") fresh
  = (Val Break,
     extend fresh [ Print heading_answer; Print (Json.dumps_indent 2 (JArr [])) ]
       [ PyStr.text "{'id': 1, 'result': {'content': []}}" ]).
Proof.
  assert (L : Json.loads (PyStr.text "{'id': 1, 'result': {'content': []}}")
              = Json.Decoded
                  (JObj [("id", JInt 1);
                         ("result", JObj [("content", JArr [])])]))
    by (vm_compute; reflexivity).
  exact (content_is_printed_whatever_the_id Json.loads _
           [("id"%string, JInt 1);
            ("result"%string, JObj [("content"%string, JArr [])])]
           [("content"%string, JArr [])] (JArr []) fresh
           L eq_refl eq_refl).
Defined.

(** X8. A [result] that is no dict and yet holds ['content'] (a str
    with that word in it, a list with that str in it) passes the test of
    the second loop; the heading is printed, and then
    [response['result']['content']] raises a [TypeError]. *)
Theorem content_in_a_result_that_is_no_dict :
  forall (loads : string -> Json.decoded) (line : string)
         (members : list (string * json)) (result : json) (w : world),
    loads line = Json.Decoded (JObj members) ->
    Py.lookup "result" members = Some result ->
    is_dict result = false ->
    Py.contains "content" result = Val true ->
    exists msg,
      TestMcp.scan_cik_line loads line w =
      (Err (Exc TypeError msg), extend w [Print heading_answer] [line]).
Proof.
  intros loads line members result w H Hres Hd Hc.
  assert (G : exists msg, Py.getitem result "content" = Err (Exc TypeError msg)).
  { destruct result; try discriminate Hd; try discriminate Hc;
      eexists; reflexivity. }
  destruct G as (msg & G). exists msg.
  unfold TestMcp.scan_cik_line. py_step. rewrite H.
  unfold TestMcp.has_nested.
  cbn [Py.contains Py.getitem]. rewrite (has_key_lookup _ _ _ Hres), Hres, Hc.
  repeat py_step. cbn [Py.getitem]. rewrite ?Hres. repeat py_step.
  rewrite G, bind_lift. now rewrite extend_extend.
Qed.

(** X8 on the result ["no content"]. *)
Lemma content_in_a_text_result :
  exists msg,
    TestMcp.scan_cik_line Json.loads
      (PyStr.text "{'id': 3, 'result': 'no content'}") fresh
    = (Err (Exc TypeError msg),
       extend fresh [Print heading_answer]
         [ PyStr.text "{'id': 3, 'result': 'no content'}" ]).
Proof.
  assert (L : Json.loads (PyStr.text "{'id': 3, 'result': 'no content'}")
              = Json.Decoded
                  (JObj [("id", JInt 3); ("result", JStr "no content")]))
    by (vm_compute; reflexivity).
  exact (content_in_a_result_that_is_no_dict Json.loads _
           [("id"%string, JInt 3); ("result"%string, JStr "no content")]
           (JStr "no content") fresh L eq_refl eq_refl eq_refl).
Defined.

(** X9. In the second loop a [result] without [content] is judged by the
    [id] of the answer: the whole result is printed when the [id] is 3,
    and the line is passed over when it is not. *)
Theorem result_without_content_is_judged_by_id :
  forall (loads : string -> Json.decoded) (line : string)
         (members : list (string * json)) (result id : json) (w : world),
    loads line = Json.Decoded (JObj members) ->
    Py.lookup "result" members = Some result ->
    Py.contains "content" result = Val false ->
    Py.lookup "id" members = Some id ->
    TestMcp.scan_cik_line loads line w =
    if Py.eq_int id 3
    then (Val Break,
          extend w [ Print heading_answer; Print (Json.dumps_indent 2 result) ]
            [line])
    else (Val Continue, extend w [] [line]).
Proof.
  intros loads line members result id w H Hres Hc Hid.
  unfold TestMcp.scan_cik_line. py_step. rewrite H.
  unfold TestMcp.has_nested.
  cbn [Py.contains Py.getitem]. rewrite (has_key_lookup _ _ _ Hres), Hres, Hc.
  repeat py_step. rewrite Hid. rewrite bind_assoc. repeat py_step.
  destruct (Py.eq_int id 3); repeat py_step.
  - cbn [Py.getitem]. rewrite ?Hres. repeat py_step.
    now rewrite ret_eq, !extend_extend.
  - now rewrite ret_eq, extend_extend.
Qed.

(** X9 on the answer to the handshake, whose [id] is 1: passed over. *)
Lemma handshake_answer_is_passed_over :
  TestMcp.scan_cik_line Json.loads
    (PyStr.text "{'id': 1, 'result': {'serverInfo': {}}}") fresh
  = (Val Continue,
     extend fresh [] [ PyStr.text "{'id': 1, 'result': {'serverInfo': {}}}" ]).
Proof.
  assert (L : Json.loads (PyStr.text "{'id': 1, 'result': {'serverInfo': {}}}")
              = Json.Decoded
                  (JObj [("id", JInt 1);
                         ("result", JObj [("serverInfo", JObj [])])]))
    by (vm_compute; reflexivity).
  exact (result_without_content_is_judged_by_id Json.loads _
           [("id"%string, JInt 1);
            ("result"%string, JObj [("serverInfo"%string, JObj [])])]
           (JObj [("serverInfo"%string, JObj [])]) (JInt 1) fresh
           L eq_refl eq_refl eq_refl).
Defined.

(** X10. An answer without [result], such as a JSON-RPC error, is passed
    over by both loops of [test-mcp.py] without a word, whatever its [id]
    and its other members. *)
Theorem answer_without_result_is_passed_over :
  forall (loads : string -> Json.decoded) (line : string)
         (members : list (string * json)) (w : world),
    loads line = Json.Decoded (JObj members) ->
    Py.lookup "result" members = None ->
    TestMcp.scan_tools_line loads line w = (Val Continue, extend w [] [line])
    /\ TestMcp.scan_cik_line loads line w = (Val Continue, extend w [] [line]).
Proof.
  intros loads line members w H Hres.
  assert (K : Py.has_key "result" members = false)
    by (unfold Py.has_key; now rewrite Hres).
  split.
  - apply scan_tools_line_not_a_listing. right. exists (JObj members).
    split; [exact H |]. unfold TestMcp.has_nested. cbn [Py.contains].
    now rewrite K.
  - unfold TestMcp.scan_cik_line. py_step. rewrite H.
    unfold TestMcp.has_nested. cbn [Py.contains]. rewrite K.
    repeat py_step. now rewrite ret_eq, extend_extend.
Qed.

(** X10 on an error answer to the CIK lookup. *)
Lemma error_answer_is_passed_over :
  TestMcp.scan_tools_line Json.loads
    (PyStr.text "{'id': 3, 'error': {'code': -32602, 'message': 'Unknown tool'}}")
    fresh
  = (Val Continue,
     extend fresh []
       [ PyStr.text "{'id': 3, 'error': {'code': -32602, 'message': 'Unknown tool'}}" ])
  /\ TestMcp.scan_cik_line Json.loads
       (PyStr.text "{'id': 3, 'error': {'code': -32602, 'message': 'Unknown tool'}}")
       fresh
     = (Val Continue,
        extend fresh []
          [ PyStr.text "{'id': 3, 'error': {'code': -32602, 'message': 'Unknown tool'}}" ]).
Proof.
  assert (L : Json.loads
                (PyStr.text "{'id': 3, 'error': {'code': -32602, 'message': 'Unknown tool'}}")
              = Json.Decoded
                  (JObj [("id", JInt 3);
                         ("error", JObj [("code", JInt (-32602));
                                         ("message", JStr "Unknown tool")])]))
    by (vm_compute; reflexivity).
  exact (answer_without_result_is_passed_over Json.loads _
           [("id"%string, JInt 3);
            ("error"%string, JObj [("code"%string, JInt (-32602));
                                   ("message"%string, JStr "Unknown tool")])]
           fresh L eq_refl).
Defined.

(** X11. The guard of the loop of [simple-mcp-test.py],
    [line.strip() and line.startswith('{')], is decided by the first
    character of the line alone: a line that starts with a brace is never
    blank, so the first test never changes the outcome. *)
Theorem guard_is_the_first_character :
  forall line : string,
    SimpleMcpTest.wanted line = PyStr.startswith "{" line.
Proof.
  intro line. unfold SimpleMcpTest.wanted.
  destruct (PyStr.startswith "{" line) eqn:S; [| apply andb_false_r].
  destruct (startswith_brace line S) as (rest & ->).
  unfold PyStr.strip. cbn [PyStr.lstrip].
  change (PyStr.isspace "{") with false. cbv iota.
  rewrite rstrip_cons. reflexivity.
Qed.

(** X12. A line that passes the guard of [simple-mcp-test.py] and that
    the decoder of the library accepts, decodes to an object: the text
    starts with a brace.  This holds of every line, whatever code points
    its escapes name.  Where the value is a [json] value of this
    development ([Json.narrow]), it is a dict, so [response.get] finds
    its method on every line the loop decodes, and the [AttributeError]
    that a number or a list would raise cannot occur there. *)
Theorem wanted_line_decodes_to_a_dict :
  forall line : string,
    SimpleMcpTest.wanted line = true ->
    (forall v,
        Json.decode line = Json.Scanned v ->
        exists members, v = Json.WObj members)
    /\ (forall v j,
          Json.decode line = Json.Scanned v ->
          Json.narrow v = Some j ->
          exists members, j = JObj members /\ Py.get j "id" = Val (id_of members)).
Proof.
  intros line W.
  apply andb_prop in W as (_ & W).
  destruct (startswith_brace line W) as (rest & ->).
  split.
  - intros v D. apply decode_brace in D.
    destruct v as [| | | | | | members]; try discriminate D.
    now exists members.
  - intros v j D N.
    pose proof (narrow_object v j (decode_brace rest v D) N) as Hd.
    destruct j as [| | | | | | members]; try discriminate Hd.
    exists members. split; [reflexivity |].
    unfold Py.get, id_of. now destruct (Py.lookup "id" members).
Qed.

(** X12 on the line [{"id": 2, "name": "Apple \u2014 Inc."}], whose
    escape names a code point above U+00FF. *)
Lemma wanted_line_with_a_dash :
  exists members,
    Json.WObj
      [ ([105; 100]%Z, Json.WInt 2);
        ([110; 97; 109; 101]%Z,
         Json.WStr [65; 112; 112; 108; 101; 32; 8212; 32; 73; 110; 99; 46]%Z) ]
    = Json.WObj members.
Proof.
  assert (W : SimpleMcpTest.wanted
                (PyStr.text "{'id': 2, 'name': 'Apple \u2014 Inc.'}") = true)
    by (vm_compute; reflexivity).
  assert (D : Json.decode (PyStr.text "{'id': 2, 'name': 'Apple \u2014 Inc.'}")
              = Json.Scanned
                  (Json.WObj
                     [ ([105; 100]%Z, Json.WInt 2);
                       ([110; 97; 109; 101]%Z,
                        Json.WStr [65; 112; 112; 108; 101; 32; 8212; 32;
                                   73; 110; 99; 46]%Z) ]))
    by (vm_compute; reflexivity).
  exact (proj1 (wanted_line_decodes_to_a_dict
                  (PyStr.text "{'id': 2, 'name': 'Apple \u2014 Inc.'}") W) _ D).
Defined.

(** X13. [test-mcp.py] never looks at the standard error of the
    container: the value [send_mcp_request] returns for it is bound and
    not used, so two runs that differ only in what the containers wrote
    there end alike and leave the same trace. *)
Theorem main_ignores_stderr :
  forall (loads : string -> Json.decoded) (out1 err1 err1' out2 err2 err2' : string)
         (w : world),
    TestMcp.main loads (Exits out1 err1) (Exits out2 err2) w
    = TestMcp.main loads (Exits out1 err1') (Exits out2 err2') w.
Proof.
  intros loads out1 err1 err1' out2 err2 err2' w. unfold TestMcp.main.
  apply bind_ext; intros _ w1.
  unfold bind at 1 3.
  rewrite (run_test_ignores_stderr _ _ out1 err1 err1').
  destruct (TestMcp.run_test _ _ _ w1) as [[a | e] w2]; [| reflexivity].
  apply bind_ext; intros _ w3.
  apply run_test_ignores_stderr.
Qed.

(** X14. [simple-mcp-test.py] shows the standard error of the container
    and does nothing else with it: what the run returns, what it prints
    after the raw output and what it hands to the decoder depend on the
    standard output alone. *)
Theorem test_apple_cik_only_shows_stderr :
  forall (loads : string -> Json.decoded) (out : string),
    exists (r : res unit) (tail : list event) (calls : list string),
      forall (err : string) (w : world),
        SimpleMcpTest.test_apple_cik loads (Exits out err) w
        = (r, extend w (raw_output_events out err ++ tail) calls).
Proof.
  intros loads out.
  destruct (steady_for_each is_print
              (PyStr.split PyStr.LF (PyStr.strip out))
              (SimpleMcpTest.scan_line loads) (prints_scan_line loads))
    as (r & evs & calls & _ & Hloop).
  destruct r as [[] | e].
  - exists (Val tt), evs, calls. intros err w.
    rewrite test_apple_cik_exits, Hloop, extend_extend. reflexivity.
  - destruct (is_TimeoutExpired e) eqn:T; [| destruct (is_Exception e) eqn:X].
    + exists (Val tt), (evs ++ [Print "Request timed out"]), calls. intros err w.
      rewrite test_apple_cik_exits, Hloop, report_failure_eq, T.
      rewrite !extend_extend, app_nil_r. reflexivity.
    + exists (Val tt), (evs ++ [Print ("Error: " ++ exc_str e)%string]), calls.
      intros err w.
      rewrite test_apple_cik_exits, Hloop, report_failure_eq, T, X.
      rewrite !extend_extend, app_nil_r. reflexivity.
    + exists (Err e), evs, calls. intros err w.
      rewrite test_apple_cik_exits, Hloop, report_failure_eq, T, X.
      rewrite !extend_extend, !app_nil_r. reflexivity.
Qed.
